(** * Data dashboard: refresh orchestrator and live-data simulators

    A shallow embedding of the state container of
    [src/contexts/DashboardContext.tsx], of the remote fetch layer of
    [src/services/api.ts] (its interceptors, its error handler and its
    methods), of the generators of [src/services/mockDataGenerator.ts],
    of the two real-time hooks ([src/hooks/useRealTimeData.ts] and the
    connection simulator [useRealTime]), of [useLiveMetrics] and of the
    hooks [useApi], [usePolling] and [useDebouncedApi].

    Conventions of the embedding:
    - a JavaScript [number] that holds a count of milliseconds is a [Z],
      any other [number] is a rational [Q]; where the rounding of
      doubles shows in the result ([generatePerformanceMetrics],
      [generatePerformanceData], [generateTimeSeriesData]) every sum and
      product is rounded by an operator [rnd], of which the properties
      assume what rounding to the nearest double has, and a product that
      can overflow is a [Double];
    - [new Date().toISOString()] is an argument [now] of the function that
      reads the clock;
    - [Math.random()] and [Math.sin] are arguments of the generator;
    - the timer table of the JavaScript runtime ([setInterval],
      [clearInterval]) is a finite map from handles to periods;
    - a React state cell is a field of the component record; the value a
      callback closed over at the last render is the field [rendered];
    - an [async] function is cut at its [await]: the part before runs when
      the function is called, the part after when the awaited promise
      settles with an [Outcome]. *)

From Stdlib Require Import ZArith QArith Qround Lia Lqa List Permutation.
From stdpp Require Import base option list gmap strings pretty.
Import ListNotations.

Local Open Scope string_scope.
Local Open Scope Z_scope.

(** An ISO-8601 time stamp, as [Date.prototype.toISOString] returns it. *)
Definition Timestamp := string.

(** A value of JavaScript's [number] type that is not a handle or a count
    of milliseconds. *)
Definition number := Q.

(* ================================================================== *)
(** * JavaScript timers *)

Module Timers.

Definition TimerId := nat.

(** The runtime's table of repeating timers: handle to period (ms). *)
Record t := {
  active : gmap TimerId Z;
  nextId : TimerId
}.

Definition empty : t := {| active := ∅; nextId := 1%nat |}.

(** [setInterval(cb, period)]: registers a timer under a fresh handle. *)
Definition setInterval (period : Z) (tm : t) : TimerId * t :=
  (nextId tm,
   {| active := <[nextId tm := period]> (active tm);
      nextId := S (nextId tm) |}).

(** [clearInterval(id)]: a handle that is not registered is ignored. *)
Definition clearInterval (id : TimerId) (tm : t) : t :=
  {| active := delete id (active tm); nextId := nextId tm |}.

(** A timer can fire only while it is registered. *)
Definition isActive (id : TimerId) (tm : t) : bool :=
  bool_decide (is_Some (active tm !! id)).

(** Number of repeating timers that are running. *)
Definition running (tm : t) : nat := size (active tm).

End Timers.

(* ================================================================== *)
(** * src/types/index.ts *)

Module Types.

Inductive ResponseStatus := success | failure.

Module ApiResponse.
Record t (T : Type) := {
  data : T;
  status : ResponseStatus;
  message : option string;
  timestamp : Timestamp
}.
Arguments data {T} _.
Arguments status {T} _.
Arguments message {T} _.
Arguments timestamp {T} _.
End ApiResponse.

Inductive ChangeType := increase | decrease | neutral.

Inductive MetricValue :=
| NumValue (n : number)
| StrValue (s : string).

Record MetricCard := {
  mc_id : string;
  title : string;
  value : MetricValue;
  unit_ : option string;
  change : option number;
  changeType : option ChangeType;
  icon : option string;
  color : option string
}.

Record SalesData := {
  sd_id : string;
  sd_date : string;
  amount : number;
  product : string;
  sd_category : string;
  sd_region : string
}.

Record UserAnalytics := {
  ua_id : string;
  ua_date : string;
  activeUsers : number;
  newUsers : number;
  pageViews : number;
  sessionDuration : number
}.

Record PerformanceMetrics := {
  pm_id : string;
  pm_timestamp : string;
  cpuUsage : number;
  memoryUsage : number;
  responseTime : number;
  errorRate : number
}.

Module LoadingState.
Record t := {
  isLoading : bool;
  error : option string;
  lastUpdated : option Timestamp
}.
End LoadingState.

Record DateRange := { start : string; end_ : string }.

Record FilterOptions := {
  dateRange : DateRange;
  category : option string;
  region : option string
}.

(** [Partial<FilterOptions>] *)
Record PartialFilterOptions := {
  p_dateRange : option DateRange;
  p_category : option string;
  p_region : option string
}.

(** A thrown JavaScript value: an instance of [Error] with its message,
    or anything else (the fetch layer throws plain objects). *)
Inductive Thrown :=
| ErrorInstance (msg : string)
| OtherValue (repr : string).

(** The [details] the orchestrator attaches: [{ context, error }]. *)
Record ErrorDetails := { context : string; cause : Thrown }.

Module AppError.
Record t := {
  code : string;
  message : string;
  details : option ErrorDetails;
  timestamp : Timestamp
}.
End AppError.

Inductive ThemeName := light | dark | auto.
Inductive LayoutName := grid | list_.

Record DashboardConfig := {
  refreshInterval : Z;
  autoRefresh : bool;
  theme : ThemeName;
  layout : LayoutName
}.

(** [Partial<DashboardConfig>] *)
Record PartialDashboardConfig := {
  p_refreshInterval : option Z;
  p_autoRefresh : option bool;
  p_theme : option ThemeName;
  p_layout : option LayoutName
}.

End Types.

(* ================================================================== *)
(** * src/services/api.ts, as seen from the orchestrator *)

Module Api.
Import Types.

(** What [apiClient.get(url, { params })] puts on the wire. *)
Record Request := {
  method : string;
  url : string;
  params : list (string * string)
}.

(** The argument type of [salesApi.getSalesData]. A [FilterOptions]
    object passed to it keeps its [category]. *)
Definition SalesFilters := option FilterOptions.

(** A call of one method of the exported [api] object. *)
Inductive ApiCall :=
| getMetrics
| getSalesData (filters : SalesFilters)
| getUserAnalytics
| getPerformanceMetrics.

(** The HTTP request a call issues. [getMetrics] and
    [getPerformanceMetrics] only wait on a local timeout;
    [getSalesData] runs [apiClient.get('/posts')] and
    [getUserAnalytics] runs [apiClient.get('/users')], both without a
    second argument. *)
Definition request_of (c : ApiCall) : option Request :=
  match c with
  | getMetrics => None
  | getSalesData _ =>
      Some {| method := "get"; url := "/posts"; params := [] |}
  | getUserAnalytics =>
      Some {| method := "get"; url := "/users"; params := [] |}
  | getPerformanceMetrics => None
  end.

(** How the promise returned by an [api] method settles. *)
Inductive Outcome (T : Type) :=
| Resolved (response : ApiResponse.t T)
| Rejected (reason : Thrown).
Arguments Resolved {T} _.
Arguments Rejected {T} _.

End Api.

(* ================================================================== *)
(** * src/contexts/DashboardContext.tsx *)

Module Dashboard.
Import Types Api.

Record DashboardState := {
  metrics : list MetricCard;
  salesData : list SalesData;
  userAnalytics : list UserAnalytics;
  performanceMetrics : list PerformanceMetrics;
  loading : LoadingState.t;
  filters : FilterOptions;
  config : DashboardConfig;
  error : option AppError.t
}.

(** [keyof DashboardState] *)
Inductive StateKey :=
| k_metrics | k_salesData | k_userAnalytics | k_performanceMetrics
| k_loading | k_filters | k_config | k_error.

Inductive DashboardAction :=
| SET_LOADING (key : StateKey) (isLoading : bool)
| SET_ERROR (payload : option AppError.t)
| SET_METRICS (payload : list MetricCard)
| SET_SALES_DATA (payload : list SalesData)
| SET_USER_ANALYTICS (payload : list UserAnalytics)
| SET_PERFORMANCE_METRICS (payload : list PerformanceMetrics)
| SET_FILTERS (payload : FilterOptions)
| SET_CONFIG (payload : PartialDashboardConfig)
| UPDATE_LAST_UPDATED (payload : string).

(** [initialState]; the two dates are read from the clock when the
    module is loaded. *)
Definition initialState (thirtyDaysAgo today : string) : DashboardState := {|
  metrics := [];
  salesData := [];
  userAnalytics := [];
  performanceMetrics := [];
  loading := {| LoadingState.isLoading := false;
                LoadingState.error := None;
                LoadingState.lastUpdated := None |};
  filters := {| dateRange := {| start := thirtyDaysAgo; end_ := today |};
                category := None;
                region := None |};
  config := {| refreshInterval := 300000;
               autoRefresh := true;
               theme := light;
               layout := grid |};
  error := None
|}.

(** [{ ...state.config, ...action.payload }] *)
Definition mergeConfig (c : DashboardConfig) (p : PartialDashboardConfig)
  : DashboardConfig := {|
  refreshInterval := default (refreshInterval c) (p_refreshInterval p);
  autoRefresh := default (autoRefresh c) (p_autoRefresh p);
  theme := default (theme c) (p_theme p);
  layout := default (layout c) (p_layout p)
|}.

(** [{ ...state.filters, ...filters }] *)
Definition mergeFilters (f : FilterOptions) (p : PartialFilterOptions)
  : FilterOptions := {|
  dateRange := default (dateRange f) (p_dateRange p);
  category := match p_category p with Some c => Some c | None => category f end;
  region := match p_region p with Some r => Some r | None => region f end
|}.

(** [action.payload?.message || null]: the empty string is falsy. *)
Definition messageOrNull (payload : option AppError.t) : option string :=
  match payload with
  | Some e =>
      if String.eqb (AppError.message e) "" then None
      else Some (AppError.message e)
  | None => None
  end.

Definition set_loading (l : LoadingState.t) (s : DashboardState)
  : DashboardState := {|
  metrics := metrics s; salesData := salesData s;
  userAnalytics := userAnalytics s;
  performanceMetrics := performanceMetrics s;
  loading := l;
  filters := filters s; config := config s; error := error s
|}.

(** [dashboardReducer]; [now] is what [new Date().toISOString()]
    returns while the reducer runs. *)
Definition dashboardReducer (now : Timestamp)
  (state : DashboardState) (action : DashboardAction) : DashboardState :=
  match action with
  | SET_LOADING _ b =>
      set_loading
        {| LoadingState.isLoading := b;
           LoadingState.error := LoadingState.error (loading state);
           LoadingState.lastUpdated := LoadingState.lastUpdated (loading state) |}
        state
  | SET_ERROR payload =>
      {| metrics := metrics state; salesData := salesData state;
         userAnalytics := userAnalytics state;
         performanceMetrics := performanceMetrics state;
         loading :=
           {| LoadingState.isLoading := false;
              LoadingState.error := messageOrNull payload;
              LoadingState.lastUpdated := LoadingState.lastUpdated (loading state) |};
         filters := filters state; config := config state;
         error := payload |}
  | SET_METRICS payload =>
      {| metrics := payload; salesData := salesData state;
         userAnalytics := userAnalytics state;
         performanceMetrics := performanceMetrics state;
         loading :=
           {| LoadingState.isLoading := false;
              LoadingState.error := None;
              LoadingState.lastUpdated := Some now |};
         filters := filters state; config := config state;
         error := error state |}
  | SET_SALES_DATA payload =>
      {| metrics := metrics state; salesData := payload;
         userAnalytics := userAnalytics state;
         performanceMetrics := performanceMetrics state;
         loading := loading state;
         filters := filters state; config := config state;
         error := error state |}
  | SET_USER_ANALYTICS payload =>
      {| metrics := metrics state; salesData := salesData state;
         userAnalytics := payload;
         performanceMetrics := performanceMetrics state;
         loading := loading state;
         filters := filters state; config := config state;
         error := error state |}
  | SET_PERFORMANCE_METRICS payload =>
      {| metrics := metrics state; salesData := salesData state;
         userAnalytics := userAnalytics state;
         performanceMetrics := payload;
         loading := loading state;
         filters := filters state; config := config state;
         error := error state |}
  | SET_FILTERS payload =>
      {| metrics := metrics state; salesData := salesData state;
         userAnalytics := userAnalytics state;
         performanceMetrics := performanceMetrics state;
         loading := loading state;
         filters := payload; config := config state;
         error := error state |}
  | SET_CONFIG payload =>
      {| metrics := metrics state; salesData := salesData state;
         userAnalytics := userAnalytics state;
         performanceMetrics := performanceMetrics state;
         loading := loading state;
         filters := filters state;
         config := mergeConfig (config state) payload;
         error := error state |}
  | UPDATE_LAST_UPDATED payload =>
      set_loading
        {| LoadingState.isLoading := LoadingState.isLoading (loading state);
           LoadingState.error := LoadingState.error (loading state);
           LoadingState.lastUpdated := Some payload |}
        state
  end.

(** ** The provider component

    [state] is the reducer's state with every dispatched action applied;
    [rendered] is the state of the last render, the one the callbacks of
    [useCallback] and the effects closed over. [filtersObj] counts the
    [SET_FILTERS] actions: it stands for the identity of the object
    [state.filters], on which the identity of [fetchSalesData] and of
    [refreshAllData] depends. [calls] logs the calls of the [api]
    object, oldest first. [autoRefreshHandle] is the [interval] the
    cleanup of the auto-refresh effect closed over. *)
Record Provider := {
  state : DashboardState;
  rendered : DashboardState;
  filtersObj : nat;
  renderedFiltersObj : nat;
  calls : list ApiCall;
  timers : Timers.t;
  autoRefreshHandle : option Timers.TimerId
}.

Definition set_state (s : DashboardState) (p : Provider) : Provider := {|
  state := s; rendered := rendered p;
  filtersObj := filtersObj p; renderedFiltersObj := renderedFiltersObj p;
  calls := calls p; timers := timers p;
  autoRefreshHandle := autoRefreshHandle p
|}.

Definition set_filtersObj (n : nat) (p : Provider) : Provider := {|
  state := state p; rendered := rendered p;
  filtersObj := n; renderedFiltersObj := renderedFiltersObj p;
  calls := calls p; timers := timers p;
  autoRefreshHandle := autoRefreshHandle p
|}.

Definition log_call (c : ApiCall) (p : Provider) : Provider := {|
  state := state p; rendered := rendered p;
  filtersObj := filtersObj p; renderedFiltersObj := renderedFiltersObj p;
  calls := calls p ++ [c]; timers := timers p;
  autoRefreshHandle := autoRefreshHandle p
|}.

Definition set_timers (tm : Timers.t) (h : option Timers.TimerId)
  (p : Provider) : Provider := {|
  state := state p; rendered := rendered p;
  filtersObj := filtersObj p; renderedFiltersObj := renderedFiltersObj p;
  calls := calls p; timers := tm;
  autoRefreshHandle := h
|}.

Definition commit_render (p : Provider) : Provider := {|
  state := state p; rendered := state p;
  filtersObj := filtersObj p; renderedFiltersObj := filtersObj p;
  calls := calls p; timers := timers p;
  autoRefreshHandle := autoRefreshHandle p
|}.

(** ** Statements that may throw *)

Inductive Completion (A : Type) :=
| Normal (a : A)
| Throw (v : Thrown).
Arguments Normal {A} _.
Arguments Throw {A} _.

Definition M (A : Type) := Provider -> Completion A * Provider.

Definition ret {A} (a : A) : M A := fun p => (Normal a, p).

Definition throw {A} (v : Thrown) : M A := fun p => (Throw v, p).

Definition bind {A B} (m : M A) (k : A -> M B) : M B :=
  fun p =>
    match m p with
    | (Normal a, p') => k a p'
    | (Throw v, p') => (Throw v, p')
    end.

(** [try { body } catch (error) { handler }] *)
Definition try_catch {A} (body : M A) (handler : Thrown -> M A) : M A :=
  fun p =>
    match body p with
    | (Normal a, p') => (Normal a, p')
    | (Throw v, p') => handler v p'
    end.

Notation "'let*' x ':=' m 'in' k" := (bind m (fun x => k))
  (at level 10, x name, m at level 100, k at level 200).
Notation "'let*' '_' ':=' m 'in' k" := (bind m (fun _ => k))
  (at level 10, m at level 100, k at level 200).

(** [dispatch(action)] *)
Definition dispatch (now : Timestamp) (action : DashboardAction) : M unit :=
  fun p =>
    let p' := set_state (dashboardReducer now (state p) action) p in
    (Normal tt,
     match action with
     | SET_FILTERS _ => set_filtersObj (S (filtersObj p)) p'
     | _ => p'
     end).

(** Calling an [api] method: the call is logged; the method is [async],
    so the call itself returns a promise and never throws. *)
Definition call (c : ApiCall) : M unit :=
  fun p => (Normal tt, log_call c p).

(** [await promise], when the promise settles with [o]. *)
Definition await {T} (o : Outcome T) : M (ApiResponse.t T) :=
  match o with
  | Resolved response => ret response
  | Rejected reason => throw reason
  end.

(** The snapshot [state] of the closure that is running. *)
Definition closure_state : M DashboardState :=
  fun p => (Normal (rendered p), p).

(** [error instanceof Error ? error.message : '...'] *)
Definition errorMessage (error : Thrown) : string :=
  match error with
  | ErrorInstance msg => msg
  | OtherValue _ => "An unexpected error occurred"
  end.

(** [handleError] *)
Definition handleError (now : Timestamp) (error : Thrown) (context : string)
  : M unit :=
  let appError := {|
    AppError.code := "DASHBOARD_ERROR";
    AppError.message := errorMessage error;
    AppError.details := Some {| context := context; cause := error |};
    AppError.timestamp := now
  |} in
  dispatch now (SET_ERROR (Some appError)).

(** [fetchMetrics] *)
Definition fetchMetrics (now : Timestamp) (o : Outcome (list MetricCard))
  : M unit :=
  try_catch (
    let* _ := dispatch now (SET_LOADING k_metrics true) in
    let* _ := call getMetrics in
    let* response := await o in
    dispatch now (SET_METRICS (ApiResponse.data response))
  ) (fun error => handleError now error "fetchMetrics").

(** [fetchSalesData] *)
Definition fetchSalesData (now : Timestamp) (o : Outcome (list SalesData))
  : M unit :=
  try_catch (
    let* state := closure_state in
    let* _ := call (getSalesData (Some (filters state))) in
    let* response := await o in
    dispatch now (SET_SALES_DATA (ApiResponse.data response))
  ) (fun error => handleError now error "fetchSalesData").

(** [fetchUserAnalytics] *)
Definition fetchUserAnalytics (now : Timestamp)
  (o : Outcome (list UserAnalytics)) : M unit :=
  try_catch (
    let* _ := call getUserAnalytics in
    let* response := await o in
    dispatch now (SET_USER_ANALYTICS (ApiResponse.data response))
  ) (fun error => handleError now error "fetchUserAnalytics").

(** [fetchPerformanceMetrics] *)
Definition fetchPerformanceMetrics (now : Timestamp)
  (o : Outcome (list PerformanceMetrics)) : M unit :=
  try_catch (
    let* _ := call getPerformanceMetrics in
    let* response := await o in
    dispatch now (SET_PERFORMANCE_METRICS (ApiResponse.data response))
  ) (fun error => handleError now error "fetchPerformanceMetrics").

(** ** The fetches, cut at their [await]

    [fetchX_call] is what runs when [fetchX()] is called, up to the
    [await]; [fetchX_settle] is what runs when the awaited promise
    settles. Nothing before the [await] can throw, so the [try] matters
    for the second part only. *)

Definition fetchMetrics_call (now : Timestamp) (p : Provider) : Provider :=
  snd ((let* _ := dispatch now (SET_LOADING k_metrics true) in
        call getMetrics) p).

Definition fetchMetrics_settle (now : Timestamp)
  (o : Outcome (list MetricCard)) : M unit :=
  try_catch (
    let* response := await o in
    dispatch now (SET_METRICS (ApiResponse.data response))
  ) (fun error => handleError now error "fetchMetrics").

Definition fetchSalesData_call (p : Provider) : Provider :=
  snd ((let* state := closure_state in
        call (getSalesData (Some (filters state)))) p).

Definition fetchSalesData_settle (now : Timestamp)
  (o : Outcome (list SalesData)) : M unit :=
  try_catch (
    let* response := await o in
    dispatch now (SET_SALES_DATA (ApiResponse.data response))
  ) (fun error => handleError now error "fetchSalesData").

Definition fetchUserAnalytics_call (p : Provider) : Provider :=
  snd (call getUserAnalytics p).

Definition fetchUserAnalytics_settle (now : Timestamp)
  (o : Outcome (list UserAnalytics)) : M unit :=
  try_catch (
    let* response := await o in
    dispatch now (SET_USER_ANALYTICS (ApiResponse.data response))
  ) (fun error => handleError now error "fetchUserAnalytics").

Definition fetchPerformanceMetrics_call (p : Provider) : Provider :=
  snd (call getPerformanceMetrics p).

Definition fetchPerformanceMetrics_settle (now : Timestamp)
  (o : Outcome (list PerformanceMetrics)) : M unit :=
  try_catch (
    let* response := await o in
    dispatch now (SET_PERFORMANCE_METRICS (ApiResponse.data response))
  ) (fun error => handleError now error "fetchPerformanceMetrics").

(** ** [refreshAllData] *)

Inductive Kind := Metrics | Sales | Users | Performance.

Definition allKinds : list Kind := [Metrics; Sales; Users; Performance].

#[global] Instance Kind_eq_dec : EqDecision Kind.
Proof. solve_decision. Defined.

(** How the four remote calls of one [refreshAllData] settle. *)
Record Outcomes := {
  o_metrics : Outcome (list MetricCard);
  o_sales : Outcome (list SalesData);
  o_users : Outcome (list UserAnalytics);
  o_performance : Outcome (list PerformanceMetrics)
}.

(** Evaluating the array literal passed to [Promise.all]: the four
    fetches are called from left to right, each runs up to its
    [await]. *)
Definition refreshAllData_call (now : Timestamp) (p : Provider) : Provider :=
  fetchPerformanceMetrics_call
    (fetchUserAnalytics_call
       (fetchSalesData_call
          (fetchMetrics_call now p))).

(** The continuation of the fetch of kind [k], run at time [now]. *)
Definition settle (os : Outcomes) (k : Kind) (now : Timestamp) : M unit :=
  match k with
  | Metrics => fetchMetrics_settle now (o_metrics os)
  | Sales => fetchSalesData_settle now (o_sales os)
  | Users => fetchUserAnalytics_settle now (o_users os)
  | Performance => fetchPerformanceMetrics_settle now (o_performance os)
  end.

(** The continuations run one after the other in the order in which the
    remote calls settle; a continuation that throws rejects its own
    promise and leaves the others to run. *)
Fixpoint settleAll (os : Outcomes) (order : list (Kind * Timestamp))
  (p : Provider) : list (Completion unit) * Provider :=
  match order with
  | [] => ([], p)
  | (k, now) :: rest =>
      let '(c, p1) := settle os k now p in
      let '(cs, p2) := settleAll os rest p1 in
      (c :: cs, p2)
  end.

(** [await Promise.all(promises)]: fulfilled when every promise is,
    rejected with the first rejection otherwise. *)
Fixpoint promiseAll (cs : list (Completion unit)) : Completion unit :=
  match cs with
  | [] => Normal tt
  | Normal _ :: rest => promiseAll rest
  | Throw v :: _ => Throw v
  end.

(** [refreshAllData], called at [t0], whose fetches settle in [order]. *)
Definition refreshAllData (t0 : Timestamp) (os : Outcomes)
  (order : list (Kind * Timestamp)) : M unit :=
  fun p =>
    let '(cs, p') := settleAll os order (refreshAllData_call t0 p) in
    (promiseAll cs, p').

(** ** State update methods *)

(** [updateFilters]: merges into the [state.filters] of its closure. *)
Definition updateFilters (now : Timestamp) (f : PartialFilterOptions)
  : M unit :=
  let* state := closure_state in
  dispatch now (SET_FILTERS (mergeFilters (filters state) f)).

(** [updateConfig] *)
Definition updateConfig (now : Timestamp) (c : PartialDashboardConfig)
  : M unit :=
  dispatch now (SET_CONFIG c).

(** [clearError] *)
Definition clearError (now : Timestamp) : M unit :=
  dispatch now (SET_ERROR None).

(** ** Rendering and effects *)

(** Body of the auto-refresh effect; [state.config] is the one of the
    render that scheduled the effect. *)
Definition autoRefreshEffect (p : Provider) : Provider :=
  let c := config (rendered p) in
  if autoRefresh c && (0 <? refreshInterval c) then
    let '(interval, tm) := Timers.setInterval (refreshInterval c) (timers p) in
    set_timers tm (Some interval) p
  else
    set_timers (timers p) None p.

(** The function the effect returned: [() => clearInterval(interval)]. *)
Definition autoRefreshCleanup (p : Provider) : Provider :=
  match autoRefreshHandle p with
  | Some interval =>
      set_timers (Timers.clearInterval interval (timers p)) None p
  | None => p
  end.

(** Have the dependencies
    [[state.config.autoRefresh, state.config.refreshInterval, refreshAllData]]
    changed since the last render? *)
Definition autoRefreshDepsChanged (p : Provider) : bool :=
  negb (Bool.eqb (autoRefresh (config (rendered p)))
                 (autoRefresh (config (state p))))
  || negb (refreshInterval (config (rendered p))
           =? refreshInterval (config (state p)))
  || negb (renderedFiltersObj p =? filtersObj p)%nat.

(** A re-render after state updates: callbacks are re-created over the
    new state, and the auto-refresh effect is cleaned up and run again
    when one of its dependencies changed. *)
Definition render (p : Provider) : Provider :=
  if autoRefreshDepsChanged p then
    autoRefreshEffect (autoRefreshCleanup (commit_render p))
  else
    commit_render p.

(** The provider before its first render. *)
Definition unmounted (thirtyDaysAgo today : string) : Provider := {|
  state := initialState thirtyDaysAgo today;
  rendered := initialState thirtyDaysAgo today;
  filtersObj := 0; renderedFiltersObj := 0;
  calls := [];
  timers := Timers.empty;
  autoRefreshHandle := None
|}.

(** Mounting: both effects run once, in the order they are declared. *)
Definition mount (now : Timestamp) (thirtyDaysAgo today : string) : Provider :=
  fetchMetrics_call now (autoRefreshEffect (unmounted thirtyDaysAgo today)).

(** Unmounting runs the cleanup of the auto-refresh effect. *)
Definition unmount (p : Provider) : Provider := autoRefreshCleanup p.

(** The period of the timer [id] elapses. A timer that was cleared
    does not fire; the callback of the auto-refresh effect calls
    [refreshAllData()] and drops its promise. *)
Definition intervalElapses (now : Timestamp) (id : Timers.TimerId)
  (p : Provider) : Provider :=
  if Timers.isActive id (timers p) then refreshAllData_call now p else p.

(** What can happen to a mounted provider. *)
Inductive Event :=
| EvRender
| EvUpdateFilters (now : Timestamp) (f : PartialFilterOptions)
| EvUpdateConfig (now : Timestamp) (c : PartialDashboardConfig)
| EvClearError (now : Timestamp)
| EvFetchCall (now : Timestamp) (k : Kind)
| EvSettle (os : Outcomes) (k : Kind) (now : Timestamp)
| EvRefreshCall (now : Timestamp)
| EvIntervalElapses (now : Timestamp) (id : Timers.TimerId).

Definition fetch_call (now : Timestamp) (k : Kind) (p : Provider) : Provider :=
  match k with
  | Metrics => fetchMetrics_call now p
  | Sales => fetchSalesData_call p
  | Users => fetchUserAnalytics_call p
  | Performance => fetchPerformanceMetrics_call p
  end.

Definition step (e : Event) (p : Provider) : Provider :=
  match e with
  | EvRender => render p
  | EvUpdateFilters now f => snd (updateFilters now f p)
  | EvUpdateConfig now c => snd (updateConfig now c p)
  | EvClearError now => snd (clearError now p)
  | EvFetchCall now k => fetch_call now k p
  | EvSettle os k now => snd (settle os k now p)
  | EvRefreshCall now => refreshAllData_call now p
  | EvIntervalElapses now id => intervalElapses now id p
  end.

Definition run (es : list Event) (p : Provider) : Provider :=
  fold_left (fun q e => step e q) es p.

(** Is the auto-refresh loop on for the configuration [c]? *)
Definition autoRefreshOn (c : DashboardConfig) : bool :=
  autoRefresh c && (0 <? refreshInterval c).

(** The timers of the runtime are the auto-refresh effect's: while the
    rendered configuration has the loop on, the timer table holds the
    handle of the pending cleanup, with the rendered period, and
    nothing else; otherwise it is empty and no cleanup is pending. *)
Definition ownsTimers (p : Provider) : Prop :=
  if autoRefreshOn (config (rendered p)) then
    exists interval,
      autoRefreshHandle p = Some interval /\
      Timers.active (timers p)
      = {[ interval := refreshInterval (config (rendered p)) ]}
  else
    autoRefreshHandle p = None /\ Timers.active (timers p) = ∅.

(** An event that does not switch auto-refresh back on. *)
Definition keepsAutoRefreshOff (e : Event) : Prop :=
  match e with
  | EvUpdateConfig _ c => p_autoRefresh c <> Some true
  | _ => True
  end.

(** Auto-refresh is off in the state and in the last render. *)
Definition autoRefreshIsOff (p : Provider) : Prop :=
  autoRefresh (config (state p)) = false /\
  autoRefresh (config (rendered p)) = false.

(** ** Vocabulary of the properties *)

(** The [AppError] that [handleError] builds. *)
Definition dashboardError (now : Timestamp) (reason : Thrown)
  (ctx : string) : AppError.t := {|
  AppError.code := "DASHBOARD_ERROR";
  AppError.message := errorMessage reason;
  AppError.details := Some {| context := ctx; cause := reason |};
  AppError.timestamp := now
|}.

(** The dataset a fetch leaves behind: the response's on success, the
    stored one on failure. *)
Definition outcomeOr {T} (o : Outcome T) (stored : T) : T :=
  match o with
  | Resolved response => ApiResponse.data response
  | Rejected _ => stored
  end.

(** ** Sample values *)

Definition respond {T} (d : T) (now : Timestamp) : ApiResponse.t T := {|
  ApiResponse.data := d; ApiResponse.status := success;
  ApiResponse.message := Some "fetched successfully";
  ApiResponse.timestamp := now
|}.

Definition oneSale : SalesData := {|
  sd_id := "1"; sd_date := "2026-11-02"; amount := inject_Z 4200;
  product := "Product 1"; sd_category := "Electronics"; sd_region := "North"
|}.

(** A provider that was mounted at 10:00:00 and whose initial metrics
    fetch succeeded one second later. *)
Definition settledProvider : Provider :=
  render (snd (fetchMetrics_settle "2026-11-02T10:00:01.000Z"
                 (Resolved (respond [] "2026-11-02T10:00:01.000Z"))
                 (mount "2026-11-02T10:00:00.000Z" "2026-10-03" "2026-11-02"))).

(** Every remote call fails, two of them with an [Error]. *)
Definition allFail : Outcomes := {|
  o_metrics := Rejected (ErrorInstance "timeout of 10000ms exceeded");
  o_sales := Rejected (OtherValue "{ code: 'API_ERROR_500' }");
  o_users := Rejected (OtherValue "{ code: 'API_ERROR_UNKNOWN' }");
  o_performance := Rejected (ErrorInstance "Network Error")
|}.

Definition someOrder : list (Kind * Timestamp) :=
  [ (Sales, "2026-11-02T10:10:00.300Z");
    (Metrics, "2026-11-02T10:10:01.000Z");
    (Performance, "2026-11-02T10:10:00.500Z");
    (Users, "2026-11-02T10:10:02.000Z") ].

Definition electronics : PartialFilterOptions :=
  {| p_dateRange := None; p_category := Some "Electronics"; p_region := None |}.

Definition autoRefreshOff : PartialDashboardConfig :=
  {| p_refreshInterval := None; p_autoRefresh := Some false;
     p_theme := None; p_layout := None |}.

End Dashboard.

(* ================================================================== *)
(** * src/services/mockDataGenerator.ts *)

Module MockData.

(** [ChartDataPoint] as the generators fill it. *)
Record ChartPoint := {
  x : string;
  y : number;
  label : string
}.

(** A [Date] at local midnight of the first day of a month:
    [getFullYear()] and [getMonth()] (0 = January). *)
Record JsDate := {
  getFullYear : Z;
  getMonth : Z
}.

(** [new Date(year, monthIndex, 1)]: a month index outside 0..11 is
    carried into the year, and a year argument from 0 to 99 stands for
    1900 + year. *)
Definition newDate (year monthIndex : Z) : JsDate :=
  let yr := if (0 <=? year) && (year <=? 99) then 1900 + year else year in
  {| getFullYear := yr + monthIndex / 12;
     getMonth := monthIndex mod 12 |}.

(** Months since year 0: the chronological rank of a month. *)
Definition monthRank (d : JsDate) : Z := getFullYear d * 12 + getMonth d.

Definition monthNames : list (string * string) :=
  [ ("Jan", "January"); ("Feb", "February"); ("Mar", "March");
    ("Apr", "April"); ("May", "May"); ("Jun", "June");
    ("Jul", "July"); ("Aug", "August"); ("Sep", "September");
    ("Oct", "October"); ("Nov", "November"); ("Dec", "December") ].

(** [date.toLocaleDateString('en-US', { month: 'short' })] *)
Definition monthShort (d : JsDate) : string :=
  fst (nth (Z.to_nat (getMonth d)) monthNames ("", "")).

(** [date.toLocaleDateString('en-US', { month: 'long', year: 'numeric' })] *)
Definition monthLongYear (d : JsDate) : string :=
  snd (nth (Z.to_nat (getMonth d)) monthNames ("", ""))
  ++ " " ++ pretty (getFullYear d).

(** [Math.round]: the nearest integer, halves rounded up. *)
Definition Math_round (v : number) : number :=
  inject_Z (Qfloor (v + (1 # 2))%Q).

Section Generator.

(** The clock, [Math.sin((m / 12) * 2 * Math.PI)] for a month index
    [m], and the value of the [k]-th call of [Math.random()]. The
    products and sums of the generator are taken exactly. *)
Variable currentDate : JsDate.
Variable sine : Z -> number.
Variable random : nat -> number.

(** One iteration of the loop of [generateRevenueData], for the loop
    index [i], with [r] the value [Math.random()] returns in it. *)
Definition revenuePoint (months i : Z) (r : number) : ChartPoint :=
  let date := newDate (getFullYear currentDate) (getMonth currentDate - i) in
  let baseRevenue : number := inject_Z 50000 in
  let seasonalMultiplier := (1 + sine (getMonth date) * (3 # 10))%Q in
  let randomVariation := ((8 # 10) + r * (4 # 10))%Q in
  let growthTrend := (1 + inject_Z (months - i - 1) * (5 # 100))%Q in
  {| x := monthShort date;
     y := Math_round
            (baseRevenue * seasonalMultiplier * randomVariation * growthTrend)%Q;
     label := monthLongYear date |}.

(** [for (let i = months - 1; i >= 0; i--) { ... data.push(...) }];
    [k] counts the iterations made so far. *)
Fixpoint revenueLoop (fuel : nat) (months i : Z) (k : nat)
  (data : list ChartPoint) : list ChartPoint :=
  match fuel with
  | O => data
  | S fuel' =>
      if 0 <=? i then
        revenueLoop fuel' months (i - 1) (S k)
          (data ++ [revenuePoint months i (random k)])
      else data
  end.

(** [generateRevenueData(months)]; the loop runs [months] times. *)
Definition generateRevenueData (months : Z) : list ChartPoint :=
  revenueLoop (Z.to_nat months) months (months - 1) 0 [].

(** The dates the loop of [generateRevenueData] builds, in order. *)
Definition revenueDates (months : Z) : list JsDate :=
  map (fun k : nat =>
         newDate (getFullYear currentDate)
                 (getMonth currentDate - (months - 1 - Z.of_nat k)))
      (seq 0 (Z.to_nat months)).

End Generator.

(** A bound on what [Math.sin] returns. *)
Definition sineInRange (sine : Z -> number) : Prop :=
  forall m, (- (1) <= sine m)%Q /\ (sine m <= 1)%Q.

(** A bound on what [Math.random] returns. *)
Definition randomInRange (random : nat -> number) : Prop :=
  forall k, (0 <= random k)%Q /\ (random k < 1)%Q.

(** A clock the two-digit-year rule does not apply to. *)
Definition validClock (d : JsDate) : Prop :=
  100 <= getFullYear d /\ 0 <= getMonth d <= 11.

End MockData.

(* ================================================================== *)
(** * src/hooks/useRealTimeData.ts: the streaming simulator *)

Module Stream.
Import MockData.

Inductive Trend := up | down | stable.

(** [DataStreamConfig] (declared in mockDataGenerator.ts) *)
Record DataStreamConfig := {
  interval : Z;
  volatility : number;
  trend : Trend
}.

(** [Partial<DataStreamConfig>] *)
Record PartialDataStreamConfig := {
  p_interval : option Z;
  p_volatility : option number;
  p_trend : option Trend
}.

(** [{ ...config, ...newConfig }] *)
Definition mergeConfig (c : DataStreamConfig) (n : PartialDataStreamConfig)
  : DataStreamConfig := {|
  interval := default (interval c) (p_interval n);
  volatility := default (volatility c) (p_volatility n);
  trend := default (trend c) (p_trend n)
|}.

Definition defaultConfig : DataStreamConfig :=
  {| interval := 5000; volatility := 3 # 10; trend := stable |}.

Record Keyword := {
  term : string;
  count : number;
  kw_change : number;
  kw_category : string
}.

Record PerformanceSummary := {
  loadTime : number;
  bounceRate : number;
  conversionRate : number;
  ps_pageViews : number;
  uniqueVisitors : number;
  avgSessionDuration : number
}.

(** What the four generators return in one call of
    [generateFreshData]. *)
Record Bundle := {
  newRevenue : list ChartPoint;
  newUsers : list ChartPoint;
  newPerformance : PerformanceSummary;
  newKeywords : list Keyword
}.

Record RealTimeDataState := {
  revenue : list ChartPoint;
  users : list ChartPoint;
  performance : option PerformanceSummary;
  keywords : list Keyword;
  lastUpdated : Timestamp;
  isLive : bool
}.

(** The hook instance. [data] is the state cell with every queued
    update applied, [rendered] the [data] of the last render, which
    [toggleStream] and [updateConfig] closed over. [restarts] counts
    the pending [setTimeout(startStream, 100)]. *)
Record Hook := {
  data : RealTimeDataState;
  rendered : RealTimeDataState;
  intervalRef : option Timers.TimerId;
  configRef : DataStreamConfig;
  timers : Timers.t;
  restarts : nat
}.

Definition set_data (d : RealTimeDataState) (h : Hook) : Hook := {|
  data := d; rendered := rendered h; intervalRef := intervalRef h;
  configRef := configRef h; timers := timers h; restarts := restarts h
|}.

Definition set_isLive (b : bool) (d : RealTimeDataState) : RealTimeDataState := {|
  revenue := revenue d; users := users d; performance := performance d;
  keywords := keywords d; lastUpdated := lastUpdated d; isLive := b
|}.

Definition set_interval (r : option Timers.TimerId) (tm : Timers.t)
  (h : Hook) : Hook := {|
  data := data h; rendered := rendered h; intervalRef := r;
  configRef := configRef h; timers := tm; restarts := restarts h
|}.

Definition set_configRef (c : DataStreamConfig) (h : Hook) : Hook := {|
  data := data h; rendered := rendered h; intervalRef := intervalRef h;
  configRef := c; timers := timers h; restarts := restarts h
|}.

Definition set_restarts (n : nat) (h : Hook) : Hook := {|
  data := data h; rendered := rendered h; intervalRef := intervalRef h;
  configRef := configRef h; timers := timers h; restarts := n
|}.

(** [generateFreshData] *)
Definition generateFreshData (fresh : Bundle) (now : Timestamp) (h : Hook)
  : Hook :=
  set_data {| revenue := newRevenue fresh;
              users := newUsers fresh;
              performance := Some (newPerformance fresh);
              keywords := newKeywords fresh;
              lastUpdated := now;
              isLive := isLive (data h) |} h.

(** [startStream] *)
Definition startStream (fresh : Bundle) (now : Timestamp) (h : Hook) : Hook :=
  match intervalRef h with
  | Some _ => h
  | None =>
      let h1 := set_data (set_isLive true (data h)) h in
      let h2 := generateFreshData fresh now h1 in
      let '(id, tm) := Timers.setInterval (interval (configRef h2)) (timers h2) in
      set_interval (Some id) tm h2
  end.

(** [stopStream] *)
Definition stopStream (h : Hook) : Hook :=
  let h1 :=
    match intervalRef h with
    | Some id => set_interval None (Timers.clearInterval id (timers h)) h
    | None => h
    end in
  set_data (set_isLive false (data h1)) h1.

(** [toggleStream]; [data.isLive] is the one of its closure. *)
Definition toggleStream (fresh : Bundle) (now : Timestamp) (h : Hook) : Hook :=
  if isLive (rendered h) then stopStream h else startStream fresh now h.

(** [updateConfig] *)
Definition updateConfig (newConfig : PartialDataStreamConfig) (h : Hook)
  : Hook :=
  let h1 := set_configRef (mergeConfig (configRef h) newConfig) h in
  if isLive (rendered h1) then
    let h2 := stopStream h1 in
    set_restarts (S (restarts h2)) h2
  else h1.

(** [refresh] *)
Definition refresh (fresh : Bundle) (now : Timestamp) (h : Hook) : Hook :=
  generateFreshData fresh now h.

(** A pending [setTimeout(startStream, 100)] fires. *)
Definition restartFires (fresh : Bundle) (now : Timestamp) (h : Hook) : Hook :=
  match restarts h with
  | O => h
  | S n => startStream fresh now (set_restarts n h)
  end.

(** The period of the repeating timer [id] elapses. *)
Definition intervalElapses (id : Timers.TimerId) (fresh : Bundle)
  (now : Timestamp) (h : Hook) : Hook :=
  if Timers.isActive id (timers h) then generateFreshData fresh now h else h.

(** A re-render: the callbacks are re-created over the current [data]. *)
Definition render (h : Hook) : Hook := {|
  data := data h; rendered := data h; intervalRef := intervalRef h;
  configRef := configRef h; timers := timers h; restarts := restarts h
|}.

(** [useRealTimeData(config)] on mount: the initial state, then the
    effect that initializes the data. *)
Definition mount (config : PartialDataStreamConfig) (fresh : Bundle)
  (now : Timestamp) : Hook :=
  let d := {| revenue := []; users := []; performance := None;
              keywords := []; lastUpdated := now; isLive := false |} in
  generateFreshData fresh now
    {| data := d; rendered := d; intervalRef := None;
       configRef := mergeConfig defaultConfig config;
       timers := Timers.empty; restarts := 0 |}.

(** The cleanup on unmount. *)
Definition unmount (h : Hook) : Hook :=
  match intervalRef h with
  | Some id => set_interval (intervalRef h) (Timers.clearInterval id (timers h)) h
  | None => h
  end.

Inductive Event :=
| EvRender
| EvStart (fresh : Bundle) (now : Timestamp)
| EvStop
| EvToggle (fresh : Bundle) (now : Timestamp)
| EvUpdateConfig (newConfig : PartialDataStreamConfig)
| EvRefresh (fresh : Bundle) (now : Timestamp)
| EvRestartFires (fresh : Bundle) (now : Timestamp)
| EvIntervalElapses (id : Timers.TimerId) (fresh : Bundle) (now : Timestamp).

Definition step (e : Event) (h : Hook) : Hook :=
  match e with
  | EvRender => render h
  | EvStart fresh now => startStream fresh now h
  | EvStop => stopStream h
  | EvToggle fresh now => toggleStream fresh now h
  | EvUpdateConfig c => updateConfig c h
  | EvRefresh fresh now => refresh fresh now h
  | EvRestartFires fresh now => restartFires fresh now h
  | EvIntervalElapses id fresh now => intervalElapses id fresh now h
  end.

Definition run (es : list Event) (h : Hook) : Hook :=
  fold_left (fun q e => step e q) es h.

(** The stream is live exactly when [intervalRef] holds a handle, and
    the timer table holds that handle and nothing else. *)
Definition consistent (h : Hook) : Prop :=
  match intervalRef h with
  | Some id =>
      isLive (data h) = true /\
      exists period, Timers.active (timers h) = {[ id := period ]}
  | None =>
      isLive (data h) = false /\ Timers.active (timers h) = ∅
  end.

(** ** Vocabulary of the properties and sample values *)


Definition noConfig : PartialDataStreamConfig :=
  {| p_interval := None; p_volatility := None; p_trend := None |}.


Definition sampleBundle : Bundle := {|
  newRevenue := [ {| x := "Nov"; y := inject_Z 83183; label := "November 2026" |} ];
  newUsers := [ {| x := "Mon"; y := inject_Z 1412; label := "Monday, Nov 2" |} ];
  newPerformance := {| loadTime := 3 # 2; bounceRate := inject_Z 30;
                       conversionRate := 7 # 2; ps_pageViews := inject_Z 9000;
                       uniqueVisitors := inject_Z 4000;
                       avgSessionDuration := inject_Z 240 |};
  newKeywords := [ {| term := "TypeScript"; count := inject_Z 640;
                      kw_change := 5 # 2; kw_category := "trending" |} ]
|}.

(** A hook mounted with the default configuration. *)
Definition mountedHook : Hook :=
  mount noConfig sampleBundle "2026-11-02T10:00:00.000Z".

(** The same hook after [startStream]. *)
Definition liveHook : Hook :=
  render (startStream sampleBundle "2026-11-02T10:00:05.000Z" mountedHook).

End Stream.

(* ================================================================== *)
(** * src/hooks/useRealTime.ts: the connection simulator

    The text of this hook is the second document of
    [src/pages/EnhancedDashboard.tsx]. *)

Module RealTime.

Inductive ConnectionStatus := disconnected | connecting | connected.

(** [a === b] on two statuses. *)
Definition status_eqb (a b : ConnectionStatus) : bool :=
  match a, b with
  | disconnected, disconnected => true
  | connecting, connecting => true
  | connected, connected => true
  | _, _ => false
  end.

(** The hook instance: the option [enabled] and [interval] of the last
    render, the state cells, [intervalRef], the repeating timers, the
    delays of the pending connection timeouts, and a count of the
    [onDataUpdate] calls. *)
Record Hook := {
  enabled : bool;
  interval : Z;
  isConnected : bool;
  lastUpdate : option Timestamp;
  intervalRef : option Timers.TimerId;
  connectionStatus : ConnectionStatus;
  timers : Timers.t;
  pendingConnects : list number;
  dataUpdates : nat
}.

Definition set_enabled (b : bool) (h : Hook) : Hook := {|
  enabled := b; interval := interval h; isConnected := isConnected h;
  lastUpdate := lastUpdate h; intervalRef := intervalRef h;
  connectionStatus := connectionStatus h; timers := timers h;
  pendingConnects := pendingConnects h; dataUpdates := dataUpdates h
|}.

Definition set_connection (c : bool) (s : ConnectionStatus) (h : Hook)
  : Hook := {|
  enabled := enabled h; interval := interval h; isConnected := c;
  lastUpdate := lastUpdate h; intervalRef := intervalRef h;
  connectionStatus := s; timers := timers h;
  pendingConnects := pendingConnects h; dataUpdates := dataUpdates h
|}.

Definition set_lastUpdate (now : Timestamp) (h : Hook) : Hook := {|
  enabled := enabled h; interval := interval h; isConnected := isConnected h;
  lastUpdate := Some now; intervalRef := intervalRef h;
  connectionStatus := connectionStatus h; timers := timers h;
  pendingConnects := pendingConnects h; dataUpdates := dataUpdates h
|}.

Definition set_interval (r : option Timers.TimerId) (tm : Timers.t)
  (h : Hook) : Hook := {|
  enabled := enabled h; interval := interval h; isConnected := isConnected h;
  lastUpdate := lastUpdate h; intervalRef := r;
  connectionStatus := connectionStatus h; timers := tm;
  pendingConnects := pendingConnects h; dataUpdates := dataUpdates h
|}.

Definition set_pending (l : list number) (h : Hook) : Hook := {|
  enabled := enabled h; interval := interval h; isConnected := isConnected h;
  lastUpdate := lastUpdate h; intervalRef := intervalRef h;
  connectionStatus := connectionStatus h; timers := timers h;
  pendingConnects := l; dataUpdates := dataUpdates h
|}.

Definition set_dataUpdates (n : nat) (h : Hook) : Hook := {|
  enabled := enabled h; interval := interval h; isConnected := isConnected h;
  lastUpdate := lastUpdate h; intervalRef := intervalRef h;
  connectionStatus := connectionStatus h; timers := timers h;
  pendingConnects := pendingConnects h; dataUpdates := n
|}.

(** [1000 + Math.random() * 2000], for the value [r] of [Math.random()]. *)
Definition connectionDelay (r : number) : number :=
  (inject_Z 1000 + r * inject_Z 2000)%Q.

(** [connect]: the status is set at once, the rest in a timeout. *)
Definition connect (r : number) (h : Hook) : Hook :=
  let h1 := set_connection (isConnected h) connecting h in
  set_pending (pendingConnects h1 ++ [connectionDelay r]) h1.

(** The callback of the [n]-th pending connection timeout runs. *)
Definition connectTimeoutFires (n : nat) (now : Timestamp) (h : Hook) : Hook :=
  match pendingConnects h !! n with
  | Some _ =>
      set_lastUpdate now
        (set_connection true connected
           (set_pending (delete n (pendingConnects h)) h))
  | None => h
  end.

(** [disconnect] *)
Definition disconnect (h : Hook) : Hook :=
  let h1 := set_connection false disconnected h in
  match intervalRef h1 with
  | Some id => set_interval None (Timers.clearInterval id (timers h1)) h1
  | None => h1
  end.

(** [generateUpdate], also exported as [forceUpdate] *)
Definition generateUpdate (now : Timestamp) (h : Hook) : Hook :=
  if negb (isConnected h) then h
  else set_dataUpdates (S (dataUpdates h)) (set_lastUpdate now h).

(** The effect "Start/stop real-time updates": the cleanup of its
    previous run, then its body. *)
Definition updatesEffect (h : Hook) : Hook :=
  let h1 :=
    match intervalRef h with
    | Some id => set_interval (intervalRef h) (Timers.clearInterval id (timers h)) h
    | None => h
    end in
  if enabled h1 && isConnected h1 then
    let '(id, tm) := Timers.setInterval (interval h1) (timers h1) in
    set_interval (Some id) tm h1
  else
    match intervalRef h1 with
    | Some id => set_interval None (Timers.clearInterval id (timers h1)) h1
    | None => h1
    end.

(** The effect "Auto-connect when enabled"; [r] is the value of
    [Math.random()] if [connect] runs. *)
Definition autoConnectEffect (r : number) (h : Hook) : Hook :=
  if enabled h && status_eqb (connectionStatus h) disconnected then
    connect r h
  else if negb (enabled h) && isConnected h then
    disconnect h
  else h.

(** The period of the repeating timer [id] elapses. *)
Definition intervalElapses (id : Timers.TimerId) (now : Timestamp)
  (h : Hook) : Hook :=
  if Timers.isActive id (timers h) then generateUpdate now h else h.

(** [useRealTimeData(options)] before its effects have run. *)
Definition initial (enabled0 : bool) (interval0 : Z) : Hook := {|
  enabled := enabled0; interval := interval0; isConnected := false;
  lastUpdate := None; intervalRef := None;
  connectionStatus := disconnected; timers := Timers.empty;
  pendingConnects := []; dataUpdates := 0
|}.

(** What happens to a hook that its owner drives through the option
    [enabled] only: the owner re-renders with a new value of the
    option, an effect runs, a timer fires. An effect may run here at
    any time, which covers every schedule of React. *)
Inductive DrivenEvent :=
| EvSetEnabled (b : bool)
| EvAutoConnectEffect (r : number)
| EvUpdatesEffect
| EvConnectTimeout (n : nat) (now : Timestamp)
| EvIntervalElapses (id : Timers.TimerId) (now : Timestamp).

(** The operations the hook returns, called by its owner. *)
Inductive Event :=
| Driven (e : DrivenEvent)
| EvConnect (r : number)
| EvDisconnect
| EvForceUpdate (now : Timestamp).

Definition drivenStep (e : DrivenEvent) (h : Hook) : Hook :=
  match e with
  | EvSetEnabled b => set_enabled b h
  | EvAutoConnectEffect r => autoConnectEffect r h
  | EvUpdatesEffect => updatesEffect h
  | EvConnectTimeout n now => connectTimeoutFires n now h
  | EvIntervalElapses id now => intervalElapses id now h
  end.

Definition step (e : Event) (h : Hook) : Hook :=
  match e with
  | Driven d => drivenStep d h
  | EvConnect r => connect r h
  | EvDisconnect => disconnect h
  | EvForceUpdate now => generateUpdate now h
  end.

Definition run (es : list Event) (h : Hook) : Hook :=
  fold_left (fun q e => step e q) es h.

Definition drivenRun (es : list DrivenEvent) (h : Hook) : Hook :=
  run (map Driven es) h.

(** The transitions of the specification's state machine, with what
    brings each about: [disconnected] to [connecting] by the
    auto-connect effect of an enabled hook, [connecting] to [connected]
    by a connection timeout, and to [disconnected] by the auto-connect
    effect of a hook that is not enabled or by [disconnect]. *)
Definition specTransition (e : Event) (h h' : Hook) : bool :=
  match connectionStatus h, connectionStatus h' with
  | disconnected, connecting =>
      match e with
      | Driven (EvAutoConnectEffect _) => enabled h
      | EvConnect _ => true
      | _ => false
      end
  | connecting, connected =>
      match e with Driven (EvConnectTimeout _ _) => true | _ => false end
  | (connecting | connected), disconnected =>
      match e with
      | Driven (EvAutoConnectEffect _) => negb (enabled h)
      | EvDisconnect => true
      | _ => false
      end
  | _, _ => false
  end.

(** A step keeps the status or makes a transition of the state
    machine. *)
Definition stepAllowed (e : Event) (h : Hook) : bool :=
  status_eqb (connectionStatus (step e h)) (connectionStatus h)
  || specTransition e h (step e h).

(** With [enabled] as the only driver, the status tells whether the
    hook is connected and whether a connection timeout is pending. *)
Definition drivenInvariant (h : Hook) : Prop :=
  match connectionStatus h with
  | disconnected => isConnected h = false /\ pendingConnects h = []
  | connecting => isConnected h = false /\ length (pendingConnects h) = 1%nat
  | connected => isConnected h = true /\ pendingConnects h = []
  end.

End RealTime.

(* ================================================================== *)
(** * Further scenarios of the refresh orchestrator *)

Module DashboardScenarios.
Import Types Api Dashboard.

(** [{ refreshInterval: i }] *)
Definition intervalOnly (i : Z) : PartialDashboardConfig :=
  {| p_refreshInterval := Some i; p_autoRefresh := None;
     p_theme := None; p_layout := None |}.

(** [{ region: "North" }] *)
Definition north : PartialFilterOptions :=
  {| p_dateRange := None; p_category := None; p_region := Some "North" |}.

(** The [loading.error] that [SET_ERROR] derives from a failure. *)
Definition loadingErrorOf (reason : Thrown) : option string :=
  if String.eqb (errorMessage reason) "" then None
  else Some (errorMessage reason).

End DashboardScenarios.

(* ================================================================== *)
(** * Further scenarios of the two real-time hooks *)

Module StreamScenarios.
Import Stream.

(** [{ interval: 1000 }] *)
Definition everySecond : PartialDataStreamConfig :=
  {| p_interval := Some 1000; p_volatility := None; p_trend := None |}.

(** The mounted hook right after [startStream], before the re-render:
    the stream runs, the callbacks still see [isLive = false]. *)
Definition startedHook : Hook :=
  startStream sampleBundle "2026-11-02T10:00:05.000Z" mountedHook.

End StreamScenarios.

Module RealTimeScenarios.
Import RealTime.

(** The repeating timers of the hook are its own: the timer table holds
    the handle in [intervalRef] and nothing else. *)
Definition ownsTimer (h : Hook) : Prop :=
  match intervalRef h with
  | Some id => exists period, Timers.active (timers h) = {[ id := period ]}
  | None => Timers.active (timers h) = ∅
  end.

(** An enabled hook that has connected and started its updates. *)
Definition connectedHook : Hook :=
  drivenRun [ EvAutoConnectEffect (1 # 2);
              EvConnectTimeout 0 "2026-11-02T10:00:02.000Z";
              EvUpdatesEffect ]
            (initial true 15000).

End RealTimeScenarios.

(* ================================================================== *)
(** * src/services/api.ts: the remote fetch layer *)

Module ApiLayer.
Import Types Api.

(** [Math.floor] *)
Definition Math_floor (v : number) : number := inject_Z (Qfloor v).

(** ** Errors *)

(** [error.response] of an [AxiosError]: the status line and the
    [message] of the body, when the body has one. *)
Record ErrorResponse := {
  status : Z;
  statusText : string;
  dataMessage : option string
}.

(** An [AxiosError]: [response], [message], and from [config] the url
    and the [X-Request-ID] header. *)
Record AxiosError := {
  response : option ErrorResponse;
  axiosMessage : string;
  configUrl : option string;
  configRequestId : option string
}.

(** What a [catch] of the layer receives, as [axios.isAxiosError] and
    [instanceof Error] tell it apart. *)
Inductive Caught :=
| IsAxiosError (e : AxiosError)
| IsError (msg : string)
| IsOther (repr : string).

Inductive ApiErrorDetails :=
| TransportDetails (status : option Z) (statusText : option string)
    (url : option string) (context : string)
| GenericDetails (context : string) (error : Caught).

(** The [AppError] of [handleApiError]. *)
Record ApiError := {
  code : string;
  message : string;
  details : ApiErrorDetails;
  timestamp : Timestamp
}.

(** [a || b] on strings that may be missing: the empty string is falsy. *)
Definition orElse (a : option string) (b : string) : string :=
  match a with
  | Some s => if String.eqb s "" then b else s
  | None => b
  end.

(** [error.response?.status || 'UNKNOWN'], inside the template literal. *)
Definition statusOrUnknown (e : AxiosError) : string :=
  match response e with
  | Some r => if status r =? 0 then "UNKNOWN" else pretty (status r)
  | None => "UNKNOWN"
  end.

(** [handleApiError] *)
Definition handleApiError (now : Timestamp) (error : Caught) (context : string)
  : ApiError :=
  match error with
  | IsAxiosError e =>
      {| code := "API_ERROR_" ++ statusOrUnknown e;
         message :=
           orElse (r ← response e; dataMessage r)
             (orElse (Some (axiosMessage e)) "Network error occurred");
         details :=
           TransportDetails (status <$> response e) (statusText <$> response e)
             (configUrl e) context;
         timestamp := now |}
  | IsError msg =>
      {| code := "UNKNOWN_ERROR";
         message := msg;
         details := GenericDetails context error;
         timestamp := now |}
  | IsOther _ =>
      {| code := "UNKNOWN_ERROR";
         message := "An unexpected error occurred";
         details := GenericDetails context error;
         timestamp := now |}
  end.

(** The value a method of the layer throws: the plain object that
    [handleApiError] returns, which is not an instance of [Error]. *)
Definition thrownObject (e : ApiError) : Thrown := OtherValue (code e).

(** [createApiResponse] *)
Definition createApiResponse {T} (data : T) (message : option string)
  (now : Timestamp) : ApiResponse.t T := {|
  ApiResponse.data := data;
  ApiResponse.status := success;
  ApiResponse.message := message;
  ApiResponse.timestamp := now
|}.

(** ** The interceptors of [apiClient] *)

(** What the interceptors read and write outside the request:
    [localStorage]'s [auth_token], the map [requestTimings],
    [window.location.href] and whether [NODE_ENV] is [development]. *)
Record Browser := {
  authToken : option string;
  requestTimings : gmap string Timestamp;
  location : string;
  development : bool
}.

(** A request on its way out: method, url and headers. *)
Record RequestConfig := {
  rc_method : string;
  rc_url : string;
  headers : gmap string string
}.

(** The configuration [apiClient.get(url)] hands to the request
    interceptor; of the headers, the one the instance was created
    with. *)
Definition getConfig (url : string) : RequestConfig := {|
  rc_method := "get";
  rc_url := url;
  headers := {[ "Content-Type" := "application/json" ]}
|}.

(** [`${config.method}-${config.url}-${Date.now()}`] *)
Definition requestIdOf (config : RequestConfig) (nowMs : Z) : string :=
  rc_method config ++ "-" ++ rc_url config ++ "-" ++ pretty nowMs.

(** The request interceptor; [nowMs] is [Date.now()] and [now] the
    [new Date()] it stores. *)
Definition requestInterceptor (nowMs : Z) (now : Timestamp)
  (config : RequestConfig) (b : Browser) : RequestConfig * Browser :=
  let headers1 :=
    match authToken b with
    | Some token =>
        if String.eqb token "" then headers config
        else <["Authorization" := "Bearer " ++ token]> (headers config)
    | None => headers config
    end in
  let requestId := requestIdOf config nowMs in
  ({| rc_method := rc_method config; rc_url := rc_url config;
      headers := <["X-Request-ID" := requestId]> headers1 |},
   {| authToken := authToken b;
      requestTimings := <[requestId := now]> (requestTimings b);
      location := location b;
      development := development b |}).

(** The response interceptor on a response to the request [config]. *)
Definition responseInterceptor (config : RequestConfig) (b : Browser)
  : Browser :=
  if development b then
    match headers config !! "X-Request-ID" with
    | Some requestId =>
        match requestTimings b !! requestId with
        | Some _ =>
            {| authToken := authToken b;
               requestTimings := delete requestId (requestTimings b);
               location := location b;
               development := development b |}
        | None => b
        end
    | None => b
    end
  else b.

(** The response interceptor on an error; the error is rejected again
    whatever the interceptor did. *)
Definition responseErrorInterceptor (error : AxiosError) (b : Browser)
  : Browser :=
  let timings :=
    match configRequestId error with
    | Some requestId =>
        if String.eqb requestId "" then requestTimings b
        else delete requestId (requestTimings b)
    | None => requestTimings b
    end in
  match response error with
  | Some r =>
      if status r =? 401 then
        {| authToken := None; requestTimings := timings;
           location := "/login"; development := development b |}
      else
        {| authToken := authToken b; requestTimings := timings;
           location := location b; development := development b |}
  | None =>
      {| authToken := authToken b; requestTimings := timings;
         location := location b; development := development b |}
  end.

(** How the server answers a request: with a response, or with an error
    that carries or lacks a response. *)
Inductive Reply :=
| ReplyOk
| ReplyError (r : option ErrorResponse) (msg : string).

(** One [apiClient.get(url)] through the interceptors: the request
    configuration that leaves the browser and the browser afterwards. *)
Definition get (url : string) (nowMs : Z) (now : Timestamp) (reply : Reply)
  (b : Browser) : RequestConfig * Browser :=
  let '(config, b1) := requestInterceptor nowMs now (getConfig url) b in
  match reply with
  | ReplyOk => (config, responseInterceptor config b1)
  | ReplyError r msg =>
      (config,
       responseErrorInterceptor
         {| response := r; axiosMessage := msg; configUrl := Some url;
            configRequestId := headers config !! "X-Request-ID" |} b1)
  end.

(** The [Authorization] header a browser's token calls for. *)
Definition bearerOf (token : option string) : option string :=
  match token with
  | Some t => if String.eqb t "" then None else Some ("Bearer " ++ t)
  | None => None
  end.

(** ** The methods of [api] *)

(** How [apiClient.get] settles: with the body of the response or with
    an [AxiosError]. *)
Inductive Http (A : Type) :=
| HttpOk (body : A)
| HttpFailed (error : AxiosError).
Arguments HttpOk {A} _.
Arguments HttpFailed {A} _.

(** An item of [/posts] or [/users], of which the layer reads [id]. *)
Record Item := { item_id : Z }.

Definition categories : list string :=
  ["Electronics"; "Clothing"; "Books"; "Home"].

Definition regions : list string := ["North"; "South"; "East"; "West"].

Section Methods.

(** [Date.now()] in the callback for the given index, the date part of
    [toISOString()] and the whole of it for a time in milliseconds, and
    the [k]-th value of [Math.random()] in one call of a method. *)
Variable clock : nat -> Z.
Variable isoDate : Z -> string.
Variable isoString : Z -> string.
Variable random : nat -> number.

Definition dayMs : Z := 24 * 60 * 60 * 1000.

(** The callback of [response.data.slice(0, 10).map(...)] in
    [getSalesData]. *)
Definition saleOf (index : nat) (post : Item) : SalesData := {|
  sd_id := pretty (item_id post);
  sd_date := isoDate (clock index - Z.of_nat index * dayMs);
  amount := (Math_floor (random index * inject_Z 10000) + inject_Z 1000)%Q;
  product := "Product " ++ pretty (item_id post);
  sd_category := nth (index mod 4) categories "";
  sd_region := nth (index mod 4) regions ""
|}.

(** [salesApi.getSalesData]; the [filters] are not read. *)
Definition getSalesData (filters : SalesFilters) (now : Timestamp)
  (http : Http (list Item)) : Outcome (list SalesData) :=
  match http with
  | HttpOk posts =>
      Resolved (createApiResponse (imap saleOf (take 10 posts))
                  (Some "Sales data fetched successfully") now)
  | HttpFailed error =>
      Rejected (thrownObject
                  (handleApiError now (IsAxiosError error) "getSalesData"))
  end.

(** The callback of [response.data.slice(0, 7).map(...)] in
    [getUserAnalytics]; it draws four random numbers. *)
Definition analyticsOf (index : nat) (user : Item) : UserAnalytics := {|
  ua_id := pretty (item_id user);
  ua_date := isoDate (clock index - Z.of_nat index * dayMs);
  activeUsers :=
    (Math_floor (random (4 * index)%nat * inject_Z 1000) + inject_Z 500)%Q;
  newUsers :=
    (Math_floor (random (4 * index + 1)%nat * inject_Z 100) + inject_Z 50)%Q;
  pageViews :=
    (Math_floor (random (4 * index + 2)%nat * inject_Z 5000) + inject_Z 1000)%Q;
  sessionDuration :=
    (Math_floor (random (4 * index + 3)%nat * inject_Z 300) + inject_Z 120)%Q
|}.

(** [analyticsApi.getUserAnalytics] *)
Definition getUserAnalytics (now : Timestamp) (http : Http (list Item))
  : Outcome (list UserAnalytics) :=
  match http with
  | HttpOk users =>
      Resolved (createApiResponse (imap analyticsOf (take 7 users))
                  (Some "User analytics fetched successfully") now)
  | HttpFailed error =>
      Rejected (thrownObject
                  (handleApiError now (IsAxiosError error) "getUserAnalytics"))
  end.

(** The callback of [Array.from({ length: 24 }, ...)] in
    [getPerformanceMetrics]. *)
Definition performanceOf (index : nat) : PerformanceMetrics := {|
  pm_id := pretty (Z.of_nat index + 1);
  pm_timestamp := isoString (clock index - (23 - Z.of_nat index) * 60 * 60 * 1000);
  cpuUsage :=
    (Math_floor (random (4 * index)%nat * inject_Z 80) + inject_Z 10)%Q;
  memoryUsage :=
    (Math_floor (random (4 * index + 1)%nat * inject_Z 70) + inject_Z 20)%Q;
  responseTime :=
    (Math_floor (random (4 * index + 2)%nat * inject_Z 200) + inject_Z 50)%Q;
  errorRate := (random (4 * index + 3)%nat * inject_Z 5)%Q
|}.

(** [performanceApi.getPerformanceMetrics]: no request is made, the
    promise cannot be rejected. *)
Definition getPerformanceMetrics (now : Timestamp)
  : Outcome (list PerformanceMetrics) :=
  Resolved (createApiResponse (map performanceOf (seq 0 24))
              (Some "Performance metrics fetched successfully") now).

End Methods.

(** A range of whole numbers: [v] equals a whole number from [lo] to
    [hi]. *)
Definition wholeBetween (lo hi : Z) (v : number) : Prop :=
  exists n : Z, (v == inject_Z n)%Q /\ lo <= n <= hi.

(** ** Sample values *)

(** Sample oracles: a clock that stands still, ISO strings that only
    show the milliseconds, and random numbers 0, 1/4, 1/2, 3/4, ... *)
Definition sampleClock : nat -> Z := fun _ => 1793613600000.

Definition sampleIso : Z -> string := fun ms => pretty ms.

Definition sampleRandom : nat -> number := fun k => Z.of_nat (k mod 4) # 4.

Definition threePosts : list Item :=
  [ {| item_id := 1 |}; {| item_id := 2 |}; {| item_id := 3 |} ].

End ApiLayer.

(* ================================================================== *)
(** * src/services/mockDataGenerator.ts: the other generators *)

Module Generators.
Import MockData.

(** [a > b] on numbers. *)
Definition gtb (a b : number) : bool := negb (Qle_bool a b).

(** [array.slice(-n)]: the last [n] elements, all of them when there
    are fewer. *)
Definition sliceLast {A} (n : nat) (l : list A) : list A :=
  drop (length l - n) l.

(** The keywords of [generateTrendingKeywords]. *)
Definition keywordTerms : list string :=
  [ "React Dashboard"; "Data Visualization"; "TypeScript"; "Chart.js";
    "Analytics"; "Real-time Data"; "Modern UI"; "Portfolio Project";
    "Web Development"; "JavaScript"; "API Integration"; "Responsive Design" ].

(** The categories of [generateCategoryData]: name, weight, color. *)
Definition categoryTable : list (string * number * string) :=
  [ ("Electronics", 35 # 100, "#3b82f6");
    ("Clothing", 25 # 100, "#10b981");
    ("Home & Garden", 20 # 100, "#f59e0b");
    ("Books", 12 # 100, "#8b5cf6");
    ("Sports", 8 # 100, "#ef4444") ].

Record CategoryPoint := {
  cp_x : string;
  cp_y : number;
  cp_label : string;
  backgroundColor : string
}.




(** The short weekday names of the [en-US] locale, Sunday first. *)
Definition weekdayNames : list string :=
  ["Sun"; "Mon"; "Tue"; "Wed"; "Thu"; "Fri"; "Sat"].

(** [getDay()] of a local calendar day, counted in days since Thursday,
    1 January 1970. *)
Definition getDay (day : Z) : Z := (day + 4) mod 7.

(** [date.toLocaleDateString('en-US', { weekday: 'short' })] *)
Definition weekdayShort (day : Z) : string :=
  nth (Z.to_nat (getDay day)) weekdayNames "".

Definition hourMs : Z := 60 * 60 * 1000.

Section Oracles.

(** The [k]-th value of [Math.random()] in one call of a generator. *)
Variable random : nat -> number.

(** Rounding to the nearest double. In [generatePerformanceMetrics],
    [generatePerformanceData] and [generateTimeSeriesData] every sum and
    product is the rounded exact result, and a literal with a decimal
    point is the double nearest to it; a whole-number literal is a
    double as it stands. *)
Variable rnd : number -> number.

(** [a + b] and [a * b] on doubles that stay finite. *)
Definition fadd (a b : number) : number := rnd (a + b)%Q.
Definition fmul (a b : number) : number := rnd (a * b)%Q.

(** A literal with a decimal point. *)
Definition lit (q : number) : number := rnd q.




(** The callback of [keywords.map] in [generateTrendingKeywords]; it
    draws three random numbers. *)
Definition keywordOf (index : nat) (keyword : string) : Stream.Keyword := {|
  Stream.term := keyword;
  Stream.count :=
    (ApiLayer.Math_floor (random (3 * index)%nat * inject_Z 1000) + inject_Z 100)%Q;
  Stream.kw_change := ((random (3 * index + 1)%nat - (1 # 2)) * inject_Z 20)%Q;
  Stream.kw_category :=
    if gtb (random (3 * index + 2)%nat) (1 # 2) then "trending" else "stable"
|}.

(** [generateTrendingKeywords] *)
Definition generateTrendingKeywords : list Stream.Keyword :=
  imap keywordOf keywordTerms.

(** [generatePerformanceMetrics] *)
Definition generatePerformanceMetrics : Stream.PerformanceSummary := {|
  Stream.loadTime := fadd (lit (12 # 10)) (fmul (random 0%nat) (lit (8 # 10)));
  Stream.bounceRate := fadd (inject_Z 25) (fmul (random 1%nat) (inject_Z 15));
  Stream.conversionRate :=
    fadd (lit (25 # 10)) (fmul (random 2%nat) (inject_Z 2));
  Stream.ps_pageViews :=
    fadd (ApiLayer.Math_floor (fmul (random 3%nat) (inject_Z 10000)))
         (inject_Z 5000);
  Stream.uniqueVisitors :=
    fadd (ApiLayer.Math_floor (fmul (random 4%nat) (inject_Z 5000)))
         (inject_Z 2000);
  Stream.avgSessionDuration :=
    fadd (inject_Z 180) (fmul (random 5%nat) (inject_Z 120))
|}.

(** The local calendar day of [new Date()], and
    [toLocaleDateString('en-US', { weekday: 'long', month: 'short', day: 'numeric' })]
    of a day. *)
Variable today : Z.
Variable formatDay : Z -> string.

(** One iteration of the loop of [generateUserAnalytics]. *)
Definition userPoint (i : Z) (r : number) : ChartPoint :=
  let date := today - i in
  let dayOfWeek := getDay date in
  let isWeekend := (dayOfWeek =? 0) || (dayOfWeek =? 6) in
  let baseUsers : number := if isWeekend then inject_Z 800 else inject_Z 1500 in
  let randomVariation := ((7 # 10) + r * (6 # 10))%Q in
  {| x := weekdayShort date;
     y := Math_round (baseUsers * randomVariation)%Q;
     label := formatDay date |}.

(** [for (let i = days - 1; i >= 0; i--) { ... data.push(...) }] *)
Fixpoint userLoop (fuel : nat) (i : Z) (k : nat) (data : list ChartPoint)
  : list ChartPoint :=
  match fuel with
  | O => data
  | S fuel' =>
      if 0 <=? i then
        userLoop fuel' (i - 1) (S k) (data ++ [userPoint i (random k)])
      else data
  end.

(** [generateUserAnalytics(days)] *)
Definition generateUserAnalytics (days : Z) : list ChartPoint :=
  sliceLast 7 (userLoop (Z.to_nat days) (days - 1) 0 []).

(** The callback of [categories.map] in [generateCategoryData]. *)
Definition categoryPoint (index : nat) (category : string * number * string)
  : CategoryPoint :=
  let '(name, weight, color) := category in
  {| cp_x := name;
     cp_y := Math_round (weight * inject_Z 100
                         + (random index - (1 # 2)) * inject_Z 10)%Q;
     cp_label := name;
     backgroundColor := color |}.

(** [generateCategoryData] *)
Definition generateCategoryData : list CategoryPoint :=
  imap categoryPoint categoryTable.

(** The time of [new Date()] in milliseconds, the local hour of a time,
    and the two formats of [generatePerformanceData]. *)
Variable currentTime : Z.
Variable getHours : Z -> Z.
Variable formatTime : Z -> string.
Variable formatStamp : Z -> string.

(** One iteration of the loop of [generatePerformanceData]. *)
Definition performancePoint (i : Z) (r : number) : ChartPoint :=
  let time := currentTime - i * hourMs in
  let hour := getHours time in
  let businessHourMultiplier : number :=
    if (9 <=? hour) && (hour <=? 17) then lit (15 # 10) else lit (7 # 10) in
  let baseResponseTime : number := inject_Z 50 in
  let randomVariation := fadd (lit (5 # 10)) (fmul r (lit 1%Q)) in
  {| x := formatTime time;
     y := Math_round
            (fmul (fmul baseResponseTime businessHourMultiplier)
                  randomVariation);
     label := formatStamp time |}.

(** [for (let i = hours - 1; i >= 0; i--) { ... data.push(...) }] *)
Fixpoint performanceLoop (fuel : nat) (i : Z) (k : nat)
  (data : list ChartPoint) : list ChartPoint :=
  match fuel with
  | O => data
  | S fuel' =>
      if 0 <=? i then
        performanceLoop fuel' (i - 1) (S k)
          (data ++ [performancePoint i (random k)])
      else data
  end.

(** [generatePerformanceData(hours)] *)
Definition generatePerformanceData (hours : Z) : list ChartPoint :=
  performanceLoop (Z.to_nat hours) (hours - 1) 0 [].

(** [Date.now()] in the [k]-th iteration of [generateTimeSeriesData]. *)
Variable clock : nat -> Z.




End Oracles.

(** [lo <= v < hi] *)
Definition inRange (lo hi v : number) : Prop := (lo <= v)%Q /\ (v < hi)%Q.

(** [lo <= v <= hi] *)
Definition closedRange (lo hi v : number) : Prop := (lo <= v)%Q /\ (v <= hi)%Q.

(** What the code relies on of rounding to the nearest double: it keeps
    the order, leaves a double as it is, leaves the halves of the whole
    numbers up to [2^53] as they are, and a value that is at most
    [n * (1 - 2^-53)], for a whole number [n] up to [2^53], is rounded
    to a double below [n]. *)
Definition roundsToNearest (rnd : number -> number) : Prop :=
  (forall x y, (x <= y)%Q -> (rnd x <= rnd y)%Q) /\
  (forall x, (rnd (rnd x) == rnd x)%Q) /\
  (forall n : Z, - 2 ^ 53 <= n <= 2 ^ 53 -> (rnd (n # 2) == n # 2)%Q) /\
  (forall (n : Z) x,
      0 < n <= 2 ^ 53 ->
      (x <= inject_Z n * (1 - (1 # 9007199254740992)))%Q ->
      (rnd x < inject_Z n)%Q).

(** [Math.random()] returns a double from 0 to [1 - 2^-53]. *)
Definition randomDouble (rnd : number -> number) (random : nat -> number)
  : Prop :=
  forall k, (0 <= random k)%Q /\
            (random k <= 1 - (1 # 9007199254740992))%Q /\
            (rnd (random k) == random k)%Q.



(** Exact arithmetic, the rounding that changes nothing. *)
Definition noRounding (v : number) : number := v.

(** Is the day a Saturday or a Sunday? *)
Definition isWeekend (day : Z) : bool := (getDay day =? 0) || (getDay day =? 6).

(** Is the hour one of the business hours, 9 to 17? *)
Definition isBusinessHour (hour : Z) : bool := (9 <=? hour) && (hour <=? 17).

(** Sample oracles for the dates and times. *)
Definition sampleToday : Z := 20759.

Definition sampleHours : Z -> Z := fun ms => (ms / hourMs) mod 24.

End Generators.

(* ================================================================== *)
(** * src/hooks/useRealTimeData.ts: [useLiveMetrics] *)

Module LiveMetrics.

(** [Math.max(a, b)] *)
Definition Math_max (a b : number) : number :=
  if Qle_bool a b then b else a.

(** What the callback of one [animate] call closed over and counts:
    [startValue], [stepValue], [targetValue], [currentStep], and the
    period [duration / steps] of its timer. *)
Record Animation := {
  startValue : number;
  stepValue : number;
  targetValue : number;
  currentStep : Z;
  period : number
}.

(** The hook instance: the arguments [initialValue] and [increment], the
    state cells [value] and [isAnimating], the [value] of the last
    render, which the callbacks closed over, and the timers of the
    animations that run. *)
Record Hook := {
  initialValue : number;
  increment : number;
  value : number;
  isAnimating : bool;
  rendered : number;
  animations : gmap Timers.TimerId Animation;
  nextId : Timers.TimerId
}.

Definition steps : Z := 60.

(** [useLiveMetrics(initialValue, increment)] *)
Definition mount (initialValue0 increment0 : number) : Hook := {|
  initialValue := initialValue0; increment := increment0;
  value := initialValue0; isAnimating := false; rendered := initialValue0;
  animations := ∅; nextId := 1%nat
|}.

(** [animate(targetValue, duration)]; the timer it starts is registered
    under the handle [nextId]. *)
Definition animate (target duration : number) (h : Hook) : Hook :=
  let startValue0 := rendered h in
  let difference := (target - startValue0)%Q in
  let stepValue0 := (difference / inject_Z steps)%Q in
  {| initialValue := initialValue h; increment := increment h;
     value := value h;
     isAnimating := true;
     rendered := rendered h;
     animations :=
       <[nextId h := {| startValue := startValue0; stepValue := stepValue0;
                        targetValue := target; currentStep := 0;
                        period := (duration / inject_Z steps)%Q |}]>
         (animations h);
     nextId := S (nextId h) |}.

(** The animation [a] with its step counter at [c]. *)
Definition atStep (a : Animation) (c : Z) : Animation := {|
  startValue := startValue a; stepValue := stepValue a;
  targetValue := targetValue a; currentStep := c; period := period a
|}.

(** The period of the timer [id] elapses: the callback of its
    animation runs. *)
Definition tick (id : Timers.TimerId) (h : Hook) : Hook :=
  match animations h !! id with
  | None => h
  | Some a =>
      let step := currentStep a + 1 in
      let moved := (startValue a + stepValue a * inject_Z step)%Q in
      if steps <=? step then
        {| initialValue := initialValue h; increment := increment h;
           value := targetValue a;
           isAnimating := false;
           rendered := rendered h;
           animations := delete id (animations h);
           nextId := nextId h |}
      else
        {| initialValue := initialValue h; increment := increment h;
           value := moved;
           isAnimating := isAnimating h;
           rendered := rendered h;
           animations :=
             <[id := {| startValue := startValue a; stepValue := stepValue a;
                        targetValue := targetValue a; currentStep := step;
                        period := period a |}]> (animations h);
           nextId := nextId h |}
  end.

(** The function [animate] returns: [() => clearInterval(timer)]. *)
Definition cancel (id : Timers.TimerId) (h : Hook) : Hook := {|
  initialValue := initialValue h; increment := increment h;
  value := value h; isAnimating := isAnimating h; rendered := rendered h;
  animations := delete id (animations h); nextId := nextId h
|}.

(** [increment] (the hook's [increment_value]) *)
Definition increment_value (h : Hook) : Hook :=
  animate (rendered h + increment h)%Q (inject_Z 1000) h.

(** [decrement] *)
Definition decrement (h : Hook) : Hook :=
  animate (Math_max 0 (rendered h - increment h))%Q (inject_Z 1000) h.

(** [reset] *)
Definition reset (h : Hook) : Hook :=
  animate (initialValue h) (inject_Z 1000) h.

(** A re-render: the callbacks are re-created over the current value. *)
Definition render (h : Hook) : Hook := {|
  initialValue := initialValue h; increment := increment h;
  value := value h; isAnimating := isAnimating h; rendered := value h;
  animations := animations h; nextId := nextId h
|}.

(** [n] ticks of the timer [id] in a row. *)
Definition ticks (n : nat) (id : Timers.TimerId) (h : Hook) : Hook :=
  Nat.iter n (tick id) h.

End LiveMetrics.

(* ================================================================== *)
(** * src/hooks/useApi.ts *)

Module UseApi.
Import Types Api.

(** How a callback of the caller ends. *)
Inductive CallbackEnd :=
| Returns
| Throws (v : Thrown).

Section WithData.

Variable T : Type.

(** The state cells of [useApi]; of the [Error] in [error] the message
    is kept. *)
Record State := {
  data : option T;
  loading : bool;
  error : option string
}.

(** [UseApiOptions], without [immediate]. *)
Record Callbacks := {
  onSuccess : option (T -> CallbackEnd);
  onError : option (string -> CallbackEnd)
}.

Definition initial : State :=
  {| data := None; loading := false; error := None |}.

(** [callback?.(argument)] *)
Definition optionalCall {A} (callback : option (A -> CallbackEnd)) (a : A)
  : CallbackEnd :=
  match callback with
  | Some f => f a
  | None => Returns
  end.

(** [response.message || 'API request failed'] *)
Definition failureMessage (response : ApiResponse.t T) : string :=
  match ApiResponse.message response with
  | Some m => if String.eqb m "" then "API request failed" else m
  | None => "API request failed"
  end.

(** [err instanceof Error ? err : new Error('Unknown error occurred')] *)
Definition asError (err : Thrown) : string :=
  match err with
  | ErrorInstance m => m
  | OtherValue _ => "Unknown error occurred"
  end.

(** The [try] block of [execute] after the [await], for a promise that
    was fulfilled. It ends normally or throws. *)
Definition afterResponse (cb : Callbacks) (response : ApiResponse.t T)
  (s : State) : CallbackEnd * State :=
  match ApiResponse.status response with
  | success =>
      let s' := {| data := Some (ApiResponse.data response);
                   loading := loading s; error := error s |} in
      (optionalCall (onSuccess cb) (ApiResponse.data response), s')
  | failure =>
      let errorMessage := failureMessage response in
      let s' := {| data := data s; loading := loading s;
                   error := Some errorMessage |} in
      (optionalCall (onError cb) errorMessage, s')
  end.

(** The [catch] block of [execute]. *)
Definition catchBlock (cb : Callbacks) (err : Thrown) (s : State)
  : CallbackEnd * State :=
  let error0 := asError err in
  (optionalCall (onError cb) error0,
   {| data := data s; loading := loading s; error := Some error0 |}).

(** [execute], for the way the promise of [apiFunction()] settles. *)
Definition execute (cb : Callbacks) (o : Outcome T) (s : State)
  : CallbackEnd * State :=
  let s1 := {| data := data s; loading := true; error := None |} in
  let '(ending, s2) :=
    match o with
    | Resolved response =>
        match afterResponse cb response s1 with
        | (Returns, s') => (Returns, s')
        | (Throws v, s') => catchBlock cb v s'
        end
    | Rejected reason => catchBlock cb reason s1
    end in
  (ending, {| data := data s2; loading := false; error := error s2 |}).

(** [reset] *)
Definition reset (s : State) : State :=
  {| data := None; loading := false; error := None |}.

End WithData.

Arguments data {T} _.
Arguments loading {T} _.
Arguments error {T} _.
Arguments onSuccess {T} _.
Arguments onError {T} _.
Arguments initial {T}.
Arguments execute {T} _ _ _.
Arguments reset {T} _.
Arguments failureMessage {T} _.

(** Callbacks that are absent. *)
Definition noCallbacks {T} : Callbacks T :=
  {| onSuccess := None; onError := None |}.

(** Callbacks that return. *)
Definition quiet {T} (cb : Callbacks T) : Prop :=
  (forall f d, onSuccess cb = Some f -> f d = Returns) /\
  (forall f m, onError cb = Some f -> f m = Returns).

(** ** [usePolling]

    The component that owns the hook: its repeating timers, the handle
    the cleanup of the polling effect closed over, the number of calls
    of [execute] so far, and the [immediate] that the effect of [useApi]
    saw when it last ran. *)
Record Poller := {
  intervals : Timers.t;
  pollHandle : option Timers.TimerId;
  polls : nat;
  immediate : bool
}.

Definition noPoller : Poller :=
  {| intervals := Timers.empty; pollHandle := None; polls := 0;
     immediate := false |}.

(** The cleanup of the effect of [usePolling]. *)
Definition pollCleanup (w : Poller) : Poller :=
  match pollHandle w with
  | Some id =>
      {| intervals := Timers.clearInterval id (intervals w);
         pollHandle := None; polls := polls w; immediate := immediate w |}
  | None => w
  end.

(** The effect of [usePolling], run again after its cleanup because a
    dependency changed. *)
Definition pollEffect (enabled : bool) (interval : Z) (w : Poller) : Poller :=
  let w1 := pollCleanup w in
  if negb enabled || (interval <=? 0) then w1
  else
    let '(id, tm) := Timers.setInterval interval (intervals w1) in
    {| intervals := tm; pollHandle := Some id; polls := polls w1;
       immediate := immediate w1 |}.

(** The effect of [useApi] inside [usePolling], whose [immediate] is
    [enabled]. *)
Definition immediateEffect (enabled : bool) (w : Poller) : Poller :=
  {| intervals := intervals w; pollHandle := pollHandle w;
     polls := if enabled then S (polls w) else polls w;
     immediate := enabled |}.

(** Mounting a component that calls [usePolling]: the effect of [useApi]
    runs first. *)
Definition mountPolling (enabled : bool) (interval : Z) : Poller :=
  pollEffect enabled interval (immediateEffect enabled noPoller).

(** The period of a repeating timer elapses. *)
Definition pollTick (id : Timers.TimerId) (w : Poller) : Poller :=
  if Timers.isActive id (intervals w) then
    {| intervals := intervals w; pollHandle := pollHandle w;
       polls := S (polls w); immediate := immediate w |}
  else w.

(** What happens to a mounted poller: a re-render that changes a
    dependency of the polling effect ([execute], [interval] or
    [enabled]), or a timer that fires. The effect of [useApi] runs again
    when [execute] or [immediate] changed. *)
Inductive PollEvent :=
| PollRerender (executeChanged : bool) (enabled : bool) (interval : Z)
| PollTick (id : Timers.TimerId).

Definition pollStep (e : PollEvent) (w : Poller) : Poller :=
  match e with
  | PollRerender executeChanged enabled interval =>
      let w1 :=
        if executeChanged || negb (Bool.eqb enabled (immediate w))
        then immediateEffect enabled w else w in
      pollEffect enabled interval w1
  | PollTick id => pollTick id w
  end.

Definition pollRun (es : list PollEvent) (w : Poller) : Poller :=
  fold_left (fun v e => pollStep e v) es w.

(** The repeating timers are the polling effect's: the table holds the
    handle of the pending cleanup and nothing else. *)
Definition pollOwned (w : Poller) : Prop :=
  match pollHandle w with
  | Some id => exists period, Timers.active (intervals w) = {[ id := period ]}
  | None => Timers.active (intervals w) = ∅
  end.

(** ** [useDebouncedApi]

    The one-shot timers with their delays, the handle the cleanup of the
    effect closed over, and the number of calls of [execute] so far. *)
Record Debouncer := {
  timeouts : gmap Timers.TimerId Z;
  nextTimeout : Timers.TimerId;
  debounceHandle : option Timers.TimerId;
  debounced : nat
}.

Definition noDebouncer : Debouncer :=
  {| timeouts := ∅; nextTimeout := 1%nat; debounceHandle := None;
     debounced := 0 |}.

(** The cleanup of the effect of [useDebouncedApi]. *)
Definition debounceCleanup (w : Debouncer) : Debouncer :=
  match debounceHandle w with
  | Some id =>
      {| timeouts := delete id (timeouts w); nextTimeout := nextTimeout w;
         debounceHandle := None; debounced := debounced w |}
  | None => w
  end.

(** The effect of [useDebouncedApi], on mount and whenever a dependency
    or the delay changes. *)
Definition debounceEffect (delay : Z) (w : Debouncer) : Debouncer :=
  let w1 := debounceCleanup w in
  {| timeouts := <[nextTimeout w1 := delay]> (timeouts w1);
     nextTimeout := S (nextTimeout w1);
     debounceHandle := Some (nextTimeout w1);
     debounced := debounced w1 |}.

(** A one-shot timer fires, if it was not cleared: [execute] is called
    and the timer is gone. *)
Definition timeoutFires (id : Timers.TimerId) (w : Debouncer) : Debouncer :=
  match timeouts w !! id with
  | Some _ =>
      {| timeouts := delete id (timeouts w); nextTimeout := nextTimeout w;
         debounceHandle := debounceHandle w;
         debounced := S (debounced w) |}
  | None => w
  end.

(** The dependencies of [useDebouncedApi] change once for every delay of
    the list, in a row, after the mount with the first delay. *)
Definition changes (delays : list Z) (w : Debouncer) : Debouncer :=
  fold_left (fun v delay => debounceEffect delay v) delays w.

(** At most the timer of the last effect is pending. *)
Definition debounceOwned (w : Debouncer) : Prop :=
  match debounceHandle w with
  | Some id => timeouts w = ∅ \/ exists delay, timeouts w = {[ id := delay ]}
  | None => timeouts w = ∅
  end.

End UseApi.


(* ================================================================== *)
(** * Properties of the refresh orchestrator *)

Module DashboardProps.
Import Types Api Dashboard.

(** ** The fetches and their two halves *)

Lemma fetchMetrics_split now o p :
  fetchMetrics now o p = fetchMetrics_settle now o (fetchMetrics_call now p).
Proof. destruct o; reflexivity. Qed.

Lemma fetchSalesData_split now o p :
  fetchSalesData now o p = fetchSalesData_settle now o (fetchSalesData_call p).
Proof. destruct o; reflexivity. Qed.

Lemma fetchUserAnalytics_split now o p :
  fetchUserAnalytics now o p
  = fetchUserAnalytics_settle now o (fetchUserAnalytics_call p).
Proof. destruct o; reflexivity. Qed.

Lemma fetchPerformanceMetrics_split now o p :
  fetchPerformanceMetrics now o p
  = fetchPerformanceMetrics_settle now o (fetchPerformanceMetrics_call p).
Proof. destruct o; reflexivity. Qed.

(** What [fetchMetrics] does alone: the loading flag is raised by the
    call, and a success stores the cards, lowers the flag and stamps
    [lastUpdated]. *)
Lemma fetchMetrics_success now response p :
  LoadingState.isLoading (loading (state (fetchMetrics_call now p))) = true /\
  let p' := snd (fetchMetrics now (Resolved response) p) in
  metrics (state p') = ApiResponse.data response /\
  loading (state p')
  = {| LoadingState.isLoading := false;
       LoadingState.error := None;
       LoadingState.lastUpdated := Some now |}.
Proof. repeat split. Qed.

(** C1 (the code departs from the specification). The fetches of the sales, user
    analytics and performance datasets never raise [isLoading], and
    their success replaces the dataset and leaves the whole loading
    state, [lastUpdated] included, as it was; only [fetchMetrics] raises
    the flag and stamps the time. *)
Theorem other_fetches_leave_loading_state now
  (sales : ApiResponse.t (list SalesData))
  (users : ApiResponse.t (list UserAnalytics))
  (perf : ApiResponse.t (list PerformanceMetrics)) p :
  (loading (state (fetchSalesData_call p)) = loading (state p) /\
   let p' := snd (fetchSalesData now (Resolved sales) p) in
   salesData (state p') = ApiResponse.data sales /\
   loading (state p') = loading (state p)) /\
  (loading (state (fetchUserAnalytics_call p)) = loading (state p) /\
   let p' := snd (fetchUserAnalytics now (Resolved users) p) in
   userAnalytics (state p') = ApiResponse.data users /\
   loading (state p') = loading (state p)) /\
  (loading (state (fetchPerformanceMetrics_call p)) = loading (state p) /\
   let p' := snd (fetchPerformanceMetrics now (Resolved perf) p) in
   performanceMetrics (state p') = ApiResponse.data perf /\
   loading (state p') = loading (state p)).
Proof. repeat split. Qed.

(** The same on a concrete run: on the provider whose metrics arrived at
    10:00:01, sales are fetched and arrive at 10:05:00. *)
Example sales_fetch_on_settled_provider :
  let p1 := fetchSalesData_call settledProvider in
  let p2 := snd (fetchSalesData_settle "2026-11-02T10:05:00.000Z"
                   (Resolved (respond [oneSale] "2026-11-02T10:05:00.000Z")) p1) in
  LoadingState.isLoading (loading (state p1)) = false /\
  salesData (state p2) = [oneSale] /\
  LoadingState.lastUpdated (loading (state p2))
  = Some "2026-11-02T10:00:01.000Z".
Proof. vm_compute. repeat split. Qed.

(** ** [refreshAllData] *)

Lemma settleAll_cons os k now rest p :
  settleAll os ((k, now) :: rest) p
  = (fst (settle os k now p) :: fst (settleAll os rest (snd (settle os k now p))),
     snd (settleAll os rest (snd (settle os k now p)))).
Proof.
  simpl. destruct (settle os k now p) as [c p1]. simpl.
  destruct (settleAll os rest p1); reflexivity.
Qed.

Lemma settle_normal os k now p : fst (settle os k now p) = Normal tt.
Proof.
  destruct k; simpl;
    [ destruct (o_metrics os) | destruct (o_sales os)
    | destruct (o_users os) | destruct (o_performance os) ]; reflexivity.
Qed.

(** A continuation touches neither the call log nor the closures. *)
Lemma settle_frame os k now p :
  calls (snd (settle os k now p)) = calls p /\
  rendered (snd (settle os k now p)) = rendered p.
Proof.
  destruct k; simpl;
    [ destruct (o_metrics os) | destruct (o_sales os)
    | destruct (o_users os) | destruct (o_performance os) ]; split; reflexivity.
Qed.

(** The four datasets after the continuation of kind [k]: the one of
    kind [k] follows the outcome, the others are untouched. *)
Lemma settle_datasets os k now p :
  let s := state p in
  let s' := state (snd (settle os k now p)) in
  metrics s' = (if decide (k = Metrics)
                then outcomeOr (o_metrics os) (metrics s) else metrics s) /\
  salesData s' = (if decide (k = Sales)
                  then outcomeOr (o_sales os) (salesData s) else salesData s) /\
  userAnalytics s' = (if decide (k = Users)
                      then outcomeOr (o_users os) (userAnalytics s)
                      else userAnalytics s) /\
  performanceMetrics s' = (if decide (k = Performance)
                           then outcomeOr (o_performance os) (performanceMetrics s)
                           else performanceMetrics s).
Proof.
  destruct k; simpl;
    [ destruct (o_metrics os) | destruct (o_sales os)
    | destruct (o_users os) | destruct (o_performance os) ];
    repeat split.
Qed.

(** No continuation raises the loading flag, and the one of the metrics
    fetch lowers it. *)
Lemma settle_isLoading os k now p :
  let before := LoadingState.isLoading (loading (state p)) in
  let after := LoadingState.isLoading (loading (state (snd (settle os k now p)))) in
  (before = false -> after = false) /\ (k = Metrics -> after = false).
Proof.
  destruct k; simpl;
    [ destruct (o_metrics os) | destruct (o_sales os)
    | destruct (o_users os) | destruct (o_performance os) ];
    split; intros; simpl; congruence.
Qed.

Local Ltac decide_all :=
  repeat match goal with |- context [decide ?P] => destruct (decide P) end.

Lemma outcomeOr_idem {T} (o : Outcome T) stored :
  outcomeOr o (outcomeOr o stored) = outcomeOr o stored.
Proof. destruct o; reflexivity. Qed.

Lemma settleAll_normal os order p :
  promiseAll (fst (settleAll os order p)) = Normal tt.
Proof.
  revert p; induction order as [|[k now] rest IH]; intros p; [reflexivity|].
  rewrite settleAll_cons; cbn [fst promiseAll].
  rewrite settle_normal. apply IH.
Qed.

Lemma settleAll_frame os order p :
  calls (snd (settleAll os order p)) = calls p /\
  rendered (snd (settleAll os order p)) = rendered p.
Proof.
  revert p; induction order as [|[k now] rest IH]; intros p; [split; reflexivity|].
  rewrite settleAll_cons; cbn [snd].
  destruct (IH (snd (settle os k now p))) as [-> ->].
  apply settle_frame.
Qed.

Lemma settleAll_datasets os order p :
  let s := state p in
  let s' := state (snd (settleAll os order p)) in
  let ks := map fst order in
  metrics s' = (if decide (Metrics ∈ ks)
                then outcomeOr (o_metrics os) (metrics s) else metrics s) /\
  salesData s' = (if decide (Sales ∈ ks)
                  then outcomeOr (o_sales os) (salesData s) else salesData s) /\
  userAnalytics s' = (if decide (Users ∈ ks)
                      then outcomeOr (o_users os) (userAnalytics s)
                      else userAnalytics s) /\
  performanceMetrics s' = (if decide (Performance ∈ ks)
                           then outcomeOr (o_performance os) (performanceMetrics s)
                           else performanceMetrics s).
Proof.
  revert p; induction order as [|[k now] rest IH]; intros p.
  - cbn. repeat split.
  - cbn zeta. rewrite settleAll_cons; cbn [snd map fst].
    specialize (IH (snd (settle os k now p))); cbn zeta in IH.
    destruct IH as (Hm & Hs & Hu & Hp).
    destruct (settle_datasets os k now p) as (Em & Es & Eu & Ep).
    rewrite Hm, Hs, Hu, Hp, Em, Es, Eu, Ep.
    clear; destruct k; repeat split; decide_all;
      rewrite ?outcomeOr_idem; try reflexivity; try congruence;
      exfalso; rewrite ?elem_of_cons in *; intuition congruence.
Qed.

Lemma settleAll_isLoading os order p :
  let before := LoadingState.isLoading (loading (state p)) in
  let after :=
    LoadingState.isLoading (loading (state (snd (settleAll os order p)))) in
  (before = false -> after = false) /\
  (Metrics ∈ map fst order -> after = false).
Proof.
  revert p; induction order as [|[k now] rest IH]; intros p.
  - cbn. split; [tauto | set_solver].
  - cbn zeta. rewrite settleAll_cons; cbn [snd map fst].
    destruct (IH (snd (settle os k now p))) as [Hkeep Hin].
    destruct (settle_isLoading os k now p) as [Hkeep1 Hm].
    split; [auto|].
    intros [Heq|Hrest]%elem_of_cons; [symmetry in Heq|]; auto.
Qed.

(** C2. No fetch of the orchestrator throws, however the remote call
    settles, and neither does [refreshAllData]. After a rejection the
    state holds an [AppError] with its four fields set: the code
    ["DASHBOARD_ERROR"]; the message, which is the message of the thrown
    value when that is an [Error] and ["An unexpected error occurred"]
    for any other thrown value; the details, with the name of the fetch
    and the thrown value; and the time of the failure. [isLoading] is
    false. *)
Theorem fetches_never_throw now p :
  let stored (message ctx : string) (reason : Thrown) (p' : Provider) :=
    error (state p')
    = Some {| AppError.code := "DASHBOARD_ERROR";
              AppError.message := message;
              AppError.details := Some {| context := ctx; cause := reason |};
              AppError.timestamp := now |} /\
    LoadingState.isLoading (loading (state p')) = false in
  (forall o, fst (fetchMetrics now o p) = Normal tt) /\
  (forall o, fst (fetchSalesData now o p) = Normal tt) /\
  (forall o, fst (fetchUserAnalytics now o p) = Normal tt) /\
  (forall o, fst (fetchPerformanceMetrics now o p) = Normal tt) /\
  (forall os order, fst (refreshAllData now os order p) = Normal tt) /\
  (forall msg,
      let reason := ErrorInstance msg in
      stored msg "fetchMetrics" reason
        (snd (fetchMetrics now (Rejected reason) p)) /\
      stored msg "fetchSalesData" reason
        (snd (fetchSalesData now (Rejected reason) p)) /\
      stored msg "fetchUserAnalytics" reason
        (snd (fetchUserAnalytics now (Rejected reason) p)) /\
      stored msg "fetchPerformanceMetrics" reason
        (snd (fetchPerformanceMetrics now (Rejected reason) p))) /\
  (forall repr,
      let reason := OtherValue repr in
      let generic := "An unexpected error occurred" in
      stored generic "fetchMetrics" reason
        (snd (fetchMetrics now (Rejected reason) p)) /\
      stored generic "fetchSalesData" reason
        (snd (fetchSalesData now (Rejected reason) p)) /\
      stored generic "fetchUserAnalytics" reason
        (snd (fetchUserAnalytics now (Rejected reason) p)) /\
      stored generic "fetchPerformanceMetrics" reason
        (snd (fetchPerformanceMetrics now (Rejected reason) p))).
Proof.
  cbn zeta.
  repeat split; try (intros [response | reason]; reflexivity).
  intros os order. unfold refreshAllData.
  pose proof (settleAll_normal os order (refreshAllData_call now p)) as Hn.
  destruct (settleAll os order (refreshAllData_call now p)); exact Hn.
Qed.

(** C3. [refreshAllData] calls the four remote operations, and however
    their promises settle and in whatever order, its own promise is
    fulfilled, [isLoading] ends false, and each dataset is the response's
    if its fetch succeeded and the stored one if it failed. *)
Theorem refreshAllData_settles t0 os order p :
  Permutation (map fst order) allKinds ->
  let r := refreshAllData t0 os order p in
  fst r = Normal tt /\
  calls (snd r)
  = (calls p ++ [ getMetrics; getSalesData (Some (filters (rendered p)));
                  getUserAnalytics; getPerformanceMetrics ])%list /\
  LoadingState.isLoading (loading (state (snd r))) = false /\
  metrics (state (snd r)) = outcomeOr (o_metrics os) (metrics (state p)) /\
  salesData (state (snd r)) = outcomeOr (o_sales os) (salesData (state p)) /\
  userAnalytics (state (snd r))
  = outcomeOr (o_users os) (userAnalytics (state p)) /\
  performanceMetrics (state (snd r))
  = outcomeOr (o_performance os) (performanceMetrics (state p)).
Proof.
  intros Hperm r; subst r; unfold refreshAllData.
  assert (Hall : forall k, k ∈ map fst order).
  { intros k. rewrite Hperm. destruct k; set_solver. }
  set (p0 := refreshAllData_call t0 p).
  destruct (settleAll os order p0) as [cs p'] eqn:E.
  pose proof (settleAll_normal os order p0) as Hn.
  pose proof (settleAll_frame os order p0) as [Hc _].
  pose proof (settleAll_datasets os order p0) as (Hm & Hs & Hu & Hp).
  pose proof (settleAll_isLoading os order p0) as [_ Hl].
  rewrite E in *; cbn [fst snd] in *.
  rewrite !decide_True in * by apply Hall.
  repeat split; auto.
  - rewrite Hc. unfold p0, refreshAllData_call. cbn.
    rewrite <- !app_assoc. reflexivity.
Qed.

Lemma refreshAllData_settles_witness :
  let r := refreshAllData "2026-11-02T10:10:00.000Z" allFail someOrder
             settledProvider in
  fst r = Normal tt /\
  calls (snd r)
  = (calls settledProvider
     ++ [ getMetrics; getSalesData (Some (filters (rendered settledProvider)));
          getUserAnalytics; getPerformanceMetrics ])%list /\
  LoadingState.isLoading (loading (state (snd r))) = false /\
  metrics (state (snd r))
  = outcomeOr (o_metrics allFail) (metrics (state settledProvider)) /\
  salesData (state (snd r))
  = outcomeOr (o_sales allFail) (salesData (state settledProvider)) /\
  userAnalytics (state (snd r))
  = outcomeOr (o_users allFail) (userAnalytics (state settledProvider)) /\
  performanceMetrics (state (snd r))
  = outcomeOr (o_performance allFail) (performanceMetrics (state settledProvider)).
Proof.
  apply (refreshAllData_settles "2026-11-02T10:10:00.000Z" allFail someOrder
           settledProvider).
  simpl.
  apply perm_trans with (l' := [Metrics; Sales; Performance; Users]);
    [apply perm_swap | do 2 apply perm_skip; apply perm_swap].
Defined.

(** ** Filters and the outgoing request *)

(** C5 (the code departs from the specification). After
    [updateFilters({ category: "Electronics" })] and the re-render it
    causes, [fetchSalesData] hands filters with that category to
    [getSalesData], but the request that goes out is
    [GET /posts] without any parameter. *)
Theorem sales_request_omits_category now p :
  let p1 := render (snd (updateFilters now electronics p)) in
  let p2 := fetchSalesData_call p1 in
  category (filters (state p1)) = Some "Electronics" /\
  exists f,
    calls p2 = (calls p ++ [getSalesData (Some f)])%list /\
    category f = Some "Electronics" /\
    request_of (getSalesData (Some f))
    = Some {| method := "get"; url := "/posts"; params := [] |}.
Proof.
  cbn zeta. unfold render.
  destruct (autoRefreshDepsChanged _);
    [unfold autoRefreshEffect, autoRefreshCleanup;
     repeat match goal with |- context [match ?x with _ => _ end] =>
       destruct x end |];
    (split; [reflexivity | eexists; repeat split]).
Qed.

(** ** The auto-refresh timer *)

Lemma ownsTimers_ext p q :
  rendered q = rendered p -> timers q = timers p ->
  autoRefreshHandle q = autoRefreshHandle p ->
  ownsTimers p -> ownsTimers q.
Proof. unfold ownsTimers. intros -> -> ->. tauto. Qed.

(** The effect, run on an empty timer table, owns what it registers. *)
Lemma ownsTimers_effect p :
  Timers.active (timers p) = ∅ -> ownsTimers (autoRefreshEffect p).
Proof.
  intros Hempty. unfold ownsTimers, autoRefreshEffect, autoRefreshOn.
  destruct (autoRefresh (config (rendered p)) && (0 <? refreshInterval (config (rendered p))))
    eqn:Hon; cbn; rewrite Hon.
  - eexists; split; [reflexivity|]. rewrite Hempty. apply insert_empty.
  - auto.
Qed.

(** The cleanup empties the timer table of a provider that owns its
    timers. *)
Lemma cleanup_empties p :
  ownsTimers p ->
  Timers.active (timers (autoRefreshCleanup (commit_render p))) = ∅.
Proof.
  unfold ownsTimers, autoRefreshCleanup.
  destruct (autoRefreshOn (config (rendered p))).
  - intros (interval & Hh & Ha). cbn. rewrite Hh. cbn. rewrite Ha.
    apply delete_singleton_eq.
  - intros [Hh Ha]. cbn. rewrite Hh. exact Ha.
Qed.

Lemma depsUnchanged p :
  autoRefreshDepsChanged p = false ->
  autoRefresh (config (state p)) = autoRefresh (config (rendered p)) /\
  refreshInterval (config (state p)) = refreshInterval (config (rendered p)).
Proof.
  unfold autoRefreshDepsChanged.
  intros [[Ha Hi]%orb_false_elim _]%orb_false_elim.
  apply negb_false_iff in Ha, Hi.
  apply Bool.eqb_prop in Ha. apply Z.eqb_eq in Hi. auto.
Qed.

Lemma ownsTimers_render p : ownsTimers p -> ownsTimers (render p).
Proof.
  intros Hp. unfold render.
  destruct (autoRefreshDepsChanged p) eqn:Hdeps.
  - apply ownsTimers_effect, cleanup_empties, Hp.
  - destruct (depsUnchanged p Hdeps) as [Ha Hi].
    revert Hp. unfold ownsTimers, autoRefreshOn. cbn. rewrite Ha, Hi. tauto.
Qed.

(** Only a render touches the closures, the timers and the cleanup. *)
Lemma step_frame e p :
  e <> EvRender ->
  rendered (step e p) = rendered p /\
  timers (step e p) = timers p /\
  autoRefreshHandle (step e p) = autoRefreshHandle p.
Proof.
  intros He. destruct e as [| | | |now k|os k now| |now id]; try congruence;
    try (repeat split; fail).
  - destruct k; repeat split.
  - destruct k; cbn;
      [ destruct (o_metrics os) | destruct (o_sales os)
      | destruct (o_users os) | destruct (o_performance os) ]; repeat split.
  - cbn. unfold intervalElapses. destruct (Timers.isActive id (timers p));
      repeat split.
Qed.

Lemma ownsTimers_step e p : ownsTimers p -> ownsTimers (step e p).
Proof.
  intros Hp.
  assert (He : e = EvRender \/ e <> EvRender)
    by (destruct e; (left; reflexivity) || (right; discriminate)).
  destruct He as [->|He].
  - apply ownsTimers_render, Hp.
  - destruct (step_frame e p He) as (Hr & Ht & Hh).
    exact (ownsTimers_ext p _ Hr Ht Hh Hp).
Qed.

Lemma ownsTimers_mount now thirtyDaysAgo today :
  ownsTimers (mount now thirtyDaysAgo today).
Proof.
  unfold mount.
  eapply ownsTimers_ext; [| | | apply (ownsTimers_effect (unmounted thirtyDaysAgo today))];
    reflexivity.
Qed.


Lemma autoRefreshIsOff_step e p :
  keepsAutoRefreshOff e -> autoRefreshIsOff p -> autoRefreshIsOff (step e p).
Proof.
  unfold autoRefreshIsOff. intros He [Hs Hr].
  destruct e as [|now f|now c| |now k|os k now| |now id]; cbn.
  - unfold render. destruct (autoRefreshDepsChanged p);
      unfold autoRefreshEffect, autoRefreshCleanup; cbn;
      repeat match goal with |- context [match ?x with _ => _ end] =>
        destruct x end; cbn; auto.
  - auto.
  - split; [|exact Hr]. cbn in He.
    destruct (p_autoRefresh c) as [[]|]; cbn; congruence.
  - auto.
  - destruct k; cbn; auto.
  - destruct k; cbn;
      [ destruct (o_metrics os) | destruct (o_sales os)
      | destruct (o_users os) | destruct (o_performance os) ]; cbn; auto.
  - auto.
  - unfold intervalElapses. destruct (Timers.isActive id (timers p)); cbn; auto.
Qed.

Lemma no_timer_when_off p :
  ownsTimers p -> autoRefreshIsOff p ->
  Timers.active (timers p) = ∅ /\ autoRefreshHandle p = None.
Proof.
  unfold ownsTimers, autoRefreshOn. intros Hp [_ Hr]. rewrite Hr in Hp.
  cbn in Hp. tauto.
Qed.

Lemma intervalElapses_idle now id p :
  Timers.active (timers p) = ∅ -> intervalElapses now id p = p.
Proof.
  intros Hempty. unfold intervalElapses, Timers.isActive.
  rewrite Hempty, lookup_empty, bool_decide_eq_false_2; [reflexivity|].
  intros [? ?]; discriminate.
Qed.

(** C8. Once [autoRefresh] is set to false and the provider has
    re-rendered, the interval timer is cleared; as long as nothing sets
    [autoRefresh] to true again, no timer is registered, so the elapsing
    of any formerly scheduled interval calls nothing and leaves the
    provider as it is. *)
Theorem autoRefresh_off_cancels_timer now c p es :
  ownsTimers p ->
  p_autoRefresh c = Some false ->
  Forall keepsAutoRefreshOff es ->
  let p1 := render (snd (updateConfig now c p)) in
  let q := run es p1 in
  Timers.active (timers p1) = ∅ /\
  autoRefreshHandle p1 = None /\
  Timers.active (timers q) = ∅ /\
  (forall t id, intervalElapses t id q = q) /\
  (forall t id, calls (step (EvIntervalElapses t id) q) = calls q).
Proof.
  intros Hp Hc Hes p1 q.
  assert (Hown1 : ownsTimers p1).
  { apply ownsTimers_render.
    exact (ownsTimers_step (EvUpdateConfig now c) p Hp). }
  assert (Hoff1 : autoRefreshIsOff p1).
  { assert (Hs : autoRefresh (config (state (snd (updateConfig now c p)))) = false)
      by (cbn; rewrite Hc; reflexivity).
    subst p1. unfold autoRefreshIsOff, render.
    destruct (autoRefreshDepsChanged _);
      unfold autoRefreshEffect, autoRefreshCleanup; cbn;
      repeat match goal with |- context [match ?x with _ => _ end] =>
        destruct x end; cbn; auto. }
  assert (Hq : ownsTimers q /\ autoRefreshIsOff q).
  { subst q. clearbody p1. clear Hp Hc.
    revert p1 Hown1 Hoff1. induction Hes as [|e es He Hes IH]; intros p1 Ho Hf.
    - auto.
    - cbn. apply IH; [apply ownsTimers_step, Ho | apply autoRefreshIsOff_step; auto]. }
  destruct Hq as [Hownq Hoffq].
  destruct (no_timer_when_off p1 Hown1 Hoff1) as [E1 H1].
  destruct (no_timer_when_off q Hownq Hoffq) as [Eq _].
  repeat split; auto.
  - intros t id. apply intervalElapses_idle, Eq.
  - intros t id. cbn. rewrite intervalElapses_idle by exact Eq. reflexivity.
Qed.

Lemma autoRefresh_off_cancels_timer_witness :
  let es := [ EvIntervalElapses "2026-11-02T10:25:00.000Z" 1%nat;
              EvUpdateFilters "2026-11-02T10:26:00.000Z" electronics;
              EvRender;
              EvIntervalElapses "2026-11-02T10:30:00.000Z" 1%nat ] in
  let p1 := render (snd (updateConfig "2026-11-02T10:20:00.000Z" autoRefreshOff
                           settledProvider)) in
  let q := run es p1 in
  Timers.active (timers p1) = ∅ /\
  autoRefreshHandle p1 = None /\
  Timers.active (timers q) = ∅ /\
  (forall t id, intervalElapses t id q = q) /\
  (forall t id, calls (step (EvIntervalElapses t id) q) = calls q).
Proof.
  apply (autoRefresh_off_cancels_timer "2026-11-02T10:20:00.000Z" autoRefreshOff
           settledProvider).
  - unfold settledProvider. apply ownsTimers_render.
    apply (ownsTimers_step (EvSettle
             {| o_metrics := Resolved (respond [] "2026-11-02T10:00:01.000Z");
                o_sales := o_sales allFail; o_users := o_users allFail;
                o_performance := o_performance allFail |}
             Metrics "2026-11-02T10:00:01.000Z")).
    apply ownsTimers_mount.
  - reflexivity.
  - repeat constructor; simpl; discriminate.
Defined.

End DashboardProps.

(* ================================================================== *)
(** * Properties of the revenue generator *)

Module MockDataProps.
Import MockData.

Section Revenue.

Variable currentDate : JsDate.
Variable sine : Z -> number.
Variable random : nat -> number.

(** The loop, run from index [i] with [i + 1] iterations left, appends one
    point per index down to 0. *)
Lemma revenueLoop_map fuel months i k data :
  Z.of_nat fuel = i + 1 ->
  revenueLoop currentDate sine random fuel months i k data
  = (data ++ map (fun j : nat =>
                    revenuePoint currentDate sine months (i - Z.of_nat j)
                      (random (k + j)%nat))
               (seq 0 fuel))%list.
Proof.
  revert i k data; induction fuel as [|fuel IH]; intros i k data Hi.
  - cbn. rewrite app_nil_r. reflexivity.
  - cbn [revenueLoop]. replace (0 <=? i) with true by (symmetry; apply Z.leb_le; lia).
    rewrite IH by lia. cbn [seq map]. rewrite <- app_assoc. cbn [app].
    rewrite <- seq_shift, map_map. f_equal. f_equal.
    + replace (i - Z.of_nat 0) with i by lia.
      replace (k + 0)%nat with k by lia. reflexivity.
    + apply map_ext; intros j.
      replace (i - 1 - Z.of_nat j) with (i - Z.of_nat (S j)) by lia.
      replace (S k + j)%nat with (k + S j)%nat by lia. reflexivity.
Qed.

Lemma generateRevenueData_map months :
  0 <= months ->
  generateRevenueData currentDate sine random months
  = map (fun j : nat =>
           revenuePoint currentDate sine months (months - 1 - Z.of_nat j)
             (random j))
        (seq 0 (Z.to_nat months)).
Proof.
  intros Hm. unfold generateRevenueData.
  rewrite revenueLoop_map by lia. reflexivity.
Qed.

(** The constructor carries a month index outside 0..11 into the year. *)
Lemma newDate_rank year monthIndex :
  100 <= year ->
  monthRank (newDate year monthIndex) = year * 12 + monthIndex /\
  0 <= getMonth (newDate year monthIndex) <= 11.
Proof.
  intros Hy. unfold monthRank, newDate.
  replace ((0 <=? year) && (year <=? 99)) with false
    by (symmetry; apply andb_false_iff; right; apply Z.leb_gt; lia).
  cbn [getFullYear getMonth].
  pose proof (Z.div_mod monthIndex 12 ltac:(lia)).
  pose proof (Z.mod_pos_bound monthIndex 12 ltac:(lia)).
  lia.
Qed.

Lemma inject_Z_nonneg z : 0 <= z -> (0 <= inject_Z z)%Q.
Proof. intros Hz. unfold Qle; cbn. lia. Qed.

(** [Math.round] returns a whole number, and a non-negative one on a
    non-negative argument. *)
Lemma Math_round_nonneg v :
  (0 <= v)%Q -> exists n : Z, 0 <= n /\ Math_round v = inject_Z n.
Proof.
  intros Hv. exists (Qfloor (v + (1 # 2))). split; [|reflexivity].
  change 0 with (Qfloor 0).
  apply Qfloor_resp_le.
  apply Qle_trans with v; [exact Hv|].
  rewrite <- (Qplus_0_r v) at 1. apply Qplus_le_r. discriminate.
Qed.

Lemma revenuePoint_y months i r :
  sineInRange sine -> (0 <= r)%Q -> i <= months - 1 ->
  exists n : Z, 0 <= n /\
    y (revenuePoint currentDate sine months i r) = inject_Z n.
Proof.
  intros Hsine Hr Hi. cbn [revenuePoint y].
  apply Math_round_nonneg.
  set (m := getMonth _).
  destruct (Hsine m) as [Hlo _].
  repeat apply Qmult_le_0_compat.
  - discriminate.
  - apply Qle_trans with (1 + - (1) * (3 # 10))%Q; [discriminate|].
    apply Qplus_le_r. apply Qmult_le_compat_r; [exact Hlo | discriminate].
  - apply Qle_trans with ((8 # 10) + 0)%Q; [discriminate|].
    apply Qplus_le_r. apply Qmult_le_0_compat; [exact Hr | discriminate].
  - apply Qle_trans with (1 + 0)%Q; [discriminate|].
    apply Qplus_le_r. apply Qmult_le_0_compat; [|discriminate].
    apply inject_Z_nonneg. lia.
Qed.

(** C9. For [months = 12] the generator returns 12 points; their [x] and
    [label] name the months of ranks [r - 11, ..., r], where [r] is the
    rank of the current month, so they are consecutive calendar months
    in chronological order, December is followed by January of the next
    year, and the last one is the current month; every [y] is a
    non-negative whole number. *)
Theorem generateRevenueData_12 :
  validClock currentDate -> sineInRange sine -> randomInRange random ->
  let data := generateRevenueData currentDate sine random 12 in
  let dates := revenueDates currentDate 12 in
  length data = 12%nat /\
  map x data = map monthShort dates /\
  map label data = map monthLongYear dates /\
  map monthRank dates
  = map (fun j : nat => monthRank currentDate - 11 + Z.of_nat j) (seq 0 12) /\
  Forall (fun d => 0 <= getMonth d <= 11) dates /\
  last dates = Some currentDate /\
  Forall (fun p => exists n : Z, 0 <= n /\ y p = inject_Z n) data.
Proof.
  intros [Hyear Hmonth] Hsine Hrandom data dates.
  subst data dates. rewrite generateRevenueData_map by lia.
  unfold revenueDates.
  change (Z.to_nat 12) with 12%nat.
  split; [rewrite length_map, length_seq; reflexivity|].
  split; [rewrite !map_map; reflexivity|].
  split; [rewrite !map_map; reflexivity|].
  split.
  { rewrite map_map. apply map_ext_in. intros j Hj%in_seq.
    destruct (newDate_rank (getFullYear currentDate)
                (getMonth currentDate - (12 - 1 - Z.of_nat j)) Hyear) as [-> _].
    unfold monthRank. lia. }
  split.
  { apply Forall_map, Forall_forall. intros j _.
    apply newDate_rank, Hyear. }
  split.
  { cbn [seq map last]. 
    destruct currentDate as [cy cm]; cbn [getFullYear getMonth] in *.
    unfold newDate.
    replace ((0 <=? cy) && (cy <=? 99)) with false
      by (symmetry; apply andb_false_iff; right; apply Z.leb_gt; lia).
    do 2 f_equal.
    - replace (cm - (12 - 1 - Z.of_nat 11)) with cm by lia.
      rewrite Z.div_small by lia. lia.
    - replace (cm - (12 - 1 - Z.of_nat 11)) with cm by lia.
      apply Z.mod_small. lia. }
  apply Forall_map, Forall_forall. intros j Hj.
  apply revenuePoint_y; [exact Hsine | apply Hrandom | lia].
Qed.

End Revenue.

Lemma generateRevenueData_12_witness :
  let currentDate := {| getFullYear := 2026; getMonth := 10 |} in
  let sine := fun m : Z => if m <? 6 then (1 # 2) else (- (1 # 2))%Q in
  let random := fun k : nat => Z.of_nat (k mod 4) # 4 in
  let data := generateRevenueData currentDate sine random 12 in
  let dates := revenueDates currentDate 12 in
  length data = 12%nat /\
  map x data = map monthShort dates /\
  map label data = map monthLongYear dates /\
  map monthRank dates
  = map (fun j : nat => monthRank currentDate - 11 + Z.of_nat j) (seq 0 12) /\
  Forall (fun d => 0 <= getMonth d <= 11) dates /\
  last dates = Some currentDate /\
  Forall (fun p => exists n : Z, 0 <= n /\ y p = inject_Z n) data.
Proof.
  apply (generateRevenueData_12 {| getFullYear := 2026; getMonth := 10 |}).
  - unfold validClock; simpl; lia.
  - intros m. destruct (m <? 6); split; discriminate.
  - intros k. split.
    + unfold Qle; simpl; lia.
    + pose proof (Nat.mod_upper_bound k 4 ltac:(lia)).
      unfold Qlt; simpl; lia.
Defined.

End MockDataProps.

(* ================================================================== *)
(** * Properties of the streaming simulator *)

Module StreamProps.
Import Stream.

(** [consistent] looks at the handle, the live flag and the timer table
    only. *)
Lemma consistent_ext h g :
  intervalRef g = intervalRef h ->
  isLive (data g) = isLive (data h) ->
  Timers.active (timers g) = Timers.active (timers h) ->
  consistent h -> consistent g.
Proof. unfold consistent. intros -> -> ->. tauto. Qed.

Lemma consistent_generateFreshData fresh now h :
  consistent h -> consistent (generateFreshData fresh now h).
Proof. apply consistent_ext; reflexivity. Qed.

Lemma consistent_startStream fresh now h :
  consistent h -> consistent (startStream fresh now h).
Proof.
  unfold consistent, startStream.
  destruct (intervalRef h) as [id|] eqn:Href; cbn; rewrite ?Href; [tauto|].
  intros [_ Hempty]. split; [reflexivity|].
  eexists. rewrite Hempty. apply insert_empty.
Qed.

Lemma consistent_stopStream h : consistent h -> consistent (stopStream h).
Proof.
  unfold consistent, stopStream.
  destruct (intervalRef h) as [id|] eqn:Href; cbn; rewrite ?Href; cbn.
  - intros [_ [period Hactive]]. split; [reflexivity|].
    rewrite Hactive. apply delete_singleton_eq.
  - intros [_ Hempty]. auto.
Qed.

Lemma consistent_step e h : consistent h -> consistent (step e h).
Proof.
  intros Hh. destruct e as [|fresh now| |fresh now|c|fresh now|fresh now|id fresh now];
    cbn [step].
  - revert Hh. apply consistent_ext; reflexivity.
  - apply consistent_startStream, Hh.
  - apply consistent_stopStream, Hh.
  - unfold toggleStream. destruct (isLive (rendered h));
      [apply consistent_stopStream | apply consistent_startStream]; exact Hh.
  - unfold updateConfig. cbn.
    assert (Hc : consistent (set_configRef (mergeConfig (configRef h) c) h))
      by (revert Hh; apply consistent_ext; reflexivity).
    destruct (isLive (rendered h)); [|exact Hc].
    apply consistent_stopStream in Hc. revert Hc.
    apply consistent_ext; reflexivity.
  - apply consistent_generateFreshData, Hh.
  - unfold restartFires. destruct (restarts h) as [|n]; [exact Hh|].
    apply consistent_startStream. revert Hh. apply consistent_ext; reflexivity.
  - unfold intervalElapses. destruct (Timers.isActive id (timers h));
      [apply consistent_generateFreshData|]; exact Hh.
Qed.

Lemma consistent_mount config fresh now : consistent (mount config fresh now).
Proof. split; reflexivity. Qed.

Lemma consistent_run es h : consistent h -> consistent (run es h).
Proof.
  revert h; induction es as [|e es IH]; intros h Hh; [exact Hh|].
  apply IH, consistent_step, Hh.
Qed.

(** A consistent hook runs one timer when it is live and none otherwise. *)
Lemma consistent_running h :
  consistent h ->
  Timers.running (timers h) = (if isLive (data h) then 1 else 0)%nat.
Proof.
  unfold consistent, Timers.running.
  destruct (intervalRef h); [intros [-> [period ->]] | intros [-> ->]].
  - apply map_size_singleton.
  - apply map_size_empty.
Qed.

(** At no point of any run of a mounted hook are two repeating timers
    registered. *)
Lemma at_most_one_timer config fresh now es :
  (Timers.running (timers (run es (mount config fresh now))) <= 1)%nat.
Proof.
  rewrite consistent_running by apply consistent_run, consistent_mount.
  destruct (isLive _); lia.
Qed.



(** Two calls of [toggleStream] from the same closure. *)
Lemma toggle_twice h f1 t1 f2 t2 :
  consistent h -> rendered h = data h ->
  let h1 := toggleStream f1 t1 h in
  let h2 := toggleStream f2 t2 h1 in
  isLive (data h1) = negb (isLive (data h)) /\
  isLive (data h2) = isLive (data h1) /\
  timers h2 = timers h1.
Proof.
  unfold consistent. intros Hh Hr.
  destruct (intervalRef h) as [id|] eqn:Href; destruct Hh as [Hlive Hact].
  - assert (E1 : toggleStream f1 t1 h = stopStream h)
      by (unfold toggleStream; rewrite Hr, Hlive; reflexivity).
    cbn zeta. rewrite E1.
    assert (E2 : toggleStream f2 t2 (stopStream h) = stopStream (stopStream h)).
    { unfold toggleStream.
      replace (rendered (stopStream h)) with (rendered h)
        by (unfold stopStream; rewrite Href; reflexivity).
      rewrite Hr, Hlive. reflexivity. }
    rewrite E2, Hlive. unfold stopStream. rewrite Href. cbn. auto.
  - assert (E1 : toggleStream f1 t1 h = startStream f1 t1 h)
      by (unfold toggleStream; rewrite Hr, Hlive; reflexivity).
    cbn zeta. rewrite E1.
    assert (E2 : toggleStream f2 t2 (startStream f1 t1 h) = startStream f1 t1 h).
    { unfold toggleStream.
      replace (rendered (startStream f1 t1 h)) with (rendered h)
        by (unfold startStream; rewrite Href; reflexivity).
      rewrite Hr, Hlive. unfold startStream. rewrite Href. reflexivity. }
    rewrite E2, Hlive. unfold startStream. rewrite Href. cbn. auto.
Qed.

(** C7. On a freshly rendered hook, reached by any run from its mount,
    two calls of [toggleStream] in a row flip [isLive] once: the first
    call flips it and the second, which runs in the same closure, leaves
    it; after each call, and at any later point, at most one repeating
    timer is registered, and exactly one when the stream is live. *)
Theorem toggle_twice_flips_once config fresh0 t0 es f1 t1 f2 t2 :
  let h := render (run es (mount config fresh0 t0)) in
  let h1 := toggleStream f1 t1 h in
  let h2 := toggleStream f2 t2 h1 in
  isLive (data h1) = negb (isLive (data h)) /\
  isLive (data h2) = isLive (data h1) /\
  timers h2 = timers h1 /\
  Timers.running (timers h1) = (if isLive (data h1) then 1 else 0)%nat /\
  (Timers.running (timers h1) <= 1)%nat /\
  (Timers.running (timers h2) <= 1)%nat /\
  (forall more, (Timers.running (timers (run more h2)) <= 1)%nat).
Proof.
  intros h h1 h2.
  assert (Hh : consistent h).
  { apply (consistent_step EvRender), consistent_run, consistent_mount. }
  assert (Hh1 : consistent h1) by apply (consistent_step (EvToggle f1 t1)), Hh.
  assert (Hh2 : consistent h2) by apply (consistent_step (EvToggle f2 t2)), Hh1.
  assert (Hone : forall g, consistent g -> (Timers.running (timers g) <= 1)%nat).
  { intros g Hg. rewrite consistent_running by exact Hg.
    destruct (isLive (data g)); lia. }
  assert (Hflip : isLive (data h1) = negb (isLive (data h)) /\
                  isLive (data h2) = isLive (data h1) /\
                  timers h2 = timers h1)
    by (apply toggle_twice; [exact Hh | reflexivity]).
  destruct Hflip as (F1 & F2 & F3).
  repeat split; auto using consistent_running, consistent_run.
Qed.

(** C10. [startStream] on a stream whose [intervalRef] holds a handle
    returns at once: the hook, with its data, its time stamp, its
    configuration and its timer table, is what it was. *)
Theorem startStream_active_noop fresh now h id :
  intervalRef h = Some id ->
  startStream fresh now h = h /\
  data (startStream fresh now h) = data h /\
  timers (startStream fresh now h) = timers h /\
  configRef (startStream fresh now h) = configRef h.
Proof. intros Href. unfold startStream. rewrite Href. auto. Qed.

Lemma startStream_active_noop_witness :
  startStream sampleBundle "2026-11-02T10:00:09.000Z" liveHook = liveHook /\
  data (startStream sampleBundle "2026-11-02T10:00:09.000Z" liveHook)
  = data liveHook /\
  timers (startStream sampleBundle "2026-11-02T10:00:09.000Z" liveHook)
  = timers liveHook /\
  configRef (startStream sampleBundle "2026-11-02T10:00:09.000Z" liveHook)
  = configRef liveHook.
Proof.
  apply (startStream_active_noop sampleBundle "2026-11-02T10:00:09.000Z"
           liveHook 1%nat).
  reflexivity.
Defined.

End StreamProps.

(* ================================================================== *)
(** * Properties of the connection simulator *)

Module RealTimeProps.
Import RealTime.

(** The delay of the connection timeout is between one and three
    seconds. *)
Lemma connectionDelay_bounds r :
  (0 <= r)%Q -> (r < 1)%Q ->
  (inject_Z 1000 <= connectionDelay r)%Q /\ (connectionDelay r < inject_Z 3000)%Q.
Proof.
  intros H0 H1. unfold connectionDelay. split.
  - apply Qle_trans with (inject_Z 1000 + 0)%Q; [discriminate|].
    apply Qplus_le_r. apply Qmult_le_0_compat; [exact H0 | discriminate].
  - apply Qlt_le_trans with (inject_Z 1000 + 1 * inject_Z 2000)%Q; [|discriminate].
    apply Qplus_lt_r. apply Qmult_lt_compat_r; [reflexivity | exact H1].
Qed.

Lemma status_eqb_refl s : status_eqb s s = true.
Proof. destruct s; reflexivity. Qed.

(** The effect that starts and stops the updates, the updates
    themselves and a change of the option leave the connection alone. *)
Lemma updatesEffect_frame h :
  connectionStatus (updatesEffect h) = connectionStatus h /\
  isConnected (updatesEffect h) = isConnected h /\
  pendingConnects (updatesEffect h) = pendingConnects h /\
  enabled (updatesEffect h) = enabled h.
Proof.
  unfold updatesEffect.
  destruct (intervalRef h) eqn:Href; cbn;
    destruct (enabled h && isConnected h); cbn; rewrite ?Href; cbn; auto.
Qed.

Lemma intervalElapses_frame id now h :
  connectionStatus (intervalElapses id now h) = connectionStatus h /\
  isConnected (intervalElapses id now h) = isConnected h /\
  pendingConnects (intervalElapses id now h) = pendingConnects h /\
  enabled (intervalElapses id now h) = enabled h.
Proof.
  unfold intervalElapses, generateUpdate.
  destruct (Timers.isActive id (timers h)); [|auto].
  destruct (isConnected h) eqn:Hc; cbn; rewrite ?Hc; auto.
Qed.

Lemma drivenInvariant_ext h g :
  connectionStatus g = connectionStatus h ->
  isConnected g = isConnected h ->
  pendingConnects g = pendingConnects h ->
  drivenInvariant h -> drivenInvariant g.
Proof. unfold drivenInvariant. intros -> -> ->. tauto. Qed.

Lemma stepAllowed_same e h :
  connectionStatus (step e h) = connectionStatus h ->
  stepAllowed e h = true.
Proof.
  intros Hsame. unfold stepAllowed. rewrite Hsame, status_eqb_refl. reflexivity.
Qed.

Lemma drivenInvariant_initial enabled0 interval0 :
  drivenInvariant (initial enabled0 interval0).
Proof. split; reflexivity. Qed.

Lemma drivenInvariant_step e h :
  drivenInvariant h -> drivenInvariant (drivenStep e h).
Proof.
  intros Hh.
  destruct e as [b|r| |n now|id now]; cbn [drivenStep].
  - exact Hh.
  - revert Hh. unfold drivenInvariant, autoConnectEffect, disconnect.
    destruct (connectionStatus h) eqn:Hs; intros [Hc Hp];
      destruct (enabled h); cbn; rewrite ?Hc; cbn; rewrite ?Hs; cbn;
      rewrite ?Hp; auto.
    destruct (intervalRef h); cbn; auto.
  - destruct (updatesEffect_frame h) as (Es & Ec & Ep & _).
    exact (drivenInvariant_ext h _ Es Ec Ep Hh).
  - revert Hh. unfold drivenInvariant, connectTimeoutFires.
    destruct (pendingConnects h !! n) as [d|] eqn:Hn; [|tauto].
    cbn. intros Hh. split; [reflexivity|].
    destruct (connectionStatus h); destruct Hh as [_ Hp].
    + rewrite Hp in Hn. discriminate.
    + destruct (pendingConnects h) as [|d0 [|d1 rest]]; try discriminate.
      destruct n; [reflexivity | discriminate].
    + rewrite Hp in Hn. discriminate.
  - destruct (intervalElapses_frame id now h) as (Es & Ec & Ep & _).
    exact (drivenInvariant_ext h _ Es Ec Ep Hh).
Qed.

Lemma drivenRun_snoc es e h :
  drivenRun (es ++ [e]) h = drivenStep e (drivenRun es h).
Proof. unfold drivenRun, run. rewrite map_app, fold_left_app. reflexivity. Qed.

Lemma drivenInvariant_run es enabled0 interval0 :
  drivenInvariant (drivenRun es (initial enabled0 interval0)).
Proof.
  induction es as [|e es IH] using rev_ind.
  - apply drivenInvariant_initial.
  - rewrite drivenRun_snoc. apply drivenInvariant_step, IH.
Qed.

(** Under the invariant, a driven step keeps the status or makes a
    transition of the state machine, and it reaches [disconnected] only
    from [connected] and only while the hook is not enabled. *)
Lemma drivenStep_allowed e h :
  drivenInvariant h ->
  stepAllowed (Driven e) h = true /\
  (connectionStatus (drivenStep e h) = disconnected ->
   connectionStatus h = disconnected \/
   (connectionStatus h = connected /\ enabled h = false)).
Proof.
  intros Hh.
  destruct e as [b|r| |n now|id now].
  - split; [apply stepAllowed_same; reflexivity | cbn; auto].
  - revert Hh.
    unfold drivenInvariant, stepAllowed, specTransition; cbn [step drivenStep].
    unfold autoConnectEffect, disconnect.
    destruct (connectionStatus h) eqn:Hs; intros [Hc Hp];
      destruct (enabled h) eqn:He; cbn; rewrite ?Hc; cbn; rewrite ?Hs; cbn;
      auto; try (split; [reflexivity | discriminate]).
    destruct (intervalRef h); cbn; rewrite ?He; auto.
  - destruct (updatesEffect_frame h) as (Es & _).
    split; [apply stepAllowed_same; exact Es | cbn; rewrite Es; auto].
  - revert Hh.
    unfold drivenInvariant, stepAllowed, specTransition; cbn [step drivenStep].
    unfold connectTimeoutFires.
    destruct (pendingConnects h !! n) as [d|] eqn:Hn.
    + cbn. destruct (connectionStatus h); intros [_ Hp];
        try (rewrite Hp in Hn; discriminate).
      split; [reflexivity | discriminate].
    + intros _. rewrite status_eqb_refl. auto.
  - destruct (intervalElapses_frame id now h) as (Es & _).
    split; [apply stepAllowed_same; exact Es | cbn; rewrite Es; auto].
Qed.

(** Whatever the event, a hook becomes [connected] only in the callback
    of a connection timeout. *)
Lemma connected_only_by_timeout ev g :
  connectionStatus (step ev g) = connected ->
  connectionStatus g = connected \/
  exists n now, ev = Driven (EvConnectTimeout n now) /\
                is_Some (pendingConnects g !! n).
Proof.
  destruct ev as [[b|r| |n now|id now]|r| |now]; cbn [step drivenStep].
  - auto.
  - unfold autoConnectEffect, disconnect.
    destruct (enabled g && status_eqb (connectionStatus g) disconnected);
      [cbn; discriminate|].
    destruct (negb (enabled g) && isConnected g); [|auto].
    cbn. destruct (intervalRef g); cbn; discriminate.
  - destruct (updatesEffect_frame g) as (-> & _). auto.
  - unfold connectTimeoutFires.
    destruct (pendingConnects g !! n) as [d|] eqn:Hn; [|auto].
    intros _. right. exists n, now. split; [reflexivity | rewrite Hn; eauto].
  - destruct (intervalElapses_frame id now g) as (-> & _). auto.
  - cbn. discriminate.
  - unfold disconnect. cbn. destruct (intervalRef g); cbn; discriminate.
  - unfold generateUpdate. destruct (isConnected g); cbn; auto.
Qed.

(** C6, as the code has it. While the hook is driven through its option
    [enabled] only, each step keeps the status or makes one of the
    transitions [disconnected] to [connecting] (auto-connect effect of an
    enabled hook), [connecting] to [connected] (connection timeout) and
    [connected] to [disconnected] (auto-connect effect of a hook that is
    not enabled); in particular a hook that is disabled while connecting
    stays [connecting] until the timeout has fired. [connect] and
    [disconnect] set their status in the call itself, and whatever the
    event the status becomes [connected] only in the callback of a
    pending connection timeout. *)
Theorem driven_status_transitions enabled0 interval0 es e :
  let h := drivenRun es (initial enabled0 interval0) in
  stepAllowed (Driven e) h = true /\
  (connectionStatus (drivenStep e h) = disconnected ->
   connectionStatus h = disconnected \/
   (connectionStatus h = connected /\ enabled h = false)) /\
  (forall r g, connectionStatus (connect r g) = connecting) /\
  (forall g, connectionStatus (disconnect g) = disconnected) /\
  (forall ev g,
      connectionStatus (step ev g) = connected ->
      connectionStatus g = connected \/
      exists n now, ev = Driven (EvConnectTimeout n now) /\
                    is_Some (pendingConnects g !! n)).
Proof.
  intros h.
  destruct (drivenStep_allowed e h (drivenInvariant_run es enabled0 interval0))
    as [Hallowed Hdisc].
  repeat split; auto.
  - intros g. unfold disconnect. cbn. destruct (intervalRef g); reflexivity.
  - apply connected_only_by_timeout.
Qed.

(** C6, as the specification states it, fails: a hook that is [connected] and
    whose owner calls the exported [connect] goes back to [connecting],
    which is none of the three transitions. *)
Lemma connect_while_connected :
  let h := run [ Driven (EvAutoConnectEffect (1 # 2));
                 Driven (EvConnectTimeout 0 "2026-11-02T10:00:02.000Z") ]
               (initial true 30000) in
  connectionStatus h = connected /\
  connectionStatus (step (EvConnect (1 # 4)) h) = connecting /\
  stepAllowed (EvConnect (1 # 4)) h = false.
Proof. repeat split. Qed.

End RealTimeProps.

(* ================================================================== *)
(** * Further properties of the refresh orchestrator *)

Module DashboardMore.
Import Types Api Dashboard DashboardScenarios DashboardProps.

Lemma rendered_render p : rendered (render p) = state p.
Proof.
  unfold render, autoRefreshEffect, autoRefreshCleanup.
  destruct (autoRefreshDepsChanged p); cbn;
    repeat match goal with |- context [match ?x with _ => _ end] =>
      destruct x end; reflexivity.
Qed.

(** After a render the timer table follows the configuration of the
    state. *)
Lemma timers_after_render q :
  ownsTimers q ->
  if autoRefreshOn (config (state q)) then
    exists interval,
      autoRefreshHandle (render q) = Some interval /\
      Timers.active (timers (render q))
      = {[ interval := refreshInterval (config (state q)) ]}
  else
    autoRefreshHandle (render q) = None /\
    Timers.active (timers (render q)) = ∅.
Proof.
  intros Hq. apply ownsTimers_render in Hq.
  unfold ownsTimers in Hq. rewrite rendered_render in Hq. exact Hq.
Qed.

(** [clearError] empties [error] and [loading.error] and keeps the
    datasets, the filters, the configuration and [lastUpdated]; it also
    lowers [isLoading], so the flag raised by a [fetchMetrics] call that
    is still pending is lost. *)
Theorem clearError_resets t0 now p :
  let p' := snd (clearError now p) in
  fst (clearError now p) = Normal tt /\
  error (state p') = None /\
  loading (state p')
  = {| LoadingState.isLoading := false;
       LoadingState.error := None;
       LoadingState.lastUpdated := LoadingState.lastUpdated (loading (state p)) |} /\
  metrics (state p') = metrics (state p) /\
  salesData (state p') = salesData (state p) /\
  userAnalytics (state p') = userAnalytics (state p) /\
  performanceMetrics (state p') = performanceMetrics (state p) /\
  filters (state p') = filters (state p) /\
  config (state p') = config (state p) /\
  LoadingState.isLoading (loading (state (fetchMetrics_call t0 p))) = true /\
  LoadingState.isLoading
    (loading (state (snd (clearError now (fetchMetrics_call t0 p))))) = false.
Proof. repeat split. Qed.

(** X1. An error stays until [clearError] or the next failure: the
    success of a fetch of any kind leaves [state.error] as it is. A
    metrics success still empties [loading.error], so after a failure
    followed by a metrics success the state holds an error that the
    loading state no longer reports. *)
Theorem success_keeps_error now p
  (m : ApiResponse.t (list MetricCard)) (s : ApiResponse.t (list SalesData))
  (u : ApiResponse.t (list UserAnalytics))
  (f : ApiResponse.t (list PerformanceMetrics)) :
  error (state (snd (fetchMetrics now (Resolved m) p))) = error (state p) /\
  error (state (snd (fetchSalesData now (Resolved s) p))) = error (state p) /\
  error (state (snd (fetchUserAnalytics now (Resolved u) p))) = error (state p) /\
  error (state (snd (fetchPerformanceMetrics now (Resolved f) p)))
  = error (state p) /\
  (forall t1 reason,
      let p1 := snd (fetchSalesData t1 (Rejected reason) p) in
      let p2 := snd (fetchMetrics now (Resolved m) p1) in
      error (state p2) = Some (dashboardError t1 reason "fetchSalesData") /\
      LoadingState.error (loading (state p2)) = None).
Proof. repeat split. Qed.

(** The message in [loading.error] is the one of the stored error,
    except that an empty message is dropped: after a failure with
    [new Error("")] the state holds an error while [loading.error] is
    null. *)
Theorem failure_loading_error now reason p :
  LoadingState.error (loading (state (snd (fetchMetrics now (Rejected reason) p))))
  = loadingErrorOf reason /\
  LoadingState.error (loading (state (snd (fetchSalesData now (Rejected reason) p))))
  = loadingErrorOf reason /\
  LoadingState.error
    (loading (state (snd (fetchUserAnalytics now (Rejected reason) p))))
  = loadingErrorOf reason /\
  LoadingState.error
    (loading (state (snd (fetchPerformanceMetrics now (Rejected reason) p))))
  = loadingErrorOf reason /\
  loadingErrorOf (ErrorInstance "") = None /\
  (forall c, loadingErrorOf (OtherValue c) = Some "An unexpected error occurred").
Proof. repeat split. Qed.

(** X2. [updateFilters] merges into the filters of its closure, not into
    the current ones: of two calls made before a re-render only the
    second counts, and a field the second call does not give falls back
    to its rendered value; with a re-render in between both calls
    count. *)
Theorem updateFilters_same_closure t1 t2 f g p :
  let twice := snd (updateFilters t2 g (snd (updateFilters t1 f p))) in
  let spaced :=
    snd (updateFilters t2 g (render (snd (updateFilters t1 f p)))) in
  filters (state twice) = mergeFilters (filters (rendered p)) g /\
  filters (state spaced)
  = mergeFilters (mergeFilters (filters (rendered p)) f) g /\
  (p_category g = None ->
   category (filters (state twice)) = category (filters (rendered p))).
Proof.
  cbn zeta. split; [reflexivity|]. split.
  - unfold updateFilters at 1. unfold bind, closure_state.
    rewrite rendered_render. reflexivity.
  - intros Hg. cbn. rewrite Hg. reflexivity.
Qed.

Lemma updateFilters_same_closure_witness :
  let p := settledProvider in
  let twice :=
    snd (updateFilters "2026-11-02T10:02:00.000Z" north
           (snd (updateFilters "2026-11-02T10:01:00.000Z" electronics p))) in
  category (filters (state twice)) = category (filters (rendered p)).
Proof.
  apply (updateFilters_same_closure "2026-11-02T10:01:00.000Z"
           "2026-11-02T10:02:00.000Z" electronics north settledProvider).
  reflexivity.
Defined.

(** X3. Changing the refresh interval while auto-refresh is on
    reschedules the timer: after [updateConfig({ refreshInterval: i })]
    with [i > 0] and the re-render, exactly one timer is registered and
    its period is [i]. *)
Theorem updateConfig_reschedules now i p :
  ownsTimers p ->
  autoRefresh (config (state p)) = true ->
  0 < i ->
  let p' := render (snd (updateConfig now (intervalOnly i) p)) in
  exists interval,
    autoRefreshHandle p' = Some interval /\
    Timers.active (timers p') = {[ interval := i ]} /\
    Timers.running (timers p') = 1%nat.
Proof.
  intros Hp Hauto Hi p'.
  pose proof (timers_after_render _
                (ownsTimers_step (EvUpdateConfig now (intervalOnly i)) p Hp))
    as Hown.
  cbn [step] in Hown. fold p' in Hown.
  unfold autoRefreshOn in Hown. cbn in Hown. rewrite Hauto in Hown.
  replace (0 <? i) with true in Hown by (symmetry; apply Z.ltb_lt; exact Hi).
  cbn in Hown. destruct Hown as (interval & Hh & Ha).
  exists interval. repeat split; [exact Hh | exact Ha |].
  unfold Timers.running. rewrite Ha. apply map_size_singleton.
Qed.

Lemma updateConfig_reschedules_witness :
  let p' := render (snd (updateConfig "2026-11-02T10:20:00.000Z"
                           (intervalOnly 60000) settledProvider)) in
  exists interval,
    autoRefreshHandle p' = Some interval /\
    Timers.active (timers p') = {[ interval := 60000 ]} /\
    Timers.running (timers p') = 1%nat.
Proof.
  apply (updateConfig_reschedules "2026-11-02T10:20:00.000Z" 60000
           settledProvider).
  - unfold settledProvider. apply ownsTimers_render.
    apply (ownsTimers_step (EvSettle
             {| o_metrics := Resolved (respond [] "2026-11-02T10:00:01.000Z");
                o_sales := o_sales allFail; o_users := o_users allFail;
                o_performance := o_performance allFail |}
             Metrics "2026-11-02T10:00:01.000Z")).
    apply ownsTimers_mount.
  - reflexivity.
  - lia.
Defined.

(** X4. A refresh interval that is not positive switches the loop off
    although [autoRefresh] stays true: after
    [updateConfig({ refreshInterval: i })] with [i <= 0] and the
    re-render no timer is registered. *)
Theorem nonpositive_interval_stops_loop now i p :
  ownsTimers p ->
  i <= 0 ->
  let p' := render (snd (updateConfig now (intervalOnly i) p)) in
  autoRefresh (config (state p')) = autoRefresh (config (state p)) /\
  autoRefreshHandle p' = None /\
  Timers.active (timers p') = ∅.
Proof.
  intros Hp Hi p'.
  pose proof (timers_after_render _
                (ownsTimers_step (EvUpdateConfig now (intervalOnly i)) p Hp))
    as Hown.
  cbn [step] in Hown. fold p' in Hown.
  unfold autoRefreshOn in Hown. cbn in Hown.
  replace (0 <? i) with false in Hown by (symmetry; apply Z.ltb_ge; exact Hi).
  rewrite andb_false_r in Hown. destruct Hown as [Hh Ha].
  split; [|split; assumption].
  unfold p', render, autoRefreshEffect, autoRefreshCleanup.
  destruct (autoRefreshDepsChanged _); cbn;
    repeat match goal with |- context [match ?x with _ => _ end] =>
      destruct x end; reflexivity.
Qed.

Lemma nonpositive_interval_stops_loop_witness :
  let p' := render (snd (updateConfig "2026-11-02T10:20:00.000Z"
                           (intervalOnly 0) settledProvider)) in
  autoRefresh (config (state p')) = autoRefresh (config (state settledProvider)) /\
  autoRefreshHandle p' = None /\
  Timers.active (timers p') = ∅.
Proof.
  apply (nonpositive_interval_stops_loop "2026-11-02T10:20:00.000Z" 0
           settledProvider).
  - unfold settledProvider. apply ownsTimers_render.
    apply (ownsTimers_step (EvSettle
             {| o_metrics := Resolved (respond [] "2026-11-02T10:00:01.000Z");
                o_sales := o_sales allFail; o_users := o_users allFail;
                o_performance := o_performance allFail |}
             Metrics "2026-11-02T10:00:01.000Z")).
    apply ownsTimers_mount.
  - lia.
Defined.


End DashboardMore.

(* ================================================================== *)
(** * Further properties of the streaming simulator *)

Module StreamMore.
Import Stream StreamScenarios StreamProps.

Lemma consistent_liveHook : consistent liveHook.
Proof.
  apply (consistent_step EvRender).
  apply (consistent_step (EvStart sampleBundle "2026-11-02T10:00:05.000Z")).
  apply consistent_mount.
Qed.

Lemma consistent_startedHook : consistent startedHook.
Proof.
  apply (consistent_step (EvStart sampleBundle "2026-11-02T10:00:05.000Z")).
  apply consistent_mount.
Qed.

(** X6. [updateConfig] on a live stream stops it at once (not live, no
    timer) and leaves one restart pending; when the restart fires the
    stream is live again with exactly one timer, whose period is the
    interval of the merged configuration. *)
Theorem updateConfig_restarts_stream c fresh now h :
  consistent h -> rendered h = data h -> isLive (data h) = true ->
  let h1 := updateConfig c h in
  let h2 := restartFires fresh now h1 in
  isLive (data h1) = false /\
  Timers.active (timers h1) = ∅ /\
  restarts h1 = S (restarts h) /\
  isLive (data h2) = true /\
  restarts h2 = restarts h /\
  exists id,
    intervalRef h2 = Some id /\
    Timers.active (timers h2)
    = {[ id := interval (mergeConfig (configRef h) c) ]}.
Proof.
  unfold consistent. intros Hh Hr Hlive.
  destruct (intervalRef h) as [id|] eqn:Href;
    [|destruct Hh as [Hh _]; congruence].
  destruct Hh as [_ [period Hact]].
  cbn zeta. unfold updateConfig. cbn [rendered set_configRef].
  rewrite Hr, Hlive. unfold stopStream. cbn [intervalRef set_configRef].
  rewrite Href. cbn. rewrite Hact, delete_singleton_eq.
  repeat split; try reflexivity.
  unfold restartFires. cbn. unfold startStream. cbn.
  eexists. split; [reflexivity|]. cbn. apply insert_empty.
Qed.

Lemma updateConfig_restarts_stream_witness :
  let h1 := updateConfig everySecond liveHook in
  let h2 := restartFires sampleBundle "2026-11-02T10:01:00.100Z" h1 in
  isLive (data h1) = false /\
  Timers.active (timers h1) = ∅ /\
  restarts h1 = S (restarts liveHook) /\
  isLive (data h2) = true /\
  restarts h2 = restarts liveHook /\
  exists id,
    intervalRef h2 = Some id /\
    Timers.active (timers h2)
    = {[ id := interval (mergeConfig (configRef liveHook) everySecond) ]}.
Proof.
  apply (updateConfig_restarts_stream everySecond sampleBundle
           "2026-11-02T10:01:00.100Z" liveHook).
  - apply consistent_liveHook.
  - reflexivity.
  - reflexivity.
Defined.

(** X7. [updateConfig] decides on the [isLive] of its closure: called
    after [startStream] but before the re-render, it replaces the
    configuration and leaves the running timer, with its old period, in
    place; no restart is scheduled. *)
Theorem updateConfig_before_render c h id :
  intervalRef h = Some id -> isLive (rendered h) = false ->
  let h1 := updateConfig c h in
  configRef h1 = mergeConfig (configRef h) c /\
  timers h1 = timers h /\
  intervalRef h1 = Some id /\
  data h1 = data h /\
  restarts h1 = restarts h.
Proof.
  intros Href Hr. cbn zeta. unfold updateConfig. cbn [rendered set_configRef].
  rewrite Hr. cbn. auto.
Qed.

Lemma updateConfig_before_render_witness :
  let h1 := updateConfig everySecond startedHook in
  configRef h1 = mergeConfig (configRef startedHook) everySecond /\
  timers h1 = timers startedHook /\
  intervalRef h1 = Some 1%nat /\
  data h1 = data startedHook /\
  restarts h1 = restarts startedHook.
Proof.
  apply (updateConfig_before_render everySecond startedHook 1%nat);
    reflexivity.
Defined.

(** X8. Unmounting the hook, after any run of events since its mount,
    leaves no repeating timer registered. *)
Theorem unmount_clears_interval config fresh now es :
  Timers.active (timers (unmount (run es (mount config fresh now)))) = ∅.
Proof.
  pose proof (consistent_run es _ (consistent_mount config fresh now)) as Hc.
  set (h := run es (mount config fresh now)) in *.
  unfold unmount. revert Hc. unfold consistent.
  destruct (intervalRef h) as [id|].
  - intros [_ [period Hact]]. cbn. rewrite Hact. apply delete_singleton_eq.
  - intros [_ Hact]. exact Hact.
Qed.

(** X9. The restart that [updateConfig] schedules is not cancelled by the
    unmount: when it fires after the hook of a live stream was
    unmounted, [startStream] registers a new repeating timer. *)
Theorem restart_outlives_unmount c fresh now h :
  consistent h -> rendered h = data h -> isLive (data h) = true ->
  let gone := unmount (updateConfig c h) in
  let late := restartFires fresh now gone in
  Timers.running (timers gone) = 0%nat /\
  Timers.running (timers late) = 1%nat.
Proof.
  unfold consistent. intros Hh Hr Hlive.
  destruct (intervalRef h) as [id|] eqn:Href;
    [|destruct Hh as [Hh _]; congruence].
  destruct Hh as [_ [period Hact]].
  cbn zeta. unfold updateConfig. cbn [rendered set_configRef].
  rewrite Hr, Hlive. unfold stopStream. cbn [intervalRef set_configRef].
  rewrite Href. cbn. unfold unmount. cbn.
  unfold Timers.running. cbn. rewrite Hact, delete_singleton_eq.
  split; [apply map_size_empty|].
  unfold restartFires. cbn. unfold startStream. cbn.
  rewrite insert_empty. apply map_size_singleton.
Qed.

Lemma restart_outlives_unmount_witness :
  let gone := unmount (updateConfig everySecond liveHook) in
  let late := restartFires sampleBundle "2026-11-02T10:01:00.100Z" gone in
  Timers.running (timers gone) = 0%nat /\
  Timers.running (timers late) = 1%nat.
Proof.
  apply (restart_outlives_unmount everySecond sampleBundle
           "2026-11-02T10:01:00.100Z" liveHook).
  - apply consistent_liveHook.
  - reflexivity.
  - reflexivity.
Defined.

(** X10. With a re-render between them, two calls of [toggleStream]
    bring the stream back to where it was: the live flag and the number
    of timers are those before the first call. *)
Theorem toggle_render_toggle config fresh0 t0 es f1 t1 f2 t2 :
  let h := render (run es (mount config fresh0 t0)) in
  let h1 := render (toggleStream f1 t1 h) in
  let h2 := toggleStream f2 t2 h1 in
  isLive (data h1) = negb (isLive (data h)) /\
  isLive (data h2) = isLive (data h) /\
  Timers.running (timers h2) = Timers.running (timers h).
Proof.
  intros h h1 h2.
  assert (Hh : consistent h)
    by apply (consistent_step EvRender), consistent_run, consistent_mount.
  assert (Hh1 : consistent h1).
  { apply (consistent_step EvRender), (consistent_step (EvToggle f1 t1)), Hh. }
  assert (Hh2 : consistent h2) by apply (consistent_step (EvToggle f2 t2)), Hh1.
  assert (Hflip : forall g f t,
             consistent g -> rendered g = data g ->
             isLive (data (toggleStream f t g)) = negb (isLive (data g))).
  { intros g f t Hg Hr. unfold toggleStream. rewrite Hr.
    unfold consistent in Hg.
    destruct (intervalRef g) as [id|] eqn:Href; destruct Hg as [Hlive _];
      rewrite Hlive.
    - unfold stopStream. rewrite Href. reflexivity.
    - unfold startStream. rewrite Href. reflexivity. }
  assert (E1 : isLive (data h1) = negb (isLive (data h)))
    by (apply (Hflip h f1 t1 Hh); reflexivity).
  assert (E2 : isLive (data h2) = isLive (data h)).
  { unfold h2. rewrite (Hflip h1 f2 t2 Hh1) by reflexivity.
    rewrite E1. apply negb_involutive. }
  repeat split; auto.
  rewrite !consistent_running by assumption. rewrite E2. reflexivity.
Qed.

End StreamMore.

(* ================================================================== *)
(** * Further properties of the connection simulator *)

Module RealTimeMore.
Import RealTime RealTimeScenarios RealTimeProps.

Lemma ownsTimer_ext h g :
  intervalRef g = intervalRef h -> timers g = timers h ->
  ownsTimer h -> ownsTimer g.
Proof. unfold ownsTimer. intros -> ->. tauto. Qed.

Lemma ownsTimer_disconnect h : ownsTimer h -> ownsTimer (disconnect h).
Proof.
  unfold ownsTimer, disconnect.
  cbn [intervalRef set_connection].
  destruct (intervalRef h) as [id|] eqn:Href; cbn; rewrite ?Href.
  - intros [period ->]. apply delete_singleton_eq.
  - tauto.
Qed.

Lemma ownsTimer_updatesEffect h : ownsTimer h -> ownsTimer (updatesEffect h).
Proof.
  unfold ownsTimer, updatesEffect.
  destruct (intervalRef h) as [id|] eqn:Href; cbn.
  - intros [period Hact].
    destruct (enabled h && isConnected h); cbn; rewrite Hact.
    + eexists. rewrite delete_singleton_eq. apply insert_empty.
    + rewrite delete_singleton_eq. apply delete_empty.
  - intros Hact. destruct (enabled h && isConnected h); cbn; rewrite ?Href; cbn.
    + eexists. rewrite Hact. apply insert_empty.
    + exact Hact.
Qed.

Lemma ownsTimer_step e h : ownsTimer h -> ownsTimer (step e h).
Proof.
  intros Hh. destruct e as [[b|r| |n now|id now]|r| |now]; cbn [step drivenStep].
  - exact Hh.
  - unfold autoConnectEffect.
    destruct (enabled h && status_eqb (connectionStatus h) disconnected);
      [revert Hh; apply ownsTimer_ext; reflexivity|].
    destruct (negb (enabled h) && isConnected h);
      [apply ownsTimer_disconnect|]; exact Hh.
  - apply ownsTimer_updatesEffect, Hh.
  - unfold connectTimeoutFires. destruct (pendingConnects h !! n); [|exact Hh].
    revert Hh. apply ownsTimer_ext; reflexivity.
  - unfold intervalElapses, generateUpdate.
    destruct (Timers.isActive id (timers h)); [|exact Hh].
    destruct (negb (isConnected h)); [exact Hh|].
    revert Hh. apply ownsTimer_ext; reflexivity.
  - revert Hh. apply ownsTimer_ext; reflexivity.
  - apply ownsTimer_disconnect, Hh.
  - unfold generateUpdate. destruct (negb (isConnected h)); [exact Hh|].
    revert Hh. apply ownsTimer_ext; reflexivity.
Qed.

Lemma ownsTimer_run es h : ownsTimer h -> ownsTimer (run es h).
Proof.
  revert h; induction es as [|e es IH]; intros h Hh; [exact Hh|].
  apply IH, ownsTimer_step, Hh.
Qed.

(** X11. At no point of any run of the hook, the calls of the exported
    [connect], [disconnect] and [forceUpdate] included, are two repeating
    timers registered. *)
Theorem at_most_one_update_timer enabled0 interval0 es :
  (Timers.running (timers (run es (initial enabled0 interval0))) <= 1)%nat.
Proof.
  assert (Hown : ownsTimer (run es (initial enabled0 interval0)))
    by (apply ownsTimer_run; reflexivity).
  unfold ownsTimer in Hown. unfold Timers.running.
  destruct (intervalRef _); [destruct Hown as [period ->] | rewrite Hown].
  - rewrite map_size_singleton. lia.
  - rewrite map_size_empty. lia.
Qed.

(** X12. While the hook is driven through [enabled] only, an update,
    forced or timed, counts exactly when the status is [connected]: then
    it stamps [lastUpdate] and calls [onDataUpdate] once; otherwise it
    changes nothing. *)
Theorem update_only_when_connected enabled0 interval0 es now :
  let h := drivenRun es (initial enabled0 interval0) in
  if status_eqb (connectionStatus h) connected then
    dataUpdates (generateUpdate now h) = S (dataUpdates h) /\
    lastUpdate (generateUpdate now h) = Some now
  else
    generateUpdate now h = h.
Proof.
  intros h.
  pose proof (drivenInvariant_run es enabled0 interval0) as Hinv.
  fold h in Hinv. unfold drivenInvariant in Hinv. unfold generateUpdate.
  destruct (connectionStatus h); destruct Hinv as [-> _]; cbn; auto.
Qed.

(** X13. Disabling a connected hook tears it down in the effects that
    follow the re-render: the status is [disconnected], the hook is not
    connected and no repeating timer is left. *)
Theorem disable_tears_down enabled0 interval0 es r :
  let h := drivenRun es (initial enabled0 interval0) in
  connectionStatus h = connected ->
  let h' := drivenRun [ EvSetEnabled false; EvUpdatesEffect;
                       EvAutoConnectEffect r; EvUpdatesEffect ] h in
  connectionStatus h' = disconnected /\
  isConnected h' = false /\
  intervalRef h' = None /\
  Timers.active (timers h') = ∅.
Proof.
  intros h Hs h'.
  pose proof (drivenInvariant_run es enabled0 interval0) as Hinv.
  fold h in Hinv. unfold drivenInvariant in Hinv. rewrite Hs in Hinv.
  destruct Hinv as [Hc _].
  assert (Hown : ownsTimer h).
  { unfold h, drivenRun. apply ownsTimer_run. reflexivity. }
  unfold h', drivenRun. cbn [map run fold_left step drivenStep].
  set (h1 := updatesEffect (set_enabled false h)).
  assert (Hown1 : ownsTimer h1).
  { apply ownsTimer_updatesEffect. revert Hown. apply ownsTimer_ext; reflexivity. }
  destruct (updatesEffect_frame (set_enabled false h)) as (Es & Ec & _ & Ee).
  fold h1 in Es, Ec, Ee. cbn in Es, Ec, Ee.
  unfold autoConnectEffect. rewrite Ee, Ec, Hc. cbn [negb andb].
  assert (Hd : ownsTimer (disconnect h1)) by apply ownsTimer_disconnect, Hown1.
  assert (Hnone : intervalRef (disconnect h1) = None).
  { unfold disconnect. cbn [intervalRef set_connection].
    destruct (intervalRef h1) eqn:Href; cbn; rewrite ?Href; reflexivity. }
  assert (Hstat : connectionStatus (disconnect h1) = disconnected
                  /\ isConnected (disconnect h1) = false).
  { unfold disconnect. cbn [intervalRef set_connection].
    destruct (intervalRef h1); split; reflexivity. }
  destruct Hstat as [Hst Hic].
  destruct (updatesEffect_frame (disconnect h1)) as (Es2 & Ec2 & _ & _).
  rewrite Es2, Ec2, Hst, Hic.
  unfold ownsTimer in Hd. rewrite Hnone in Hd.
  unfold updatesEffect. rewrite Hnone, Hic, andb_false_r, Hnone. auto.
Qed.

Lemma disable_tears_down_witness :
  let h' := drivenRun [ EvSetEnabled false; EvUpdatesEffect;
                        EvAutoConnectEffect (1 # 3); EvUpdatesEffect ]
                      connectedHook in
  connectionStatus h' = disconnected /\
  isConnected h' = false /\
  intervalRef h' = None /\
  Timers.active (timers h') = ∅.
Proof.
  apply (disable_tears_down true 15000
           [ EvAutoConnectEffect (1 # 2);
             EvConnectTimeout 0 "2026-11-02T10:00:02.000Z";
             EvUpdatesEffect ] (1 # 3)).
  reflexivity.
Defined.

End RealTimeMore.

(* ================================================================== *)
(** * Properties of the remote fetch layer *)

Module ApiLayerProps.
Import Types Api ApiLayer.



(** X15. A transport failure of [getSalesData] or [getUserAnalytics]
    reaches the orchestrator as the plain object of [handleApiError],
    which is no [Error]: the stored error has the code
    [DASHBOARD_ERROR] and the generic message, and the status and the
    message of the transport survive only inside [details]. *)
Theorem transport_message_not_shown clock isoDate random filters now e p :
  let generic := "An unexpected error occurred" in
  let sales := getSalesData clock isoDate random filters now (HttpFailed e) in
  let users := getUserAnalytics clock isoDate random now (HttpFailed e) in
  let p1 := snd (Dashboard.fetchSalesData now sales p) in
  let p2 := snd (Dashboard.fetchUserAnalytics now users p) in
  Dashboard.error (Dashboard.state p1)
  = Some {| AppError.code := "DASHBOARD_ERROR";
            AppError.message := generic;
            AppError.details :=
              Some {| context := "fetchSalesData";
                      cause := OtherValue ("API_ERROR_" ++ statusOrUnknown e) |};
            AppError.timestamp := now |} /\
  LoadingState.error (Dashboard.loading (Dashboard.state p1)) = Some generic /\
  Dashboard.error (Dashboard.state p2)
  = Some {| AppError.code := "DASHBOARD_ERROR";
            AppError.message := generic;
            AppError.details :=
              Some {| context := "fetchUserAnalytics";
                      cause := OtherValue ("API_ERROR_" ++ statusOrUnknown e) |};
            AppError.timestamp := now |} /\
  LoadingState.error (Dashboard.loading (Dashboard.state p2)) = Some generic.
Proof. repeat split. Qed.

(** [Math.floor(Math.random() * s) + off] is a whole number from [off]
    to [off + s - 1]. *)
Lemma floor_random_between r s off :
  (0 <= r)%Q -> (r < 1)%Q -> 0 < s ->
  wholeBetween off (off + s - 1)
    (Math_floor (r * inject_Z s) + inject_Z off)%Q.
Proof.
  intros H0 H1 Hs. exists (Qfloor (r * inject_Z s) + off). split.
  - unfold Math_floor. rewrite inject_Z_plus. reflexivity.
  - assert (Hlo : 0 <= Qfloor (r * inject_Z s)).
    { change 0 with (Qfloor 0). apply Qfloor_resp_le.
      apply Qmult_le_0_compat; [exact H0|]. unfold Qle; cbn; lia. }
    assert (Hhi : Qfloor (r * inject_Z s) < s).
    { rewrite Zlt_Qlt. apply Qle_lt_trans with (r * inject_Z s)%Q.
      - apply Qfloor_le.
      - rewrite <- (Qmult_1_l (inject_Z s)) at 2.
        apply Qmult_lt_compat_r; [unfold Qlt; cbn; lia | exact H1]. }
    lia.
Qed.

Section Records.

Variable clock : nat -> Z.
Variable isoDate : Z -> string.
Variable isoString : Z -> string.
Variable random : nat -> number.
Hypothesis random_range : MockData.randomInRange random.

(** X16. On a response with [n] posts [getSalesData] succeeds with
    [min 10 n] records, none for an empty body. The record at index [i]
    takes its id and product from the [i]-th post, its category and
    region from the [i mod 4]-th entries of the two tables, and its
    amount is a whole number from 1000 to 10999. *)
Theorem getSalesData_records filters now posts :
  exists data,
    getSalesData clock isoDate random filters now (HttpOk posts)
    = Resolved (createApiResponse data
                  (Some "Sales data fetched successfully") now) /\
    length data = min 10 (length posts) /\
    forall i sale, data !! i = Some sale ->
      (i < 10)%nat /\
      exists post, posts !! i = Some post /\
        sd_id sale = pretty (item_id post) /\
        product sale = "Product " ++ pretty (item_id post) /\
        sd_category sale = nth (i mod 4) categories "" /\
        sd_region sale = nth (i mod 4) regions "" /\
        wholeBetween 1000 10999 (amount sale).
Proof.
  eexists. split; [reflexivity|]. split.
  - rewrite length_imap, length_take. reflexivity.
  - intros i sale Hi. rewrite list_lookup_imap in Hi.
    destruct (take 10 posts !! i) as [post|] eqn:Hp; [|discriminate].
    apply lookup_take_Some in Hp as [Hp Hlt].
    injection Hi as <-. split; [exact Hlt|].
    exists post. repeat split; try assumption.
    destruct (random_range i) as [H0 H1].
    exact (floor_random_between (random i) 10000 1000 H0 H1 ltac:(lia)).
Qed.

(** On a response with [n] users [getUserAnalytics] succeeds with
    [min 7 n] records; in each the four counts are whole numbers:
    active users from 500 to 1499, new users from 50 to 149, page views
    from 1000 to 5999 and the session duration from 120 to 419
    seconds. *)
Theorem getUserAnalytics_records now users :
  exists data,
    getUserAnalytics clock isoDate random now (HttpOk users)
    = Resolved (createApiResponse data
                  (Some "User analytics fetched successfully") now) /\
    length data = min 7 (length users) /\
    forall i u, data !! i = Some u ->
      (i < 7)%nat /\
      exists user, users !! i = Some user /\
        ua_id u = pretty (item_id user) /\
        wholeBetween 500 1499 (activeUsers u) /\
        wholeBetween 50 149 (newUsers u) /\
        wholeBetween 1000 5999 (pageViews u) /\
        wholeBetween 120 419 (sessionDuration u).
Proof.
  eexists. split; [reflexivity|]. split.
  - rewrite length_imap, length_take. reflexivity.
  - intros i u Hi. rewrite list_lookup_imap in Hi.
    destruct (take 7 users !! i) as [user|] eqn:Hp; [|discriminate].
    apply lookup_take_Some in Hp as [Hp Hlt].
    injection Hi as <-. split; [exact Hlt|].
    exists user. split; [exact Hp|]. split; [reflexivity|].
    cbn [activeUsers newUsers pageViews sessionDuration analyticsOf].
    repeat split.
    + destruct (random_range (4 * i)%nat) as [H0 H1].
      exact (floor_random_between _ 1000 500 H0 H1 ltac:(lia)).
    + destruct (random_range (4 * i + 1)%nat) as [H0 H1].
      exact (floor_random_between _ 100 50 H0 H1 ltac:(lia)).
    + destruct (random_range (4 * i + 2)%nat) as [H0 H1].
      exact (floor_random_between _ 5000 1000 H0 H1 ltac:(lia)).
    + destruct (random_range (4 * i + 3)%nat) as [H0 H1].
      exact (floor_random_between _ 300 120 H0 H1 ltac:(lia)).
Qed.

(** X17. [getPerformanceMetrics] always succeeds with 24 records whose
    ids are "1" to "24"; in each, cpu usage is a whole number from 10 to
    89, memory usage from 20 to 89, response time from 50 to 249, and
    the error rate lies in [0, 5). *)
Theorem getPerformanceMetrics_records now :
  exists data,
    getPerformanceMetrics clock isoString random now
    = Resolved (createApiResponse data
                  (Some "Performance metrics fetched successfully") now) /\
    length data = 24%nat /\
    forall i m, data !! i = Some m ->
      pm_id m = pretty (Z.of_nat i + 1) /\
      wholeBetween 10 89 (cpuUsage m) /\
      wholeBetween 20 89 (memoryUsage m) /\
      wholeBetween 50 249 (responseTime m) /\
      (0 <= errorRate m)%Q /\ (errorRate m < inject_Z 5)%Q.
Proof.
  eexists. split; [reflexivity|]. split.
  - rewrite length_map, length_seq. reflexivity.
  - intros i m Hi.
    change (map (performanceOf clock isoString random) (seq 0 24))
      with (performanceOf clock isoString random <$> seq 0 24) in Hi.
    rewrite list_lookup_fmap in Hi.
    destruct (seq 0 24 !! i) as [j|] eqn:Hj; [|discriminate].
    apply lookup_seq in Hj as [-> Hlt]. injection Hi as <-.
    cbn [pm_id cpuUsage memoryUsage responseTime errorRate performanceOf].
    repeat split.
    + destruct (random_range (4 * (0 + i))%nat) as [H0 H1].
      exact (floor_random_between _ 80 10 H0 H1 ltac:(lia)).
    + destruct (random_range (4 * (0 + i) + 1)%nat) as [H0 H1].
      exact (floor_random_between _ 70 20 H0 H1 ltac:(lia)).
    + destruct (random_range (4 * (0 + i) + 2)%nat) as [H0 H1].
      exact (floor_random_between _ 200 50 H0 H1 ltac:(lia)).
    + destruct (random_range (4 * (0 + i) + 3)%nat) as [H0 _].
      apply Qmult_le_0_compat; [exact H0 | discriminate].
    + destruct (random_range (4 * (0 + i) + 3)%nat) as [_ H1].
      rewrite <- (Qmult_1_l (inject_Z 5)) at 2.
      apply Qmult_lt_compat_r; [reflexivity | exact H1].
Qed.

End Records.

Lemma getSalesData_records_witness :
  exists data,
    getSalesData sampleClock sampleIso sampleRandom None
      "2026-11-02T10:00:00.000Z" (HttpOk threePosts)
    = Resolved (createApiResponse data
                  (Some "Sales data fetched successfully")
                  "2026-11-02T10:00:00.000Z") /\
    length data = min 10 (length threePosts) /\
    forall i sale, data !! i = Some sale ->
      (i < 10)%nat /\
      exists post, threePosts !! i = Some post /\
        sd_id sale = pretty (item_id post) /\
        product sale = "Product " ++ pretty (item_id post) /\
        sd_category sale = nth (i mod 4) categories "" /\
        sd_region sale = nth (i mod 4) regions "" /\
        wholeBetween 1000 10999 (amount sale).
Proof.
  apply (getSalesData_records sampleClock sampleIso sampleRandom).
  intros k. unfold sampleRandom.
  pose proof (Nat.mod_upper_bound k 4 ltac:(lia)).
  split; [unfold Qle | unfold Qlt]; cbn; lia.
Defined.

Lemma getUserAnalytics_records_witness :
  exists data,
    getUserAnalytics sampleClock sampleIso sampleRandom
      "2026-11-02T10:00:00.000Z" (HttpOk threePosts)
    = Resolved (createApiResponse data
                  (Some "User analytics fetched successfully")
                  "2026-11-02T10:00:00.000Z") /\
    length data = min 7 (length threePosts) /\
    forall i u, data !! i = Some u ->
      (i < 7)%nat /\
      exists user, threePosts !! i = Some user /\
        ua_id u = pretty (item_id user) /\
        wholeBetween 500 1499 (activeUsers u) /\
        wholeBetween 50 149 (newUsers u) /\
        wholeBetween 1000 5999 (pageViews u) /\
        wholeBetween 120 419 (sessionDuration u).
Proof.
  apply (getUserAnalytics_records sampleClock sampleIso sampleRandom).
  intros k. unfold sampleRandom.
  pose proof (Nat.mod_upper_bound k 4 ltac:(lia)).
  split; [unfold Qle | unfold Qlt]; cbn; lia.
Defined.

Lemma getPerformanceMetrics_records_witness :
  exists data,
    getPerformanceMetrics sampleClock sampleIso sampleRandom
      "2026-11-02T10:00:00.000Z"
    = Resolved (createApiResponse data
                  (Some "Performance metrics fetched successfully")
                  "2026-11-02T10:00:00.000Z") /\
    length data = 24%nat /\
    forall i m, data !! i = Some m ->
      pm_id m = pretty (Z.of_nat i + 1) /\
      wholeBetween 10 89 (cpuUsage m) /\
      wholeBetween 20 89 (memoryUsage m) /\
      wholeBetween 50 249 (responseTime m) /\
      (0 <= errorRate m)%Q /\ (errorRate m < inject_Z 5)%Q.
Proof.
  apply (getPerformanceMetrics_records sampleClock sampleIso sampleRandom).
  intros k. unfold sampleRandom.
  pose proof (Nat.mod_upper_bound k 4 ltac:(lia)).
  split; [unfold Qle | unfold Qlt]; cbn; lia.
Defined.

(** ** The interceptors *)

(** X18. The request interceptor hands every request on with its
    [X-Request-ID], and with [Authorization: Bearer <token>] exactly
    when [localStorage] holds a non-empty token. An answer with status
    401 removes the token and sends the browser to [/login], so the
    requests after it carry no [Authorization] header. *)
Theorem authorization_header url nowMs now reply b :
  let config := fst (get url nowMs now reply b) in
  headers config !! "Authorization" = bearerOf (authToken b) /\
  headers config !! "X-Request-ID" = Some (requestIdOf (getConfig url) nowMs) /\
  (forall r msg url' nowMs' now' reply',
      status r = 401 ->
      let b' := snd (get url nowMs now (ReplyError (Some r) msg) b) in
      authToken b' = None /\
      location b' = "/login" /\
      headers (fst (get url' nowMs' now' reply' b')) !! "Authorization" = None).
Proof.
  assert (Hhead : forall u ms t rp c,
             headers (fst (get u ms t rp c)) !! "Authorization"
             = bearerOf (authToken c) /\
             headers (fst (get u ms t rp c)) !! "X-Request-ID"
             = Some (requestIdOf (getConfig u) ms) /\
             headers (fst (get u ms t rp c)) !! "Content-Type"
             = Some "application/json").
  { intros u ms t rp c. unfold get, requestInterceptor, bearerOf.
    destruct rp; cbn [fst headers];
      (split; [|split]);
      rewrite ?lookup_insert_eq; try reflexivity;
      rewrite lookup_insert_ne by discriminate;
      destruct (authToken c) as [tok|]; try reflexivity;
      destruct (String.eqb tok ""); try reflexivity;
      rewrite ?lookup_insert_eq; try reflexivity;
      rewrite lookup_insert_ne by discriminate; reflexivity. }
  cbn zeta. destruct (Hhead url nowMs now reply b) as (Ha & Hi & _).
  split; [exact Ha|]. split; [exact Hi|].
  intros r msg url' nowMs' now' reply' H. split; [|split].
  - unfold get, requestInterceptor, responseErrorInterceptor. cbn.
    rewrite H. reflexivity.
  - unfold get, requestInterceptor, responseErrorInterceptor. cbn.
    rewrite H. reflexivity.
  - destruct (Hhead url' nowMs' now' reply'
                (snd (get url nowMs now (ReplyError (Some r) msg) b)))
      as (-> & _).
    unfold get, requestInterceptor, responseErrorInterceptor. cbn.
    rewrite H. reflexivity.
Qed.

(** X19. The entry a request adds to [requestTimings] is removed when
    the request fails and, in development, when it succeeds; outside
    development a successful request leaves its entry behind, so the map
    grows by one with every request whose id is new. *)
Theorem requestTimings_after_request url nowMs now b :
  let id := requestIdOf (getConfig url) nowMs in
  requestTimings (snd (get url nowMs now ReplyOk b))
  = (if development b then delete id (requestTimings b)
     else <[id := now]> (requestTimings b)) /\
  (forall r msg,
      requestTimings (snd (get url nowMs now (ReplyError r msg) b))
      = delete id (requestTimings b)) /\
  (development b = false -> requestTimings b !! id = None ->
   size (requestTimings (snd (get url nowMs now ReplyOk b)))
   = S (size (requestTimings b))).
Proof.
  cbn zeta.
  assert (Hok : requestTimings (snd (get url nowMs now ReplyOk b))
                = (if development b
                   then delete (requestIdOf (getConfig url) nowMs) (requestTimings b)
                   else <[requestIdOf (getConfig url) nowMs := now]> (requestTimings b))).
  { unfold get, requestInterceptor, responseInterceptor.
    cbn [snd fst development headers requestTimings].
    destruct (development b); [|reflexivity].
    rewrite !lookup_insert_eq. cbn [requestTimings].
    apply delete_insert_eq. }
  split; [exact Hok|]. split.
  - intros r msg. unfold get, requestInterceptor, responseErrorInterceptor.
    cbn [snd fst headers requestTimings configRequestId response].
    rewrite lookup_insert_eq.
    change (String.eqb (requestIdOf (getConfig url) nowMs) "") with false.
    cbn iota.
    destruct r as [r|]; [destruct (status r =? 401)|]; cbn [requestTimings];
      apply delete_insert_eq.
  - intros Hdev Hfresh. rewrite Hok, Hdev.
    apply map_size_insert_None, Hfresh.
Qed.

End ApiLayerProps.

(* ================================================================== *)
(** * Properties of the other generators *)

Module GeneratorsProps.
Import MockData ApiLayer Generators ApiLayerProps.

(** [Math.round] of a value between [lo - 1/2] and [hi + 1/2]. *)
Lemma round_between lo hi v :
  (inject_Z lo - (1 # 2) <= v)%Q -> (v < inject_Z hi + (1 # 2))%Q ->
  wholeBetween lo hi (Math_round v).
Proof.
  intros Hlo Hhi. exists (Qfloor (v + (1 # 2))). split; [reflexivity|]. split.
  - rewrite <- (Qfloor_Z lo). apply Qfloor_resp_le. lra.
  - assert (H : Qfloor (v + (1 # 2)) < hi + 1); [|lia].
    rewrite Zlt_Qlt. apply Qle_lt_trans with (v + (1 # 2))%Q; [apply Qfloor_le|].
    rewrite inject_Z_plus. change (inject_Z 1) with 1%Q. lra.
Qed.


Section Generated.

Variable random : nat -> number.
Hypothesis random_range : randomInRange random.

(** [generateTrendingKeywords] returns the twelve keywords in the
    order of its table; each count is a whole number from 100 to 1099,
    each change lies in [-10, 10) and each category is ["trending"] or
    ["stable"]. *)
Theorem generateTrendingKeywords_ranges :
  let data := generateTrendingKeywords random in
  map Stream.term data = keywordTerms /\
  length data = 12%nat /\
  Forall (fun k =>
            wholeBetween 100 1099 (Stream.count k) /\
            inRange (- inject_Z 10)%Q (inject_Z 10) (Stream.kw_change k) /\
            (Stream.kw_category k = "trending" \/ Stream.kw_category k = "stable"))
         data.
Proof.
  cbn zeta. split; [reflexivity|]. split; [reflexivity|].
  apply List.Forall_forall. intros k Hk.
  rewrite <- list_elem_of_In in Hk.
  apply elem_of_lookup_imap in Hk as (i & term & -> & _).
  cbn [Stream.count Stream.kw_change Stream.kw_category keywordOf].
  repeat split.
  - destruct (random_range (3 * i)%nat) as [H0 H1].
    exact (floor_random_between _ 1000 100 H0 H1 ltac:(lia)).
  - destruct (random_range (3 * i + 1)%nat) as [H0 _].
    change (inject_Z 10) with 10%Q. change (inject_Z 20) with 20%Q. lra.
  - destruct (random_range (3 * i + 1)%nat) as [_ H1].
    change (inject_Z 10) with 10%Q. change (inject_Z 20) with 20%Q. lra.
  - destruct (gtb _ _); auto.
Qed.

Section Series.

Variable today : Z.
Variable formatDay : Z -> string.

Lemma userLoop_map fuel i k data :
  Z.of_nat fuel = i + 1 ->
  userLoop random today formatDay fuel i k data
  = (data ++ map (fun j : nat =>
                    userPoint today formatDay (i - Z.of_nat j)
                      (random (k + j)%nat))
               (seq 0 fuel))%list.
Proof.
  revert i k data; induction fuel as [|fuel IH]; intros i k data Hi.
  - cbn. rewrite app_nil_r. reflexivity.
  - cbn [userLoop].
    replace (0 <=? i) with true by (symmetry; apply Z.leb_le; lia).
    rewrite IH by lia. cbn [seq map]. rewrite <- app_assoc. cbn [app].
    rewrite <- seq_shift, map_map. f_equal. f_equal.
    + replace (i - Z.of_nat 0) with i by lia.
      replace (k + 0)%nat with k by lia. reflexivity.
    + apply map_ext; intros j.
      replace (i - 1 - Z.of_nat j) with (i - Z.of_nat (S j)) by lia.
      replace (S k + j)%nat with (k + S j)%nat by lia. reflexivity.
Qed.

(** X21. [generateUserAnalytics(days)] draws a random number for each of
    the [days] days and returns the points of the last seven only, or of
    all days when there are fewer: the point at index [j] is the one of
    the day [n - 1 - j] days before today, built from the random number
    of rank [days - n + j], so the last point is today's. Its [y] is a
    whole number, from 560 to 1040 on a Saturday or Sunday and from 1050
    to 1950 on the other days. *)
Theorem generateUserAnalytics_last_week days :
  0 <= days ->
  let data := generateUserAnalytics random today formatDay days in
  let n := Nat.min 7 (Z.to_nat days) in
  length data = n /\
  forall j p, data !! j = Some p ->
    let back := Z.of_nat n - 1 - Z.of_nat j in
    p = userPoint today formatDay back
          (random (Z.to_nat days - n + j)%nat) /\
    x p = weekdayShort (today - back) /\
    label p = formatDay (today - back) /\
    (if isWeekend (today - back)
     then wholeBetween 560 1040 (y p)
     else wholeBetween 1050 1950 (y p)).
Proof.
  intros Hdays data n. subst data. unfold generateUserAnalytics.
  rewrite userLoop_map by lia. cbn [app]. unfold sliceLast.
  rewrite length_map, length_seq.
  set (D := Z.to_nat days) in *.
  split; [rewrite length_drop, length_map, length_seq; lia|].
  intros j p Hp. cbn zeta. set (back := Z.of_nat n - 1 - Z.of_nat j).
  rewrite lookup_drop in Hp.
  change (map ?f ?l) with (f <$> l) in Hp. rewrite list_lookup_fmap in Hp.
  destruct (seq 0 D !! (D - 7 + j)%nat) as [m|] eqn:Hm; [|discriminate].
  apply lookup_seq in Hm as [-> Hlt]. injection Hp as <-.
  assert (Eback : days - 1 - Z.of_nat (D - 7 + j) = back) by (subst back n D; lia).
  assert (Erank : (D - 7 + j)%nat = (D - n + j)%nat) by (subst n; lia).
  rewrite Eback, Erank.
  split; [reflexivity|]. split; [reflexivity|]. split; [reflexivity|].
  cbn [y userPoint]. fold (isWeekend (today - back)).
  destruct (random_range (D - n + j)%nat) as [H0 H1].
  destruct (isWeekend (today - back));
    apply round_between; unfold inject_Z; lra.
Qed.

End Series.

(** X24. [generateCategoryData] returns the five categories in the order
    of its table, each with its color; each [y] is a whole number within
    5 of the category's weight in percent (35, 25, 20, 12, 8): from 30
    to 40, 20 to 30, 15 to 25, 7 to 17 and 3 to 13. *)
Theorem generateCategoryData_points :
  let data := generateCategoryData random in
  map cp_x data = map (fun c => fst (fst c)) categoryTable /\
  map cp_label data = map cp_x data /\
  map backgroundColor data = map snd categoryTable /\
  Forall2 (fun c range => wholeBetween (fst range) (snd range) (cp_y c))
          data [(30, 40); (20, 30); (15, 25); (7, 17); (3, 13)].
Proof.
  cbn zeta. split; [reflexivity|]. split; [reflexivity|]. split; [reflexivity|].
  unfold generateCategoryData, categoryTable. cbn [imap compose categoryPoint].
  repeat (apply List.Forall2_cons;
          [ cbn [cp_y fst snd];
            match goal with
            | |- wholeBetween _ _ (Math_round (_ + (random ?k - _) * _)%Q) =>
                destruct (random_range k) as [H0 H1]
            end;
            apply round_between; cbn [fst snd]; unfold inject_Z; lra | ]).
  apply List.Forall2_nil.
Qed.

End Generated.

(** ** The generators that add and multiply doubles *)

(** [Math.round] of a value between [lo - 1/2] and [hi - 1/2], both
    included. *)
Lemma round_within lo hi v :
  (inject_Z lo - (1 # 2) <= v)%Q -> (v <= inject_Z hi - (1 # 2))%Q ->
  wholeBetween lo hi (Math_round v).
Proof.
  intros Hlo Hhi. exists (Qfloor (v + (1 # 2))). split; [reflexivity|]. split.
  - rewrite <- (Qfloor_Z lo). apply Qfloor_resp_le. lra.
  - rewrite <- (Qfloor_Z hi). apply Qfloor_resp_le. lra.
Qed.



Section Doubles.

Variable rnd : number -> number.
Variable random : nat -> number.
Hypothesis rounding : roundsToNearest rnd.
Hypothesis random_double : randomDouble rnd random.

Lemma rnd_mono x y : (x <= y)%Q -> (rnd x <= rnd y)%Q.
Proof. apply rounding. Qed.

Lemma rnd_idem x : (rnd (rnd x) == rnd x)%Q.
Proof. apply rounding. Qed.

Lemma rnd_eq x y : (x == y)%Q -> (rnd x == rnd y)%Q.
Proof.
  intros E. apply Qle_antisym; apply rnd_mono; rewrite E; apply Qle_refl.
Qed.

(** A value that is half a whole number is a double. *)
Lemma rnd_half (n : Z) x :
  - 9007199254740992 <= n <= 9007199254740992 ->
  (x == n # 2)%Q -> (rnd x == x)%Q.
Proof.
  intros Hn E. rewrite (rnd_eq _ _ E), E.
  destruct rounding as (_ & _ & Hh & _). apply Hh.
  change (2 ^ 53) with 9007199254740992. exact Hn.
Qed.

(** Rounding stays between two halves of whole numbers. *)
Lemma rnd_between (lo hi : Z) x :
  - 9007199254740992 <= lo <= 9007199254740992 ->
  - 9007199254740992 <= hi <= 9007199254740992 ->
  (lo # 2 <= x)%Q -> (x <= hi # 2)%Q ->
  (lo # 2 <= rnd x)%Q /\ (rnd x <= hi # 2)%Q.
Proof.
  intros Hlo Hhi Hl Hu. split.
  - rewrite <- (rnd_half lo (lo # 2) Hlo (Qeq_refl _)). apply rnd_mono, Hl.
  - rewrite <- (rnd_half hi (hi # 2) Hhi (Qeq_refl _)). apply rnd_mono, Hu.
Qed.

(** A literal is not negative when its decimal is not. *)
Lemma lit_nonneg q : (0 <= q)%Q -> (0 <= rnd q)%Q.
Proof.
  intros Hq.
  destruct (rnd_between 0 0 0%Q ltac:(lia) ltac:(lia)) as [H0 _]; try lra.
  apply Qle_trans with (rnd 0%Q); [lra | apply rnd_mono, Hq].
Qed.

(** [Math.random() * c] for a double [c] that is not negative lies
    between 0 and [c]. *)
Lemma fmul_random k c :
  (0 <= c)%Q -> (rnd c == c)%Q ->
  (0 <= fmul rnd (random k) c)%Q /\ (fmul rnd (random k) c <= c)%Q.
Proof.
  intros Hc Ec. destruct (random_double k) as (H0 & H1 & _). unfold fmul.
  split.
  - apply lit_nonneg. nra.
  - rewrite <- Ec at 2. apply rnd_mono. nra.
Qed.

(** [Math.floor(Math.random() * n) + c] is a whole number from [c] to
    [c + n - 1]. *)
Lemma floor_random_double k n c :
  0 < n <= 1000000 -> 0 <= c <= 1000000 ->
  wholeBetween c (c + n - 1)
    (fadd rnd (Math_floor (fmul rnd (random k) (inject_Z n))) (inject_Z c)).
Proof.
  intros Hn Hc. destruct (random_double k) as (H0 & H1 & _).
  set (v := fmul rnd (random k) (inject_Z n)).
  assert (Hn' : (0 < inject_Z n)%Q)
    by (change 0%Q with (inject_Z 0); rewrite <- Zlt_Qlt; lia).
  assert (Hv0 : (0 <= v)%Q) by (apply lit_nonneg; nra).
  assert (Hv1 : (v < inject_Z n)%Q).
  { destruct rounding as (_ & _ & _ & Hb). apply Hb.
    - change (2 ^ 53) with 9007199254740992. lia.
    - nra. }
  assert (Hf0 : 0 <= Qfloor v)
    by (rewrite <- (Qfloor_Z 0); apply Qfloor_resp_le; exact Hv0).
  assert (Hf1 : Qfloor v < n).
  { rewrite Zlt_Qlt. apply Qle_lt_trans with v; [apply Qfloor_le | exact Hv1]. }
  exists (Qfloor v + c). split; [|lia].
  unfold fadd, Math_floor. fold v.
  rewrite inject_Z_plus.
  apply (rnd_half (2 * (Qfloor v + c))); [lia|].
  rewrite <- inject_Z_plus. unfold inject_Z, Qeq. cbn. lia.
Qed.

(** X20. The numbers of [generatePerformanceMetrics], computed in
    doubles, lie in the ranges its comments give, both ends included:
    load time from 1.2 to 2.0, bounce rate from 25 to 40, conversion
    rate from 2.5 to 4.5 and session duration from 180 to 300; page
    views are a whole number from 5000 to 14999 and unique visitors
    from 2000 to 6999. The sum of the doubles 1.2 and 0.8 is taken to
    be 2.0, as it is. *)
Theorem generatePerformanceMetrics_ranges :
  (rnd (rnd (12 # 10) + rnd (8 # 10)) == inject_Z 2)%Q ->
  let m := generatePerformanceMetrics random rnd in
  closedRange (rnd (12 # 10)) (inject_Z 2) (Stream.loadTime m) /\
  closedRange (inject_Z 25) (inject_Z 40) (Stream.bounceRate m) /\
  closedRange (25 # 10) (45 # 10) (Stream.conversionRate m) /\
  wholeBetween 5000 14999 (Stream.ps_pageViews m) /\
  wholeBetween 2000 6999 (Stream.uniqueVisitors m) /\
  closedRange (inject_Z 180) (inject_Z 300) (Stream.avgSessionDuration m).
Proof.
  intros Hsum. cbn zeta.
  cbn [generatePerformanceMetrics Stream.loadTime Stream.bounceRate
       Stream.conversionRate Stream.ps_pageViews Stream.uniqueVisitors
       Stream.avgSessionDuration].
  refine (conj _ (conj _ (conj _ (conj _ (conj _ _))))).
  - unfold lit.
    destruct (fmul_random 0 (rnd (8 # 10))) as [T0 T1];
      [apply lit_nonneg; lra | apply rnd_idem |].
    unfold closedRange, fadd. split.
    + rewrite <- (rnd_idem (12 # 10)) at 1. apply rnd_mono. lra.
    + rewrite <- Hsum. apply rnd_mono. lra.
  - destruct (fmul_random 1 (inject_Z 15)) as [T0 T1];
      [unfold inject_Z; lra | apply (rnd_half 30); [lia|reflexivity] |].
    unfold closedRange, fadd.
    destruct (rnd_between 50 80
                (inject_Z 25 + fmul rnd (random 1%nat) (inject_Z 15))%Q)
      as [L U]; try lia; unfold inject_Z in *; lra.
  - assert (E : (lit rnd (25 # 10) == 5 # 2)%Q).
    { unfold lit. rewrite (rnd_half 5 (25 # 10)); [reflexivity | lia | reflexivity]. }
    destruct (fmul_random 2 (inject_Z 2)) as [T0 T1];
      [unfold inject_Z; lra | apply (rnd_half 4); [lia|reflexivity] |].
    unfold closedRange, fadd.
    destruct (rnd_between 5 9
                (lit rnd (25 # 10) + fmul rnd (random 2%nat) (inject_Z 2))%Q)
      as [L U]; try lia; unfold inject_Z in *; lra.
  - exact (floor_random_double 3 10000 5000 ltac:(lia) ltac:(lia)).
  - exact (floor_random_double 4 5000 2000 ltac:(lia) ltac:(lia)).
  - destruct (fmul_random 5 (inject_Z 120)) as [T0 T1];
      [unfold inject_Z; lra | apply (rnd_half 240); [lia|reflexivity] |].
    unfold closedRange, fadd.
    destruct (rnd_between 360 600
                (inject_Z 180 + fmul rnd (random 5%nat) (inject_Z 120))%Q)
      as [L U]; try lia; unfold inject_Z in *; lra.
Qed.

Variable currentTime : Z.
Variable getHours : Z -> Z.
Variable formatTime : Z -> string.
Variable formatStamp : Z -> string.
Variable clock : nat -> Z.

Lemma performanceLoop_map fuel i k data :
  Z.of_nat fuel = i + 1 ->
  performanceLoop random rnd currentTime getHours formatTime formatStamp
    fuel i k data
  = (data ++ map (fun j : nat =>
                    performancePoint rnd currentTime getHours formatTime
                      formatStamp (i - Z.of_nat j) (random (k + j)%nat))
               (seq 0 fuel))%list.
Proof.
  revert i k data; induction fuel as [|fuel IH]; intros i k data Hi.
  - cbn. rewrite app_nil_r. reflexivity.
  - cbn [performanceLoop].
    replace (0 <=? i) with true by (symmetry; apply Z.leb_le; lia).
    rewrite IH by lia. cbn [seq map]. rewrite <- app_assoc. cbn [app].
    rewrite <- seq_shift, map_map. f_equal. f_equal.
    + replace (i - Z.of_nat 0) with i by lia.
      replace (k + 0)%nat with k by lia. reflexivity.
    + apply map_ext; intros j.
      replace (i - 1 - Z.of_nat j) with (i - Z.of_nat (S j)) by lia.
      replace (S k + j)%nat with (k + S j)%nat by lia. reflexivity.
Qed.

(** [0.5 + Math.random() * 1.0] lies between 0.5 and 1.5, both
    included. *)
Lemma performance_variation k :
  let v := fadd rnd (lit rnd (5 # 10)) (fmul rnd (random k) (lit rnd 1%Q)) in
  (1 # 2 <= v)%Q /\ (v <= 3 # 2)%Q.
Proof.
  cbn zeta. destruct (random_double k) as (H0 & H1 & Hr).
  assert (E1 : (lit rnd 1%Q == 1)%Q)
    by (unfold lit; apply (rnd_half 2); [lia | reflexivity]).
  assert (E5 : (lit rnd (5 # 10) == 1 # 2)%Q)
    by (unfold lit; rewrite (rnd_half 1 (5 # 10)); [reflexivity | lia | reflexivity]).
  assert (Et : (fmul rnd (random k) (lit rnd 1%Q) == random k)%Q).
  { unfold fmul. rewrite <- Hr at 2. apply rnd_eq. rewrite E1. ring. }
  unfold fadd. apply (rnd_between 1 3); try lia; lra.
Qed.

(** X22. [generatePerformanceData(hours)] returns [hours] points, oldest
    first, one per hour up to the current time. Each [y], computed in
    doubles, is a whole number, from 38 to 113 when the local hour of
    the point is from 9 to 17 and from 18 to 53 otherwise. The product
    of the doubles 50 and 0.7 is taken to be 35, as it is. *)
Theorem generatePerformanceData_points hours :
  (rnd (inject_Z 50 * rnd (7 # 10)) == inject_Z 35)%Q ->
  0 <= hours ->
  let data := generatePerformanceData random rnd currentTime getHours
                formatTime formatStamp hours in
  length data = Z.to_nat hours /\
  forall j p, data !! j = Some p ->
    let time := currentTime - (hours - 1 - Z.of_nat j) * hourMs in
    x p = formatTime time /\
    label p = formatStamp time /\
    (if isBusinessHour (getHours time)
     then wholeBetween 38 113 (y p)
     else wholeBetween 18 53 (y p)).
Proof.
  intros Hprod Hh data. subst data. unfold generatePerformanceData.
  rewrite performanceLoop_map by lia. cbn [app].
  split; [rewrite length_map, length_seq; reflexivity|].
  intros j p Hp. cbn zeta.
  set (time := currentTime - (hours - 1 - Z.of_nat j) * hourMs).
  change (map ?f ?l) with (f <$> l) in Hp. rewrite list_lookup_fmap in Hp.
  destruct (seq 0 (Z.to_nat hours) !! j) as [m|] eqn:Hm; [|discriminate].
  apply lookup_seq in Hm as [-> Hlt]. injection Hp as <-.
  replace (0 + j)%nat with j by lia.
  split; [reflexivity|]. split; [reflexivity|].
  cbn [y performancePoint]. fold time. fold (isBusinessHour (getHours time)).
  destruct (performance_variation j) as [V0 V1]. cbn zeta in V0, V1.
  set (v := fadd rnd (lit rnd (5 # 10))
              (fmul rnd (random j) (lit rnd 1%Q))) in *.
  destruct (isBusinessHour (getHours time)).
  - assert (E : (fmul rnd (inject_Z 50) (lit rnd (15 # 10)) == inject_Z 75)%Q).
    { unfold fmul, lit.
      assert (E15 : (rnd (15 # 10) == 3 # 2)%Q)
        by (rewrite (rnd_half 3 (15 # 10)); [reflexivity | lia | reflexivity]).
      rewrite (rnd_half 150); [| lia |]; rewrite E15; unfold inject_Z; lra. }
    unfold fmul at 1.
    destruct (rnd_between 75 225
                (fmul rnd (inject_Z 50) (lit rnd (15 # 10)) * v)%Q)
      as [L U]; try lia; try (rewrite E; unfold inject_Z; lra).
    apply round_within; unfold inject_Z in *; lra.
  - assert (E : (fmul rnd (inject_Z 50) (lit rnd (7 # 10)) == inject_Z 35)%Q)
      by exact Hprod.
    unfold fmul at 1.
    destruct (rnd_between 35 105
                (fmul rnd (inject_Z 50) (lit rnd (7 # 10)) * v)%Q)
      as [L U]; try lia; try (rewrite E; unfold inject_Z; lra).
    apply round_within; unfold inject_Z in *; lra.
Qed.

(** ** [generateTimeSeriesData] *)







Section TimeSeries.

Hypothesis product_900 :
  (rnd (inject_Z 1000 * rnd (9 # 10)) == inject_Z 900)%Q.
Hypothesis product_1100 :
  (rnd (inject_Z 1000 * rnd (rnd (9 # 10) + rnd (2 # 10))) == inject_Z 1100)%Q.




End TimeSeries.

End Doubles.

Local Ltac sample_range :=
  let k := fresh "k" in
  intros k; unfold sampleRandom;
  pose proof (Nat.mod_upper_bound k 4 ltac:(lia));
  split; [unfold Qle | unfold Qlt]; cbn; lia.

Lemma generateTrendingKeywords_ranges_witness :
  let data := generateTrendingKeywords sampleRandom in
  map Stream.term data = keywordTerms /\
  length data = 12%nat /\
  Forall (fun k =>
            wholeBetween 100 1099 (Stream.count k) /\
            inRange (- inject_Z 10)%Q (inject_Z 10) (Stream.kw_change k) /\
            (Stream.kw_category k = "trending" \/ Stream.kw_category k = "stable"))
         data.
Proof. apply (generateTrendingKeywords_ranges sampleRandom). sample_range. Defined.

Lemma generateUserAnalytics_last_week_witness :
  let data := generateUserAnalytics sampleRandom sampleToday sampleIso 30 in
  let n := Nat.min 7 (Z.to_nat 30) in
  length data = n /\
  forall j p, data !! j = Some p ->
    let back := Z.of_nat n - 1 - Z.of_nat j in
    p = userPoint sampleToday sampleIso back
          (sampleRandom (Z.to_nat 30 - n + j)%nat) /\
    x p = weekdayShort (sampleToday - back) /\
    label p = sampleIso (sampleToday - back) /\
    (if isWeekend (sampleToday - back)
     then wholeBetween 560 1040 (y p)
     else wholeBetween 1050 1950 (y p)).
Proof.
  apply (generateUserAnalytics_last_week sampleRandom); [sample_range | lia].
Defined.

Lemma generateCategoryData_points_witness :
  let data := generateCategoryData sampleRandom in
  map cp_x data = map (fun c => fst (fst c)) categoryTable /\
  map cp_label data = map cp_x data /\
  map backgroundColor data = map snd categoryTable /\
  Forall2 (fun c range => wholeBetween (fst range) (snd range) (cp_y c))
          data [(30, 40); (20, 30); (15, 25); (7, 17); (3, 13)].
Proof. apply (generateCategoryData_points sampleRandom). sample_range. Defined.

(** Exact arithmetic has what is asked of the rounding, and the sample
    random numbers are doubles for it. *)
Lemma exact_rounds : roundsToNearest noRounding.
Proof.
  unfold roundsToNearest, noRounding. split; [|split; [|split]].
  - intros x y H. exact H.
  - intros x. reflexivity.
  - intros n _. reflexivity.
  - intros n x [Hn _] Hx.
    assert (H : (0 < inject_Z n)%Q)
      by (change 0%Q with (inject_Z 0); rewrite <- Zlt_Qlt; exact Hn).
    nra.
Qed.

Lemma sampleRandom_double : randomDouble noRounding sampleRandom.
Proof.
  intros k. unfold sampleRandom, noRounding.
  pose proof (Nat.mod_upper_bound k 4 ltac:(lia)).
  split; [|split; [|reflexivity]]; unfold Qle; cbn; lia.
Qed.

Lemma generatePerformanceMetrics_ranges_witness :
  let m := generatePerformanceMetrics sampleRandom noRounding in
  closedRange (noRounding (12 # 10)) (inject_Z 2) (Stream.loadTime m) /\
  closedRange (inject_Z 25) (inject_Z 40) (Stream.bounceRate m) /\
  closedRange (25 # 10) (45 # 10) (Stream.conversionRate m) /\
  wholeBetween 5000 14999 (Stream.ps_pageViews m) /\
  wholeBetween 2000 6999 (Stream.uniqueVisitors m) /\
  closedRange (inject_Z 180) (inject_Z 300) (Stream.avgSessionDuration m).
Proof.
  apply (generatePerformanceMetrics_ranges noRounding sampleRandom
           exact_rounds sampleRandom_double).
  reflexivity.
Defined.

Lemma generatePerformanceData_points_witness :
  let data := generatePerformanceData sampleRandom noRounding 1793613600000
                sampleHours sampleIso sampleIso 24 in
  length data = Z.to_nat 24 /\
  forall j p, data !! j = Some p ->
    let time := 1793613600000 - (24 - 1 - Z.of_nat j) * hourMs in
    x p = sampleIso time /\
    label p = sampleIso time /\
    (if isBusinessHour (sampleHours time)
     then wholeBetween 38 113 (y p)
     else wholeBetween 18 53 (y p)).
Proof.
  apply (generatePerformanceData_points noRounding sampleRandom
           exact_rounds sampleRandom_double);
    [reflexivity | lia].
Defined.


End GeneratorsProps.

(* ================================================================== *)
(** * Properties of [useApi], [usePolling] and [useDebouncedApi] *)

Module UseApiProps.
Import Types Api UseApi.

Lemma quiet_noCallbacks {T} : quiet (@noCallbacks T).
Proof. split; intros; discriminate. Qed.

Lemma optionalCall_quiet_success {T} (cb : Callbacks T) d :
  quiet cb -> optionalCall (onSuccess cb) d = Returns.
Proof.
  intros [Hs _]. unfold optionalCall.
  destruct (onSuccess cb) as [f|] eqn:E; [exact (Hs f d eq_refl) | reflexivity].
Qed.

Lemma optionalCall_quiet_error {T} (cb : Callbacks T) m :
  quiet cb -> optionalCall (onError cb) m = Returns.
Proof.
  intros [_ He]. unfold optionalCall.
  destruct (onError cb) as [f|] eqn:E; [exact (He f m eq_refl) | reflexivity].
Qed.

(** X25. However the promise settles and whatever the callbacks do,
    [execute] leaves [loading] false. It throws only when [onError]
    throws inside the [catch] block: with callbacks that return it ends
    normally. When [onSuccess] throws, the response counts as failed
    although its data was stored: [data] and [error] are both set. *)
Theorem execute_stops_loading {T} (cb : Callbacks T) o s :
  loading (snd (execute cb o s)) = false /\
  (quiet cb -> fst (execute cb o s) = Returns) /\
  (forall response f v,
      o = Resolved response ->
      ApiResponse.status response = success ->
      onSuccess cb = Some f -> f (ApiResponse.data response) = Throws v ->
      data (snd (execute cb o s)) = Some (ApiResponse.data response) /\
      error (snd (execute cb o s)) = Some (asError v)).
Proof.
  split; [|split].
  - unfold execute. destruct o as [response|reason].
    + destruct (afterResponse T cb response _) as [[|v] s']; [reflexivity|].
      destruct (catchBlock T cb v s'); reflexivity.
    + destruct (catchBlock T cb reason _); reflexivity.
  - intros Hq. unfold execute, afterResponse, catchBlock.
    destruct o as [response|reason]; cbn beta iota zeta.
    + destruct (ApiResponse.status response); cbn beta iota zeta.
      * rewrite (optionalCall_quiet_success cb _ Hq). reflexivity.
      * rewrite (optionalCall_quiet_error cb _ Hq). reflexivity.
    + rewrite (optionalCall_quiet_error cb _ Hq). reflexivity.
  - intros response f v -> Hs Hf Hv.
    unfold execute, afterResponse, catchBlock. rewrite Hs, Hf. cbn.
    rewrite Hv. cbn. auto.
Qed.



(** ** [usePolling] *)

Lemma pollOwned_cleanup w :
  pollOwned w ->
  Timers.active (intervals (pollCleanup w)) = ∅ /\
  pollHandle (pollCleanup w) = None /\
  polls (pollCleanup w) = polls w.
Proof.
  unfold pollOwned, pollCleanup.
  destruct (pollHandle w) as [id|] eqn:Hh.
  - intros [period Ha]. cbn. rewrite Ha, delete_singleton_eq. auto.
  - intros Ha. rewrite Hh. auto.
Qed.

Lemma pollEffect_timers enabled interval w :
  pollOwned w ->
  let w' := pollEffect enabled interval w in
  polls w' = polls w /\
  if enabled && (0 <? interval) then
    exists id, pollHandle w' = Some id /\
               Timers.active (intervals w') = {[ id := interval ]}
  else
    pollHandle w' = None /\ Timers.active (intervals w') = ∅.
Proof.
  intros Hw. destruct (pollOwned_cleanup w Hw) as (Ha & Hh & Hp).
  cbn zeta. unfold pollEffect.
  destruct enabled; cbn [negb orb andb].
  - destruct (Z.leb_spec interval 0) as [Hle|Hgt].
    + replace (0 <? interval) with false by (symmetry; apply Z.ltb_ge; lia).
      auto.
    + replace (0 <? interval) with true by (symmetry; apply Z.ltb_lt; lia).
      cbn. split; [exact Hp|]. eexists. split; [reflexivity|].
      rewrite Ha. apply insert_empty.
  - auto.
Qed.

Lemma pollOwned_effect enabled interval w :
  pollOwned w -> pollOwned (pollEffect enabled interval w).
Proof.
  intros Hw. destruct (pollEffect_timers enabled interval w Hw) as [_ H].
  unfold pollOwned. destruct (enabled && (0 <? interval)).
  - destruct H as (id & -> & ->). eauto.
  - destruct H as [-> ->]. reflexivity.
Qed.

Lemma pollOwned_step e w : pollOwned w -> pollOwned (pollStep e w).
Proof.
  intros Hw. destruct e as [executeChanged enabled interval|id]; cbn [pollStep].
  - apply pollOwned_effect.
    destruct (executeChanged || negb (Bool.eqb enabled (immediate w)));
      exact Hw.
  - unfold pollTick. destruct (Timers.isActive id (intervals w)); exact Hw.
Qed.

Lemma pollOwned_run es w : pollOwned w -> pollOwned (pollRun es w).
Proof.
  revert w; induction es as [|e es IH]; intros w Hw; [exact Hw|].
  apply IH, pollOwned_step, Hw.
Qed.

Lemma pollOwned_mount enabled interval : pollOwned (mountPolling enabled interval).
Proof. apply pollOwned_effect. reflexivity. Qed.

(** X27. [usePolling] calls [execute] at once on mount exactly when it is
    enabled. After its effect has run for [enabled] and [interval],
    whatever happened before, one timer with period [interval] is
    registered when the hook is enabled and the interval positive, and
    none otherwise; the cleanup on unmount leaves none. *)
Theorem usePolling_timer enabled0 interval0 es enabled interval :
  polls (mountPolling enabled0 interval0) = (if enabled0 then 1 else 0)%nat /\
  let before := pollRun es (mountPolling enabled0 interval0) in
  let w := pollEffect enabled interval before in
  (if enabled && (0 <? interval) then
     exists id, pollHandle w = Some id /\
                Timers.active (intervals w) = {[ id := interval ]}
   else
     pollHandle w = None /\ Timers.active (intervals w) = ∅) /\
  Timers.active (intervals (pollCleanup before)) = ∅.
Proof.
  split.
  - unfold mountPolling.
    assert (Hown : pollOwned (immediateEffect enabled0 noPoller))
      by reflexivity.
    destruct (pollEffect_timers enabled0 interval0 _ Hown) as [-> _].
    destruct enabled0; reflexivity.
  - cbn zeta.
    assert (Hown : pollOwned (pollRun es (mountPolling enabled0 interval0)))
      by apply pollOwned_run, pollOwned_mount.
    split.
    + apply (pollEffect_timers enabled interval _ Hown).
    + apply (pollOwned_cleanup _ Hown).
Qed.

(** ** [useDebouncedApi] *)

Lemma debounceEffect_pending delay w :
  debounceOwned w ->
  let w' := debounceEffect delay w in
  debounceHandle w' = Some (nextTimeout w) /\
  timeouts w' = {[ nextTimeout w := delay ]} /\
  nextTimeout w' = S (nextTimeout w) /\
  debounced w' = debounced w.
Proof.
  unfold debounceOwned, debounceEffect, debounceCleanup.
  destruct (debounceHandle w) as [id|]; cbn.
  - intros [Ha | [d Ha]]; rewrite Ha.
    + rewrite delete_empty, insert_empty. auto.
    + rewrite delete_singleton_eq, insert_empty. auto.
  - intros Ha. rewrite Ha, insert_empty. auto.
Qed.

Lemma debounceOwned_effect delay w :
  debounceOwned w -> debounceOwned (debounceEffect delay w).
Proof.
  intros Hw. destruct (debounceEffect_pending delay w Hw) as (Hh & Ht & _).
  unfold debounceOwned. rewrite Hh, Ht. eauto.
Qed.

Lemma debounceOwned_changes delays w :
  debounceOwned w -> debounceOwned (changes delays w) /\
  debounced (changes delays w) = debounced w.
Proof.
  revert w; induction delays as [|d delays IH]; intros w Hw; [auto|].
  change (changes (d :: delays) w) with (changes delays (debounceEffect d w)).
  destruct (IH _ (debounceOwned_effect d w Hw)) as [Ho Hc].
  split; [exact Ho|]. rewrite Hc.
  apply (debounceEffect_pending d w Hw).
Qed.

(** X28. However often the dependencies of [useDebouncedApi] change
    before a timeout fires, only the timeout of the last change is
    pending, with the last delay: when it fires [execute] is called
    once, and the handle of any earlier timeout fires nothing. *)
Theorem debounce_keeps_last delays delay :
  let w := changes (delays ++ [delay]) noDebouncer in
  exists id,
    debounceHandle w = Some id /\
    timeouts w = {[ id := delay ]} /\
    debounced w = 0%nat /\
    debounced (timeoutFires id w) = 1%nat /\
    timeouts (timeoutFires id w) = ∅ /\
    forall earlier, earlier <> id -> timeoutFires earlier w = w.
Proof.
  cbn zeta. unfold changes. rewrite fold_left_app. cbn [fold_left].
  fold (changes delays noDebouncer).
  destruct (debounceOwned_changes delays noDebouncer eq_refl) as [Ho Hc].
  destruct (debounceEffect_pending delay _ Ho) as (Hh & Ht & _ & Hd).
  set (w := debounceEffect delay (changes delays noDebouncer)) in *.
  exists (nextTimeout (changes delays noDebouncer)).
  split; [exact Hh|]. split; [exact Ht|].
  split; [rewrite Hd, Hc; reflexivity|].
  unfold timeoutFires. rewrite Ht, lookup_singleton_eq.
  cbn [debounced timeouts]. rewrite Hd, Hc.
  split; [reflexivity|].
  split; [apply delete_singleton_eq|].
  intros earlier Hne. rewrite lookup_singleton_ne by congruence. reflexivity.
Qed.

End UseApiProps.

(* ================================================================== *)
(** * Properties of [useLiveMetrics] *)

Module LiveMetricsProps.
Import LiveMetrics.

(** A tick before the last one moves the value along the line and
    advances the counter; nothing else changes. *)
Lemma tick_moves id a h :
  animations h !! id = Some a ->
  currentStep a + 1 < steps ->
  tick id h
  = {| initialValue := initialValue h; increment := increment h;
       value := (startValue a + stepValue a * inject_Z (currentStep a + 1))%Q;
       isAnimating := isAnimating h; rendered := rendered h;
       animations := <[id := atStep a (currentStep a + 1)]> (animations h);
       nextId := nextId h |}.
Proof.
  intros Ha Hc. unfold tick. rewrite Ha. cbn zeta.
  replace (steps <=? currentStep a + 1) with false
    by (symmetry; apply Z.leb_gt; exact Hc).
  reflexivity.
Qed.

(** The last tick puts the value on the target and clears the timer. *)
Lemma tick_finishes id a h :
  animations h !! id = Some a ->
  steps <= currentStep a + 1 ->
  tick id h
  = {| initialValue := initialValue h; increment := increment h;
       value := targetValue a;
       isAnimating := false; rendered := rendered h;
       animations := delete id (animations h);
       nextId := nextId h |}.
Proof.
  intros Ha Hc. unfold tick. rewrite Ha. cbn zeta.
  replace (steps <=? currentStep a + 1) with true
    by (symmetry; apply Z.leb_le; exact Hc).
  reflexivity.
Qed.

Lemma ticks_S n id h : ticks (S n) id h = tick id (ticks n id h).
Proof. reflexivity. Qed.

(** After [n] ticks, fewer than [steps], of an animation that has just
    started: the counter, the value, and what is untouched. *)
Lemma ticks_moves id a h n :
  animations h !! id = Some a ->
  currentStep a = 0 ->
  Z.of_nat n < steps ->
  let h' := ticks n id h in
  animations h' !! id = Some (atStep a (Z.of_nat n)) /\
  (forall other, other <> id -> animations h' !! other = animations h !! other) /\
  isAnimating h' = isAnimating h /\
  rendered h' = rendered h /\
  nextId h' = nextId h /\
  ((0 < n)%nat ->
   value h' = (startValue a + stepValue a * inject_Z (Z.of_nat n))%Q).
Proof.
  intros Ha Hzero. induction n as [|n IH]; intros Hn h'.
  - subst h'. cbn. rewrite Ha. destruct a; cbn in *; subst.
    repeat split; auto. lia.
  - specialize (IH ltac:(lia)). cbn zeta in IH.
    destruct IH as (Ia & Io & Ii & Ir & In_ & _).
    subst h'. rewrite ticks_S.
    rewrite (tick_moves id _ _ Ia) by (unfold atStep; cbn [currentStep]; lia).
    unfold atStep.
    cbn [animations isAnimating rendered nextId value currentStep
         startValue stepValue targetValue period].
    replace (Z.of_nat n + 1) with (Z.of_nat (S n)) by lia.
    rewrite lookup_insert_eq. repeat split; auto.
    intros other Hne. rewrite lookup_insert_ne by congruence. apply Io, Hne.
Qed.

(** After the [steps] ticks of an animation that has just started. *)
Lemma ticks_finish id a h n :
  animations h !! id = Some a ->
  currentStep a = 0 ->
  Z.of_nat (S n) = steps ->
  let h' := ticks (S n) id h in
  value h' = targetValue a /\
  isAnimating h' = false /\
  animations h' !! id = None /\
  (forall other, other <> id -> animations h' !! other = animations h !! other) /\
  rendered h' = rendered h /\
  forall more, ticks more id h' = h'.
Proof.
  intros Ha Hzero Hn h'.
  destruct (ticks_moves id a h n Ha Hzero ltac:(lia)) as (Ia & Io & _ & Ir & _).
  subst h'. rewrite ticks_S.
  rewrite (tick_finishes id _ _ Ia) by (unfold atStep; cbn [currentStep]; lia).
  unfold atStep.
  cbn [value isAnimating animations rendered targetValue].
  rewrite lookup_delete_eq. repeat split; auto.
  - intros other Hne. rewrite lookup_delete_ne by congruence. apply Io, Hne.
  - intros more. induction more as [|more IH]; [reflexivity|].
    rewrite ticks_S, IH. unfold tick.
    cbn [animations]. rewrite lookup_delete_eq. reflexivity.
Qed.

(** X29. An animation takes sixty ticks whatever its duration. After
    [k] of them, [0 < k < 60], the value is
    [start + k * (target - start) / 60], where [start] is the value of
    the last render; the sixtieth tick sets the value to the target
    itself, clears the timer and lowers [isAnimating], and a later tick
    of that timer changes nothing. *)
Theorem animate_reaches_target target duration h :
  let id := nextId h in
  let h0 := animate target duration h in
  (forall k, (0 < k < 60)%nat ->
     value (ticks k id h0)
     = (rendered h
        + (target - rendered h) / inject_Z 60 * inject_Z (Z.of_nat k))%Q /\
     isAnimating (ticks k id h0) = true) /\
  value (ticks 60 id h0) = target /\
  isAnimating (ticks 60 id h0) = false /\
  animations (ticks 60 id h0) !! id = None /\
  forall more, ticks more id (ticks 60 id h0) = ticks 60 id h0.
Proof.
  intros id h0.
  assert (Ha : animations h0 !! id
               = Some {| startValue := rendered h;
                         stepValue := ((target - rendered h) / inject_Z steps)%Q;
                         targetValue := target; currentStep := 0;
                         period := (duration / inject_Z steps)%Q |})
    by apply lookup_insert_eq.
  split.
  - intros k [Hk0 Hk].
    pose proof (ticks_moves id _ h0 k Ha eq_refl) as Hm.
    destruct Hm as (_ & _ & Hi & _ & _ & Hv); [unfold steps; lia|].
    split; [exact (Hv Hk0) | rewrite Hi; reflexivity].
  - pose proof (ticks_finish id _ h0 59 Ha eq_refl eq_refl) as Hf.
    destruct Hf as (Hv & Hi & Hn & _ & _ & Hm).
    auto.
Qed.

(** X30. [animate] does not cancel an animation that runs: after two
    calls from the same closure both timers are registered and both
    start from the same value. When the first has made its sixty ticks
    the value is its target and [isAnimating] is false although the
    second, which has not moved yet, is still registered; the sixty
    ticks of the second then take the value to the second target. *)
Theorem animations_overlap t1 d1 t2 d2 h :
  let id1 := nextId h in
  let id2 := S (nextId h) in
  let h2 := animate t2 d2 (animate t1 d1 h) in
  let first := ticks 60 id1 h2 in
  let both := ticks 60 id2 first in
  (exists a1 a2,
      animations h2 !! id1 = Some a1 /\ animations h2 !! id2 = Some a2 /\
      startValue a1 = rendered h /\ startValue a2 = rendered h) /\
  value first = t1 /\
  isAnimating first = false /\
  is_Some (animations first !! id2) /\
  value both = t2 /\
  animations both !! id1 = None /\
  animations both !! id2 = None.
Proof.
  intros id1 id2 h2 first both.
  assert (Hne : id1 <> id2) by (subst id1 id2; lia).
  set (a1 := {| startValue := rendered h;
                stepValue := ((t1 - rendered h) / inject_Z steps)%Q;
                targetValue := t1; currentStep := 0;
                period := (d1 / inject_Z steps)%Q |}).
  set (a2 := {| startValue := rendered h;
                stepValue := ((t2 - rendered h) / inject_Z steps)%Q;
                targetValue := t2; currentStep := 0;
                period := (d2 / inject_Z steps)%Q |}).
  assert (H2 : animations h2 !! id2 = Some a2) by apply lookup_insert_eq.
  assert (H1 : animations h2 !! id1 = Some a1).
  { subst h2. cbn [animate animations nextId].
    rewrite lookup_insert_ne by lia. apply lookup_insert_eq. }
  pose proof (ticks_finish id1 a1 h2 59 H1 eq_refl eq_refl) as F1.
  destruct F1 as (Hv & Hi & Hn & Ho & _ & _).
  assert (F2 : animations first !! id2 = Some a2)
    by (subst first; rewrite Ho by congruence; exact H2).
  pose proof (ticks_finish id2 a2 first 59 F2 eq_refl eq_refl) as G.
  destruct G as (Hv2 & _ & Hn2 & Ho2 & _ & _).
  split; [exists a1, a2; auto|].
  split; [exact Hv|]. split; [exact Hi|].
  split; [rewrite F2; eauto|].
  split; [exact Hv2|]. split; [|exact Hn2].
  subst both. rewrite Ho2 by congruence. exact Hn.
Qed.

(** [decrement] never aims below zero: the sixty ticks of its
    animation leave the value at [max(0, value - increment)], which is
    not negative, whatever the increment. *)
Theorem decrement_stops_at_zero h :
  let id := nextId h in
  let h' := ticks 60 id (decrement h) in
  value h' = Math_max 0%Q (rendered h - increment h)%Q /\
  (0 <= value h')%Q /\
  isAnimating h' = false.
Proof.
  intros id h'.
  assert (Ha : animations (decrement h) !! id
               = Some {| startValue := rendered h;
                         stepValue :=
                           ((Math_max 0 (rendered h - increment h) - rendered h)
                            / inject_Z steps)%Q;
                         targetValue := Math_max 0%Q (rendered h - increment h)%Q;
                         currentStep := 0;
                         period := (inject_Z 1000 / inject_Z steps)%Q |})
    by apply lookup_insert_eq.
  pose proof (ticks_finish id _ (decrement h) 59 Ha eq_refl eq_refl) as F.
  destruct F as (Hv & Hi & _).
  cbn [targetValue] in Hv.
  split; [exact Hv|]. split; [|exact Hi].
  subst h'. rewrite Hv. unfold Math_max.
  destruct (Qle_bool 0 (rendered h - increment h)) eqn:E.
  - apply Qle_bool_iff, E.
  - apply Qle_refl.
Qed.

End LiveMetricsProps.
